(** * download_dem: source selection, tile matching and mosaic/clip pipeline

    A shallow embedding of the ancillary-data pipeline
    ([anc_main.py], [anc_regions.py], [anc_tools.py], the tile matchers
    of [dwn_SRTM.py], [dwn_NL.py], [dwn_DE.py], the reading of the
    credentials and the unpacking of the archives of [dwn_DK.py] and
    [dwn_MX.py]) together with the properties the specification states
    about it and further properties of the code.

    Conventions of the embedding.
    - Coordinates are integers (a fixed-point reading of the floats of the
      source); EPSG codes are integers.
    - The geometry engine (shapely / geopandas / pyproj) is an interface,
      the class [Geometry]; the pipeline is written against the interface
      and every statement holds for every implementation of it.  One small
      implementation, lattice regions, is given to evaluate the pipeline on
      concrete inputs.
    - Python dictionaries that are built and taken apart key by key are
      finite maps from key strings to tagged values.
    - Code that raises lives in an error monad; code that also touches the
      working directory lives in a state-and-error monad over a small
      file-system model.  A raster file has a name; the order in which a
      directory lists its files is the file system's and is a field of
      the interface to the outside, the class [Collaborators]. *)

From stdpp Require Import base option list strings gmap pretty.
From Stdlib Require Import ZArith Ascii.

Open Scope Z_scope.


(** ** Python exceptions *)

Inductive exn : Type :=
  | IndexError
  | KeyError (key : string)
  | ValueError (msg : string)
  | AttributeError
  | TypeError
  | OSError
  | OtherError (cls : string).

(** A computation that either raises or returns. *)
Definition result (A : Type) : Type := exn + A.

Definition raise {A : Type} (e : exn) : result A := inl e.
Definition ok {A : Type} (a : A) : result A := inr a.

Definition rbind {A B : Type} (c : result A) (k : A -> result B) : result B :=
  match c with
  | inl e => inl e
  | inr a => k a
  end.

Definition is_ok {A : Type} (c : result A) : bool :=
  match c with inl _ => false | inr _ => true end.

(** ** Python string operations *)

Module Py.
(** The line feed, as a character and as a string. *)
Definition LF_char : Ascii.ascii := Ascii.ascii_of_nat 10.
Definition LF : string := String LF_char "".

(** [c in s] for a character *)
Fixpoint has_char (c : Ascii.ascii) (s : string) : bool :=
  match s with
  | EmptyString => false
  | String c' s' => Ascii.eqb c' c || has_char c s'
  end.

(** Every character of [s] passes the test [p]. *)
Fixpoint all_chars (p : Ascii.ascii -> bool) (s : string) : bool :=
  match s with
  | EmptyString => true
  | String c s' => p c && all_chars p s'
  end.

(** [s.count(c)] for a character *)
Fixpoint count_char (c : Ascii.ascii) (s : string) : nat :=
  match s with
  | EmptyString => 0
  | String c' s' => (if Ascii.eqb c' c then 1 else 0) + count_char c s'
  end.

(** [s.split(sep)] for a separator of one character: the result is never
    empty, and two separators in a row give an empty field. *)
Fixpoint split (sep : Ascii.ascii) (s : string) : list string :=
  match s with
  | EmptyString => [EmptyString]
  | String c s' =>
      if Ascii.eqb c sep then EmptyString :: split sep s'
      else match split sep s' with
           | [] => [String c EmptyString]
           | w :: ws => String c w :: ws
           end
  end.

(** [s.endswith(sfx)]: some tail of [s] is [sfx]. *)
Fixpoint ends_with (sfx s : string) : bool :=
  String.eqb s sfx
  || match s with
     | EmptyString => false
     | String _ s' => ends_with sfx s'
     end.

(** [s[:-n]] for [n > 0] *)
Definition drop_last (n : nat) (s : string) : string :=
  String.substring 0 (String.length s - n) s.

(** The carriage return. *)
Definition CR_char : Ascii.ascii := Ascii.ascii_of_nat 13.
Definition CR : string := String CR_char "".

(** [f.readline()] on a file opened by [open(path)] at its start, as a
    function of what the file holds.  The file is read in text mode with
    universal newlines: a line feed, a carriage return and a carriage
    return followed by a line feed all end the line and are read as one
    line feed.  The result is the first line with its line feed, or
    everything when nothing ends the line. *)
Fixpoint readline (content : string) : string :=
  match content with
  | EmptyString => EmptyString
  | String c s' =>
      if Ascii.eqb c LF_char || Ascii.eqb c CR_char then LF
      else String c (readline s')
  end.

(** The ASCII characters [int] skips before and after a number: tab, line
    feed, vertical tab, form feed, carriage return and space. *)
Definition is_space (c : Ascii.ascii) : bool :=
  let n := Ascii.nat_of_ascii c in
  ((9 <=? n) && (n <=? 13) || (n =? 32))%nat.

(** The string without the white space [int] skips at its start. *)
Fixpoint lstrip (s : string) : string :=
  match s with
  | EmptyString => EmptyString
  | String c s' => if is_space c then lstrip s' else s
  end.

(** The string up to its last character that is not such white space. *)
Fixpoint rstrip (s : string) : string :=
  match s with
  | EmptyString => EmptyString
  | String c s' =>
      match rstrip s' with
      | EmptyString => if is_space c then EmptyString else String c EmptyString
      | t => String c t
      end
  end.

Definition strip (s : string) : string := rstrip (lstrip s).

Definition digit_val (c : Ascii.ascii) : option Z :=
  let n := Ascii.nat_of_ascii c in
  if ((48 <=? n) && (n <=? 57))%nat then Some (Z.of_nat n - 48) else None.

(** The value of a run of decimal digits, single underscores allowed
    between digits; [after_digit] tells whether the character before was a
    digit. *)
Fixpoint digits_val (acc : Z) (after_digit : bool) (s : string)
    : option Z :=
  match s with
  | EmptyString => if after_digit then Some acc else None
  | String c s' =>
      if Ascii.eqb c "_"%char then
        if after_digit then digits_val acc false s' else None
      else
        match digit_val c with
        | Some d => digits_val (10 * acc + d) true s'
        | None => None
        end
  end.

(** [int(s)] in base ten, on ASCII strings. *)
Definition int (s : string) : result Z :=
  let t := strip s in
  let parsed :=
    match t with
    | String c r =>
        if Ascii.eqb c "-"%char then option_map Z.opp (digits_val 0 false r)
        else if Ascii.eqb c "+"%char then digits_val 0 false r
        else digits_val 0 false t
    | EmptyString => None
    end in
  match parsed with
  | Some v => ok v
  | None => raise (ValueError "invalid literal for int() with base 10")
  end.

(** [l[i]] *)
Definition index {A : Type} (i : nat) (l : list A) : result A :=
  match l !! i with
  | Some x => ok x
  | None => raise IndexError
  end.
End Py.

(** ** The geometry engine *)

(** A bounding rectangle [(minx, miny, maxx, maxy)]. *)
Definition Bounds : Type := (Z * Z * Z * Z)%type.

Class Geometry (G : Type) : Type := {
  (** [shapely.geometry.box(minx, miny, maxx, maxy)] *)
  box : Z -> Z -> Z -> Z -> G;
  (** [a.within(b)] *)
  within : G -> G -> bool;
  (** [a.intersects(b)] *)
  intersects : G -> G -> bool;
  (** [a.envelope]: the axis-aligned bounding rectangle, as a geometry *)
  envelope : G -> G;
  (** [a.bounds] *)
  bounds : G -> Bounds;
  (** the coordinate transform from one EPSG code to another *)
  transform : Z -> Z -> G -> G
}.

(** A one-row [GeoSeries]: a geometry and the EPSG code of its CRS. *)
Record GeoSeries (G : Type) : Type := mkGeoSeries {
  gs_geom : G;
  gs_crs : Z
}.
Arguments mkGeoSeries {G} _ _.
Arguments gs_geom {G} _.
Arguments gs_crs {G} _.

Section GeoSeriesOps.
Context {G : Type} `{Geometry G}.

(** [gs.to_crs(crs=epsg)] always transforms. *)
Definition to_crs (gs : GeoSeries G) (epsg : Z) : GeoSeries G :=
  mkGeoSeries (transform (gs_crs gs) epsg (gs_geom gs)) epsg.

(** [gs.envelope] keeps the CRS. *)
Definition gs_envelope (gs : GeoSeries G) : GeoSeries G :=
  mkGeoSeries (envelope (gs_geom gs)) (gs_crs gs).

(** [tuple(gs.bounds.iloc[0])] *)
Definition gs_bounds (gs : GeoSeries G) : Bounds := bounds (gs_geom gs).

(** The reconciliation pattern every caller writes out:
<<
    if target != gs.crs.to_epsg():
        pr = gs.to_crs(crs=target)
    else:
        pr = gs
>> *)
Definition reproject (gs : GeoSeries G) (target : Z) : GeoSeries G :=
  if bool_decide (target ≠ gs_crs gs) then to_crs gs target else gs.
End GeoSeriesOps.

(** ** Rasters *)

(** A numpy array of shape [(count, height, width)], flattened. *)
Record Array : Type := mkArray {
  shape : Z * Z * Z;
  data : list Z
}.

(** [mosaic.shape[1]] and [mosaic.shape[2]] *)
Definition shape1 (a : Array) : Z := snd (fst (shape a)).
Definition shape2 (a : Array) : Z := snd (shape a).

(** An affine transform, indexed [0..5] as rasterio's [Affine] is. *)
Record Affine : Type := mkAffine {
  af_a : Z; af_b : Z; af_c : Z; af_d : Z; af_e : Z; af_f : Z
}.

(** The rasterio metadata dictionary of a dataset. *)
Record Meta : Type := mkMeta {
  driver : string;
  dtype : string;
  nodata : option Z;
  width : Z;
  height : Z;
  count : Z;
  crs : option Z;
  trans : Affine
}.

(** An opened raster file: its base name in its directory, its metadata
    and its pixels. *)
Record Dataset : Type := mkDataset {
  ds_name : string;
  ds_meta : Meta;
  ds_array : Array
}.

(** The raster [ds] under the file name [name]. *)
Definition renamed (name : string) (ds : Dataset) : Dataset :=
  mkDataset name (ds_meta ds) (ds_array ds).

(** [src.crs] *)
Definition ds_crs (src : Dataset) : option Z := crs (ds_meta src).

(** [src.meta.copy()] followed by
    [update({"driver": .., "height": .., "width": .., "transform": ..})] *)
Definition meta_update (m : Meta) (drv : string) (h w : Z) (t : Affine) : Meta :=
  {| driver := drv; dtype := dtype m; nodata := nodata m;
     width := w; height := h; count := count m; crs := crs m; trans := t |}.

(** ** Dictionary values *)

Inductive pyval : Type :=
  | VNone
  | VStr (s : string)
  | VNum (z : Z)
  | VArr (a : Array)
  | VMeta (m : Meta)
  | VCrs (epsg : Z).

(** [d.pop(key)] *)
Definition py_pop (key : string) (d : gmap string pyval)
    : result (pyval * gmap string pyval) :=
  match d !! key with
  | Some v => ok (v, delete key d)
  | None => raise (KeyError key)
  end.

(** [d[key]] *)
Definition py_getitem (key : string) (d : gmap string pyval) : result pyval :=
  match d !! key with
  | Some v => ok v
  | None => raise (KeyError key)
  end.

(** Attribute access on a value that must be a metadata dictionary. *)
Definition as_meta (v : pyval) : result Meta :=
  match v with
  | VMeta m => ok m
  | _ => raise AttributeError
  end.

(** [l[0]] *)
Definition py_index0 {A : Type} (l : list A) : result A :=
  match l with
  | [] => raise IndexError
  | x :: _ => ok x
  end.

(** ** The working storage *)

(** Directories that exist, paths whose removal the operating system
    refuses, and for each directory its [*.tif] files in the order [glob]
    returns them. *)
Record FS : Type := mkFS {
  fs_dirs : gset string;
  fs_locked : gset string;
  fs_tifs : gmap string (list Dataset)
}.

(** State-and-error monad over the working storage. *)
Definition M (A : Type) : Type := FS -> result A * FS.

Definition mret {A : Type} (a : A) : M A := fun fs => (ok a, fs).

Definition mbind {A B : Type} (c : M A) (k : A -> M B) : M B :=
  fun fs =>
    match c fs with
    | (inl e, fs') => (inl e, fs')
    | (inr a, fs') => k a fs'
    end.

Definition lift {A : Type} (c : result A) : M A := fun fs => (c, fs).

Definition mraise {A : Type} (e : exn) : M A := lift (raise e).

Notation "'do' x <- c ; k" := (mbind c (fun x => k))
  (at level 10, x name, c at level 100, k at level 200, only parsing).
Notation "'do' ' pat <- c ; k" :=
  (mbind c (fun x => match x with pat => k end))
  (at level 10, pat pattern, c at level 100, k at level 200, only parsing).

(** [os.path.join(a, b)] for a relative [b] *)
Definition os_path_join (a b : string) : string := a +:+ "/" +:+ b.

(** [d] is [p] or lies below it. *)
Definition is_under (p d : string) : bool :=
  bool_decide (d = p) || String.prefix (p +:+ "/") d.

(** Removal of [d] is refused when [d] or something below it is locked. *)
Definition blocked (fs : FS) (d : string) : bool :=
  bool_decide (set_Exists (fun l => is_under d l = true) (fs_locked fs)).

Definition removable (fs : FS) (p d : string) : bool :=
  is_under p d && negb (blocked fs d).

(** [os.path.exists(p)] *)
Definition os_path_exists (p : string) : M bool :=
  fun fs => (ok (bool_decide (p ∈ fs_dirs fs)), fs).

(** [os.mkdir(p)] *)
Definition os_mkdir (p : string) : M unit :=
  fun fs =>
    if bool_decide (p ∈ fs_dirs fs) then (raise OSError, fs)
    else (ok tt, mkFS ({[p]} ∪ fs_dirs fs) (fs_locked fs) (fs_tifs fs)).

(** The working storage after [shutil.rmtree(p, ...)]: everything under [p]
    whose removal is not refused is gone. *)
Definition rmtree_fs (p : string) (fs : FS) : FS :=
  mkFS (filter (fun d => removable fs p d = false) (fs_dirs fs))
       (fs_locked fs)
       (filter (fun kv => removable fs p (fst kv) = false) (fs_tifs fs)).

(** Whether [shutil.rmtree(p)] meets an error on the way. *)
Definition rmtree_fails (p : string) (fs : FS) : bool :=
  bool_decide (p ∉ fs_dirs fs) || blocked fs p.

(** [shutil.rmtree(p, ignore_errors=...)] *)
Definition rmtree (p : string) (ignore_errors : bool) : M unit :=
  fun fs =>
    if rmtree_fails p fs && negb ignore_errors
    then (raise OSError, rmtree_fs p fs)
    else (ok tt, rmtree_fs p fs).

(** [glob.glob(os.path.join(i_dir, '*.tif'))] followed by [rasterio.open]
    on every path. *)
Definition glob_tif (i_dir : string) : M (list Dataset) :=
  fun fs => (ok (default [] (fs_tifs fs !! i_dir)), fs).

(** The files of [o_dir] rewritten in place: the directory lists [tifs]
    from then on. *)
Definition write_tifs (o_dir : string) (tifs : list Dataset) : M unit :=
  fun fs =>
    (ok tt,
     mkFS (fs_dirs fs) (fs_locked fs) (<[o_dir := tifs]> (fs_tifs fs))).

(** The listing [l] without the file called [name]. *)
Definition others (name : string) (l : list Dataset) : list Dataset :=
  filter (fun d => ds_name d <> name) l.

(** The listing [l] once the file that is called as [ds] is holds [ds]:
    a change in place, the files are listed as before. *)
Definition updated (l : list Dataset) (ds : Dataset) : list Dataset :=
  map (fun d => if bool_decide (ds_name d = ds_name ds) then ds else d) l.

Definition update_tif (o_dir : string) (ds : Dataset) : M unit :=
  fun fs =>
    (ok tt,
     mkFS (fs_dirs fs) (fs_locked fs)
          (<[o_dir := updated (default [] (fs_tifs fs !! o_dir)) ds]>
             (fs_tifs fs))).

(** [if not os.path.exists(p): os.mkdir(p)] *)
Definition ensure_dir (p : string) : M unit :=
  do e <- os_path_exists p;
  if e then mret tt else os_mkdir p.

(** ** Region coverage catalog and source selection ([anc_main.py]) *)

Record RegionRow (G : Type) : Type := mkRegionRow {
  abbrev : string;
  geometry : G
}.
Arguments mkRegionRow {G} _ _.
Arguments abbrev {G} _.
Arguments geometry {G} _.

Record RegionCatalog (G : Type) : Type := mkRegionCatalog {
  rc_crs : Z;
  rc_rows : list (RegionRow G)
}.
Arguments mkRegionCatalog {G} _ _.
Arguments rc_crs {G} _.
Arguments rc_rows {G} _.

(** The acquisition adapter a tag dispatches to. *)
Inductive Region : Type := NL | DK | SI | DE_NRW | MX | SRTM.

(** ** External collaborators *)

(** What a download or conversion stage hands to the next one: the
    dictionary [{'out_msg': .., 'out_dir': ..}]. *)
Record StageOut : Type := mkStageOut {
  out_msg : string;
  out_dir : string
}.

(** Network transport, format conversion, the point-cloud binaries, the
    nodata interpolation, the raster merge and the bundled reference data
    are not part of the embedding: they are the fields of this class. *)
Class Collaborators (G : Type) : Type := {
  (** [rasterio.merge.merge(datasets, bounds=bounds)] *)
  rasterio_merge : list Dataset -> option Bounds -> result (Array * Affine);
  (** lines 166-192 of [fill_tif] on the copy of one raster: what the copy
      holds afterwards, and the exception if GDAL raised one *)
  gdal_fill_nodata : Dataset -> Dataset * option exn;
  (** LAStools [lasindex] on the [*.laz] files of a directory *)
  lastools_lasindex : string -> result unit;
  (** LAStools [blast2dem -intensity] on a directory, cut to bounds: the
      raster files it writes into its output directory *)
  lastools_blast2dem : string -> Bounds -> result (list Dataset);
  (** the order in which the file system lists the files of a directory
      once a file was written into it *)
  dir_order : string -> list Dataset -> list Dataset;
  dir_order_perm : forall d l, dir_order d l ≡ₚ l;
  (** [rasterio.crs.CRS.from_dict(..).wkt] *)
  crs_wkt : Z -> string;
  (** [gpd.read_file("dtm_open_data.shp")] *)
  read_open_dtm : RegionCatalog G;
  (** the [download] function of each [dwn_*] module *)
  dwn_NL_download : string -> GeoSeries G -> string -> M StageOut;
  dwn_DK_download : GeoSeries G -> string -> string -> M StageOut;
  dwn_SI_download : string -> GeoSeries G -> string -> bool -> M StageOut;
  dwn_DE_download : string -> GeoSeries G -> string -> string -> M StageOut;
  dwn_SRTM_download : GeoSeries G -> string -> M StageOut;
  dwn_MX_download : GeoSeries G -> string -> M StageOut
}.

(** ** Raster tools ([anc_tools.py]) *)

Module anc_tools.
Section anc_tools.
Context {G : Type} `{Geometry G} `{Collaborators G}.

(** Lines 85-98 of [merge_clip]: the clip rectangle, decided on
    [src_all[0]]. *)
Definition clip_bounds (src_all : list Dataset) (gs_aoi : GeoSeries G)
    : result (option Bounds) :=
  rbind (py_index0 src_all) (fun src0 =>
    match ds_crs src0 with
    | None => ok None
    | Some raster_crs =>
        let aoi_pr := reproject gs_aoi raster_crs in
        ok (Some (gs_bounds aoi_pr))
    end).

(** [merge_clip(i_dir, gs_aoi)] *)
Definition merge_clip (i_dir : string) (gs_aoi : GeoSeries G)
    : M (gmap string pyval) :=
  do src_all <- glob_tif i_dir;
  do bnds <- lift (clip_bounds src_all gs_aoi);
  do '(mosaic, out_trans) <- lift (rasterio_merge src_all bnds);
  do src0 <- lift (py_index0 src_all);
  let out_meta :=
    meta_update (ds_meta src0) "GTiff" (shape1 mosaic) (shape2 mosaic)
                out_trans in
  mret ({[ "out_msg" := VStr "File successfully merged and clipped!";
           "array" := VArr mosaic;
           "dtm_meta" := VMeta out_meta ]} : gmap string pyval).

(** The listing of [o_dir] once the raster file [ds] was written into it:
    a file of the same name is replaced, and the file system decides how
    the directory lists its files from then on. *)
Definition placed (o_dir : string) (l : list Dataset) (ds : Dataset)
    : list Dataset :=
  dir_order o_dir (ds :: others (ds_name ds) l).

(** Writing the raster file [ds] into [o_dir]. *)
Definition put_tif (o_dir : string) (ds : Dataset) : M unit :=
  fun fs =>
    (ok tt,
     mkFS (fs_dirs fs) (fs_locked fs)
          (<[o_dir := placed o_dir (default [] (fs_tifs fs !! o_dir)) ds]>
             (fs_tifs fs))).

Fixpoint put_tifs (o_dir : string) (tifs : list Dataset) : M unit :=
  match tifs with
  | [] => mret tt
  | ds :: more => do _ <- put_tif o_dir ds; put_tifs o_dir more
  end.

(** [os.path.basename(ds)[:-4] + '_fill.tif'] *)
Definition fill_name (name : string) : string :=
  Py.drop_last 4 name +:+ "_fill.tif".

(** The copy [CreateCopy] makes of a raster in the output directory
    (line 162). *)
Definition fill_copy (ds : Dataset) : Dataset :=
  renamed (fill_name (ds_name ds)) ds.

(** What that copy holds once lines 166-192 are through with it. *)
Definition fill_result (ds : Dataset) : Dataset :=
  renamed (fill_name (ds_name ds)) (fst (gdal_fill_nodata (fill_copy ds))).

(** The [for ds in dem_fps] loop of [fill_tif]: every raster is copied
    into [o_dir] first and the copy is interpolated in place after that,
    so the copy is there when the interpolation raises. *)
Fixpoint fill_loop (o_dir : string) (dem_fps : list Dataset) : M unit :=
  match dem_fps with
  | [] => mret tt
  | ds :: more =>
      do _ <- put_tif o_dir (fill_copy ds);
      do _ <- update_tif o_dir (fill_result ds);
      match snd (gdal_fill_nodata (fill_copy ds)) with
      | Some e => mraise e
      | None => fill_loop o_dir more
      end
  end.

(** [fill_tif(i_dir)] *)
Definition fill_tif (i_dir : string) : M StageOut :=
  do dem_fps <- glob_tif i_dir;
  let o_dir := i_dir +:+ "_fill" in
  do _ <- ensure_dir o_dir;
  do _ <- fill_loop o_dir dem_fps;
  mret (mkStageOut "File/s successfully filled!" o_dir).

(** [las_index(i_dir)] *)
Definition las_index (i_dir : string) : M unit :=
  lift (lastools_lasindex i_dir).

(** [las_intensity(i_dir, gs_aoi, epsg)] *)
Definition las_intensity (i_dir : string) (gs_aoi : GeoSeries G) (epsg : Z)
    : M StageOut :=
  let aoi_pr := reproject gs_aoi epsg in
  let bnds := gs_bounds aoi_pr in
  let o_dir := i_dir +:+ "_toIntensity" in
  do _ <- ensure_dir o_dir;
  do tifs <- lift (lastools_blast2dem i_dir bnds);
  do _ <- put_tifs o_dir tifs;
  mret (mkStageOut "Successfuly created Intensity from LAZ!" o_dir).

(** The body of the loop of [assign_crs]. *)
Definition assign_one (epsg : Z) (tif : Dataset) : Dataset :=
  match ds_crs tif with
  | None =>
      let m := ds_meta tif in
      mkDataset (ds_name tif)
                {| driver := driver m; dtype := dtype m; nodata := nodata m;
                   width := width m; height := height m; count := count m;
                   crs := Some epsg; trans := trans m |}
                (ds_array tif)
  | Some _ => tif
  end.

(** [assign_crs(tif_dir, epsg)] *)
Definition assign_crs (tif_dir : string) (epsg : Z) : M string :=
  do dem_fps <- glob_tif tif_dir;
  do _ <- (match dem_fps with
           | [] => mret tt
           | _ => write_tifs tif_dir (map (assign_one epsg) dem_fps)
           end);
  mret ("Successfully assigned EPSG:" +:+ pretty epsg +:+ " to files in "
        +:+ tif_dir +:+ ".").
End anc_tools.

(** The test [nodata in array] on the pixels of band 1; a missing nodata
    value ([None]) is an element of no array. *)
Definition nodata_in (nodata : option Z) (array : list Z) : bool :=
  match nodata with
  | None => false
  | Some v => existsb (Z.eqb v) array
  end.

(** Lines 166-192 of [fill_tif], on the pixels of band 1 of the copy:
<<
    array_out = bnd_out.ReadAsArray()
    if nodata in array_out:
        gdal.FillNodata(bnd_out, ...)
        array_out = bnd_out.ReadAsArray()
        if nodata in array_out:
            array_out[array_out == nodata] = 0
            ds_out.GetRasterBand(1).WriteArray(array_out)
>>
    [fill_nodata] is the interpolation of GDAL. *)
Definition fill_band (fill_nodata : list Z -> list Z) (nodata : option Z)
    (array_out : list Z) : list Z :=
  if nodata_in nodata array_out then
    let array_out := fill_nodata array_out in
    if nodata_in nodata array_out then
      map (fun v => if nodata_in nodata [v] then 0 else v) array_out
    else array_out
  else array_out.

(** [nodata_check(tif_pth)], on the pixels of band 1 and its nodata
    value. *)
Definition nodata_check (nodata : option Z) (array : list Z) : bool :=
  if nodata_in nodata array then true else false.
End anc_tools.

(** ** Tile index matchers ([dwn_SRTM.py], [dwn_NL.py], [dwn_DE.py]) *)

(** A tile catalog as [gpd.read_file] returns it: the EPSG code of its CRS
    and its rows in iteration order. *)
Record Fishnet (Row : Type) : Type := mkFishnet {
  fn_crs : Z;
  fn_rows : list Row
}.
Arguments mkFishnet {Row} _ _.
Arguments fn_crs {Row} _.
Arguments fn_rows {Row} _.

Module dwn_SRTM.
Record Row (G : Type) : Type := mkRow {
  tile_name : string;
  geometry : G
}.
Arguments mkRow {G} _ _.
Arguments tile_name {G} _.
Arguments geometry {G} _.

Section dwn_SRTM.
Context {G : Type} `{Geometry G}.

(** [get_tile_names(aoi)], the catalog read from
    [srtm30m_bounding_boxes.json] being an argument. *)
Definition get_tile_names (fishnet : Fishnet (Row G)) (aoi : GeoSeries G)
    : list string :=
  let net_crs := fn_crs fishnet in
  let aoi_crs := gs_crs aoi in
  let aoi_pr :=
    if bool_decide (net_crs ≠ aoi_crs)
    then gs_envelope (to_crs aoi net_crs)
    else gs_envelope aoi in
  fold_left
    (fun tiles row =>
       let ints_tile := intersects (gs_geom aoi_pr) (geometry row) in
       if ints_tile then tiles ++ [tile_name row] else tiles)
    (fn_rows fishnet) [].
End dwn_SRTM.

(** Lines 92-99 of [download_files]: the user name and the password are
    the two fields of the first line of the credentials file;
    [file] is the content of the file, [None] when it cannot be opened
    (then [sys.exit] ends the program).
<<
    try:
        with open(file_credentials) as f:
            (username, passw) = f.readline().split(" ")
            if passw.endswith("\n"):
                passw = passw[:-1]
    except IOError:
        sys.exit('Error reading the password file!')
>> *)
Definition read_credentials (file : option string)
    : result (string * string) :=
  match file with
  | None => raise (OtherError "SystemExit")
  | Some content =>
      match Py.split " "%char (Py.readline content) with
      | [username; passw] =>
          ok (username,
              if Py.ends_with Py.LF passw then Py.drop_last 1 passw
              else passw)
      | _ => raise (ValueError "unpack")
      end
  end.
End dwn_SRTM.

Module dwn_NL.
Record Row (G : Type) : Type := mkRow {
  Kaartblad : string;
  AHN3_LAZ : string;
  AHN3_05m_DTM : string;
  ahn2_05m_i : string;
  ahn2_05m_r : string;
  geometry : G
}.
Arguments mkRow {G} _ _ _ _ _ _.
Arguments Kaartblad {G} _.
Arguments AHN3_LAZ {G} _.
Arguments AHN3_05m_DTM {G} _.
Arguments ahn2_05m_i {G} _.
Arguments ahn2_05m_r {G} _.
Arguments geometry {G} _.

(** The dictionary of five parallel lists the matcher fills. *)
Record Tiles : Type := mkTiles {
  tile_names : list string;
  laz_url : list string;
  dtm_url : list string;
  ahn2_i : list string;
  ahn2_r : list string
}.

Section dwn_NL.
Context {G : Type} `{Geometry G}.

(** The body of the loop over the catalog rows. *)
Definition add_row (aoi_pr : GeoSeries G) (tiles : Tiles) (row : Row G)
    : Tiles :=
  let ints_tile := intersects (gs_geom aoi_pr) (geometry row) in
  if ints_tile then
    {| tile_names := tile_names tiles ++ [Kaartblad row];
       laz_url := laz_url tiles ++ [AHN3_LAZ row];
       dtm_url := dtm_url tiles ++ [AHN3_05m_DTM row];
       ahn2_i := ahn2_i tiles ++ [ahn2_05m_i row];
       ahn2_r := ahn2_r tiles ++ [ahn2_05m_r row] |}
  else tiles.

(** [get_tile_names(aoi)], the AHN3 catalog (from the API or from the
    bundled copy) being an argument. *)
Definition get_tile_names (ahn3_gj : Fishnet (Row G)) (aoi : GeoSeries G)
    : Tiles :=
  let ahn_crs := fn_crs ahn3_gj in
  let aoi_crs := gs_crs aoi in
  let aoi_pr :=
    if bool_decide (ahn_crs ≠ aoi_crs)
    then gs_envelope (to_crs aoi ahn_crs)
    else gs_envelope aoi in
  fold_left (add_row aoi_pr) (fn_rows ahn3_gj) (mkTiles [] [] [] [] []).
End dwn_NL.
End dwn_NL.

(** Python's [round(n / d)] for integers [n] and [d > 0]: to the nearest
    integer, a tie to the even one. *)
Definition py_round_div (n d : Z) : Z :=
  let q := n / d in
  let r := n mod d in
  if 2 * r <? d then q
  else if d <? 2 * r then q + 1
  else if Z.even q then q else q + 1.

Module dwn_DE.
Record Row (G : Type) : Type := mkRow {
  file_name : string;
  laz_name : string;
  left : Z;
  bottom : Z;
  geometry : G
}.
Arguments mkRow {G} _ _ _ _ _.
Arguments file_name {G} _.
Arguments laz_name {G} _.
Arguments left {G} _.
Arguments bottom {G} _.
Arguments geometry {G} _.

Definition url_path : string :=
  "https://www.opengeodata.nrw.de/produkte/geobasis/hm/".

(** [f"3dm_32_{x}_{y}_1_nw.laz"] *)
Definition laz_tile (x y : Z) : string :=
  "3dm_32_" +:+ pretty x +:+ "_" +:+ pretty y +:+ "_1_nw.laz".

Section dwn_DE.
Context {G : Type} `{Geometry G}.

(** The body of the loop over the fishnet rows. *)
Definition add_row (aoi_pr : GeoSeries G) (url_main : string)
    (file_type : Row G -> string) (tiles : list string) (row : Row G)
    : list string :=
  let ints_tile := intersects (gs_geom aoi_pr) (geometry row) in
  if ints_tile then
    let tiles := tiles ++ [url_main +:+ file_type row] in
    let ax := py_round_div (left row) 1000 in
    let ay := py_round_div (bottom row) 1000 in
    let tiles := tiles ++ [url_main +:+ laz_tile (ax + 1) ay] in
    let tiles := tiles ++ [url_main +:+ laz_tile ax (ay + 1)] in
    let tiles := tiles ++ [url_main +:+ laz_tile (ax + 1) (ay + 1)] in
    tiles
  else tiles.

(** [get_tile_names(aoi, data_type)], the catalog read from
    [fishnet_DE.shp] being an argument. *)
Definition get_tile_names (fishnet : Fishnet (Row G)) (aoi : GeoSeries G)
    (data_type : string) : result (list string) :=
  let grd_crs := fn_crs fishnet in
  let aoi_crs := gs_crs aoi in
  let aoi_pr :=
    if bool_decide (grd_crs ≠ aoi_crs)
    then gs_envelope (to_crs aoi grd_crs)
    else gs_envelope aoi in
  rbind
    (if String.eqb data_type "DTM" then
       ok (url_path +:+ "dgm1_xyz/dgm1_xyz/", file_name)
     else if String.eqb data_type "LAZ" then
       ok (url_path +:+ "3dm_l_las/3dm_l_las/", laz_name)
     else
       raise (ValueError ("Unrecognized data type '" +:+ data_type
                          +:+ "' dwn_DE.py.")))
    (fun '(url_main, file_type) =>
       ok (fold_left (add_row aoi_pr url_main file_type)
                     (fn_rows fishnet) [])).
End dwn_DE.
End dwn_DE.

(** ** Selective extraction of the Danish archives ([dwn_DK.py]) *)

Module dwn_DK.
(** [math.floor(v / 1000)] and [math.ceil(v / 1000)] *)
Definition floor_km (v : Z) : Z := v / 1000.
Definition ceil_km (v : Z) : Z := - ((- v) / 1000).

(** The test of one archive entry in [extract_files]:
<<
    grid = flnm[:-4].split("_")
    test = (y_min <= int(grid[2]) < y_max
            and x_min <= int(grid[3]) < x_max)
>>
    The fourth field is looked at only when the third passed. *)
Definition covered (x_min x_max y_min y_max : Z) (flnm : string)
    : result bool :=
  let grid := Py.split "_"%char (Py.drop_last 4 flnm) in
  rbind (Py.index 2 grid) (fun g2 =>
  rbind (Py.int g2) (fun v2 =>
  if (y_min <=? v2) && (v2 <? y_max) then
    rbind (Py.index 3 grid) (fun g3 =>
    rbind (Py.int g3) (fun v3 =>
    ok ((x_min <=? v3) && (v3 <? x_max))))
  else ok false)).

(** The loop over the entries: the entries extracted, in order, and the
    exception that ended the loop, if one did. *)
Fixpoint extract_loop (x_min x_max y_min y_max : Z) (tifs : list string)
    : list string * option exn :=
  match tifs with
  | [] => ([], None)
  | flnm :: more =>
      match covered x_min x_max y_min y_max flnm with
      | inl e => ([], Some e)
      | inr test =>
          let '(extracted, err) :=
            extract_loop x_min x_max y_min y_max more in
          (if test then flnm :: extracted else extracted, err)
      end
  end.

(** [extract_files(path_to_zip_file, gs_aoi, dt)], on the names the
    archive lists and the bounds of the AOI. *)
Definition extract_files (namelist : list string) (aoi_bounds : Bounds)
    (dt : string) : list string * option exn :=
  let '(minx, miny, maxx, maxy) := aoi_bounds in
  let x_min := floor_km minx in
  let x_max := ceil_km maxx in
  let y_min := floor_km miny in
  let y_max := ceil_km maxy in
  match (if String.eqb dt "DTM" then ok ".tif"
         else if String.eqb dt "LAZ" then ok ".laz"
         else raise (ValueError ("Unrecognized data type '" +:+ dt
                                 +:+ "' in extract_files."))) with
  | inl e => ([], Some e)
  | inr file_sfx =>
      let tifs :=
        filter (fun item => Py.ends_with file_sfx item = true) namelist in
      extract_loop x_min x_max y_min y_max tifs
  end.

(** The name of the 1 km tile with lower-left corner [(gx, gy)] km in an
    archive: four fields joined by underscores, then the suffix. *)
Definition tile_entry (kind res : string) (gy gx : Z) (sfx : string)
    : string :=
  kind +:+ "_" +:+ res +:+ "_" +:+ pretty gy +:+ "_" +:+ pretty gx +:+ sfx.
End dwn_DK.

(** ** [dwn_MX.py]: unpacking one downloaded archive *)

Module dwn_MX.
Section extract_zip.
(** [os.path.basename], and whether [zzip.extract] writes the entry
    ([false]: it raises the [ValueError] the loop catches). *)
Variable basename : string -> string.
Variable extract_ok : string -> bool.

(** The loop of [extract_zip] over the entries of the archive; [fnm] is the
    local variable of that name, [None] while it is unbound:
<<
    for fil in zzip.namelist():
        if fil.endswith('.xyz') or fil.endswith('.html'):
            ...
            try:
                zzip.extract(zip_info, dwn_dir)
                if fil.endswith('.xyz'):
                    fnm = join(dwn_dir, basename(fil))
            except ValueError:
                print("Extraction of this file failed!")
>> *)
Fixpoint extract_loop (dwn_dir : string) (namelist : list string)
    (fnm : option string) : option string :=
  match namelist with
  | [] => fnm
  | fil :: more =>
      let fnm' :=
        if Py.ends_with ".xyz" fil || Py.ends_with ".html" fil then
          if extract_ok fil then
            if Py.ends_with ".xyz" fil
            then Some (os_path_join dwn_dir (basename fil))
            else fnm
          else fnm
        else fnm in
      extract_loop dwn_dir more fnm'
  end.

(** [extract_zip(path_to_zip_file)], on the directory of the archive and
    the names it lists; [return fnm] reads a variable the loop may have
    left unbound. *)
Definition extract_zip (dwn_dir : string) (namelist : list string)
    : result string :=
  match extract_loop dwn_dir namelist None with
  | Some fnm => ok fnm
  | None => raise (OtherError "UnboundLocalError")
  end.
End extract_zip.
End dwn_MX.

(** ** Per-region preparation ([anc_regions.py]) *)

Module anc_regions.
Section anc_regions.
Context {G : Type} `{Geometry G} `{Collaborators G}.

(** The tail shared by the point-cloud branches that assign a CRS. *)
Definition laz_branch (dwn_dir : string) (gs_aoi : GeoSeries G)
    (epsg : Z) (assign : bool) : M (gmap string pyval) :=
  do _ <- anc_tools.las_index dwn_dir;
  do out <- anc_tools.las_intensity dwn_dir gs_aoi epsg;
  let inty_dir := out_dir out in
  do _ <- (if assign
           then do _ <- anc_tools.assign_crs inty_dir epsg; mret tt
           else mret tt);
  anc_tools.merge_clip inty_dir gs_aoi.

(** [get_NL(data_type, tmp_dir, gs_aoi)] *)
Definition get_NL (data_type tmp_dir : string) (gs_aoi : GeoSeries G)
    : M (gmap string pyval) :=
  do dwn_out <- dwn_NL_download data_type gs_aoi tmp_dir;
  let dwn_dir := out_dir dwn_out in
  do out <- (if String.eqb data_type "DTM" then
               do out <- anc_tools.fill_tif dwn_dir;
               anc_tools.merge_clip (out_dir out) gs_aoi
             else if String.eqb data_type "LAZ" then
               laz_branch dwn_dir gs_aoi 28992 true
             else
               mraise (ValueError
                         ("Unknown data type selected: " +:+ data_type)));
  mret (<["out_msg" := VStr ("Ancillary " +:+ data_type
           +:+ " data for Netherlands successfully prepared!")]> out).

(** [get_DK(data_type, tmp_dir, gs_aoi)] *)
Definition get_DK (data_type tmp_dir : string) (gs_aoi : GeoSeries G)
    : M (gmap string pyval) :=
  do dwn_out <- dwn_DK_download gs_aoi tmp_dir data_type;
  let dwn_dir := out_dir dwn_out in
  do out <- (if String.eqb data_type "DTM" then
               anc_tools.merge_clip dwn_dir gs_aoi
             else if String.eqb data_type "LAZ" then
               laz_branch dwn_dir gs_aoi 25832 false
             else
               mraise (ValueError "Unknown data_type selected!"));
  mret (<["out_msg" := VStr ("Ancillary " +:+ data_type
           +:+ " data for Denmark successfully prepared!")]> out).

(** [get_SI(data_type, tmp_dir, gs_aoi, local=False)] *)
Definition get_SI (data_type tmp_dir : string) (gs_aoi : GeoSeries G)
    (local : bool) : M (gmap string pyval) :=
  do out_dwn <- dwn_SI_download data_type gs_aoi tmp_dir local;
  let dwn_dir := out_dir out_dwn in
  do out <- (if String.eqb data_type "DTM" then
               anc_tools.merge_clip dwn_dir gs_aoi
             else if String.eqb data_type "LAZ" then
               laz_branch dwn_dir gs_aoi 3794 true
             else
               mraise (ValueError "Unknown data_type selected!"));
  mret (<["out_msg" :=
           VStr "Ancillary DTM data for Slovenia successfully prepared!"]>
          out).

(** [get_DE(data_type, tmp_dir, gs_aoi, region)] *)
Definition get_DE (data_type tmp_dir : string) (gs_aoi : GeoSeries G)
    (region : string) : M (gmap string pyval) :=
  do out_dwn <- dwn_DE_download data_type gs_aoi tmp_dir region;
  let dwn_dir := out_dir out_dwn in
  do out <- (if String.eqb data_type "DTM" then
               anc_tools.merge_clip dwn_dir gs_aoi
             else if String.eqb data_type "LAZ" then
               laz_branch dwn_dir gs_aoi 25832 false
             else
               mraise (ValueError "Unknown data_type selected!"));
  mret (<["out_msg" := VStr ("Ancillary " +:+ data_type
           +:+ " data for Germany " +:+ region
           +:+ " successfully prepared!")]> out).

(** [get_SRTM(tmp_dir, gs_aoi)] *)
Definition get_SRTM (tmp_dir : string) (gs_aoi : GeoSeries G)
    : M (gmap string pyval) :=
  do out_dwn <- dwn_SRTM_download gs_aoi tmp_dir;
  let dtm_dir := out_dir out_dwn in
  do out <- anc_tools.merge_clip dtm_dir gs_aoi;
  mret (<["out_msg" :=
           VStr "Ancillary DTM data from SRTM successfully prepared!"]>
          out).

(** [get_MX(tmp_dir, gs_aoi)] *)
Definition get_MX (tmp_dir : string) (gs_aoi : GeoSeries G)
    : M (gmap string pyval) :=
  do out_dwn <- dwn_MX_download gs_aoi tmp_dir;
  let dtm_dir := out_dir out_dwn in
  do out <- anc_tools.merge_clip dtm_dir gs_aoi;
  mret (<["out_msg" :=
           VStr "Ancillary DTM data from SRTM successfully prepared!"]>
          out).
End anc_regions.
End anc_regions.

(** ** The orchestrator ([anc_main.py]) *)

Module anc_main.
Section anc_main.
Context {G : Type} `{Geometry G} `{Collaborators G}.

(** One iteration of
<<
    for _, row in open_dtm.iterrows():
        ints = wgs_aoi.within(row.geometry)
        if ints[0]:
            select = row['abbrev']
        if select is None:
            select = 'SRTM'
>> *)
Definition select_step (wgs_aoi : GeoSeries G)
    (select : option string) (row : RegionRow G) : option string :=
  let ints := within (gs_geom wgs_aoi) (geometry row) in
  let select := if ints then Some (abbrev row) else select in
  match select with
  | None => Some "SRTM"
  | Some _ => select
  end.

(** The loop, started from [select = None]. *)
Definition select_database (open_dtm : RegionCatalog G)
    (wgs_aoi : GeoSeries G) : option string :=
  fold_left (select_step wgs_aoi) (rc_rows open_dtm) None.

(** The [if select == 'NL': ... elif ... else:] chain. *)
Definition dispatch (select : option string) : Region :=
  match select with
  | None => SRTM
  | Some tag =>
      if String.eqb tag "NL" then NL
      else if String.eqb tag "DK" then DK
      else if String.eqb tag "SI" then SI
      else if String.eqb tag "DE_NRW" then DE_NRW
      else if String.eqb tag "MX" then MX
      else SRTM
  end.

(** Reprojection of the AOI into the catalog CRS, then the loop. *)
Definition select_source (open_dtm : RegionCatalog G)
    (gs_aoi : GeoSeries G) : option string :=
  let wgs_epsg := rc_crs open_dtm in
  let wgs_aoi := reproject gs_aoi wgs_epsg in
  select_database open_dtm wgs_aoi.

(** Lines 92-114: the primary product, and the secondary one where the
    branch asks for it. *)
Definition acquire (select : option string) (tmp_dir : string)
    (gs_aoi : GeoSeries G)
    : M (gmap string pyval * option (gmap string pyval)) :=
  match dispatch select with
  | NL =>
      do out <- anc_regions.get_NL "DTM" tmp_dir gs_aoi;
      do _ <- lift (py_getitem "out_msg" out);
      do out_int <- anc_regions.get_NL "LAZ" tmp_dir gs_aoi;
      mret (out, Some out_int)
  | DK =>
      do out <- anc_regions.get_DK "DTM" tmp_dir gs_aoi;
      do _ <- lift (py_getitem "out_msg" out);
      do out_int <- anc_regions.get_DK "LAZ" tmp_dir gs_aoi;
      mret (out, Some out_int)
  | SI =>
      do out <- anc_regions.get_SI "DTM" tmp_dir gs_aoi false;
      do _ <- lift (py_getitem "out_msg" out);
      do out_int <- anc_regions.get_SI "LAZ" tmp_dir gs_aoi false;
      mret (out, Some out_int)
  | DE_NRW =>
      do out <- anc_regions.get_DE "DTM" tmp_dir gs_aoi "NRW";
      do _ <- lift (py_getitem "out_msg" out);
      mret (out, None)
  | MX =>
      do out <- anc_regions.get_MX tmp_dir gs_aoi;
      mret (out, None)
  | SRTM =>
      do out <- anc_regions.get_SRTM tmp_dir gs_aoi;
      mret (out, None)
  end.

(** [meta_data.get('crs').data]: the EPSG code inside the CRS object,
    an attribute error on [None]. *)
Definition crs_data (m : Meta) : result Z :=
  match crs m with
  | Some epsg => ok epsg
  | None => raise AttributeError
  end.

(** Lines 141-156: the intensity entries. *)
Definition update_intensity (out : gmap string pyval)
    (out_int : option (gmap string pyval)) : result (gmap string pyval) :=
  match out_int with
  | Some out_int =>
      rbind (py_pop "array" out_int) (fun '(arr, out_int) =>
      let out := <["array_intensity" := arr]> out in
      rbind (py_pop "dtm_meta" out_int) (fun '(md, out_int) =>
      rbind (as_meta md) (fun meta_data_int =>
      let dtm_trans_int := trans meta_data_int in
      let out := <["x_min_intensity" := VNum (af_c dtm_trans_int)]> out in
      let out := <["y_max_intensity" := VNum (af_f dtm_trans_int)]> out in
      let out := <["x_size_intensity" := VNum (af_a dtm_trans_int)]> out in
      let out := <["y_size_intensity" := VNum (af_e dtm_trans_int)]> out in
      let out := <["width_intensity" := VNum (width meta_data_int)]> out in
      let out := <["height_intensity" := VNum (height meta_data_int)]> out in
      ok out)))
  | None => ok (<["array_intensity" := VNone]> out)
  end.

(** Lines 120-156: the output dictionary. *)
Definition prepare_output (out : gmap string pyval)
    (out_int : option (gmap string pyval)) : result (gmap string pyval) :=
  rbind (py_pop "out_msg" out) (fun '(_, out) =>
  rbind (py_pop "array" out) (fun '(arr, out) =>
  let out := <["array_dtm" := arr]> out in
  rbind (py_pop "dtm_meta" out) (fun '(md, out) =>
  rbind (as_meta md) (fun meta_data =>
  let dtm_trans := trans meta_data in
  let out := <["x_min" := VNum (af_c dtm_trans)]> out in
  let out := <["y_max" := VNum (af_f dtm_trans)]> out in
  let out := <["x_size" := VNum (af_a dtm_trans)]> out in
  let out := <["y_size" := VNum (af_e dtm_trans)]> out in
  let out := <["width" := VNum (width meta_data)]> out in
  let out := <["height" := VNum (height meta_data)]> out in
  rbind (crs_data meta_data) (fun epsg =>
  let out := <["crs" := VCrs epsg]> out in
  let out := <["crs_wkt" := VStr (crs_wkt epsg)]> out in
  update_intensity out out_int))))).

(** The name of the working directory of a run. *)
Definition tmp_dir_of (project_id : string) : string :=
  os_path_join "." (project_id +:+ "_anc_temp").

(** Everything [anc_main] does before its clean-up statement. *)
Definition stages (project_id : string) (aoi_extent : Bounds)
    (aoi_epsg : Z) : M (gmap string pyval) :=
  let '(min_x, min_y, max_x, max_y) := aoi_extent in
  let polygon := box min_x min_y max_x max_y in
  let gs_aoi := mkGeoSeries polygon aoi_epsg in
  let tmp_dir := tmp_dir_of project_id in
  do _ <- ensure_dir tmp_dir;
  let open_dtm := read_open_dtm in
  let select := select_source open_dtm gs_aoi in
  do '(out, out_int) <- acquire select tmp_dir gs_aoi;
  lift (prepare_output out out_int).

(** [anc_main(project_id, aoi_extent, aoi_epsg)] *)
Definition anc_main (project_id : string) (aoi_extent : Bounds)
    (aoi_epsg : Z) : M (gmap string pyval) :=
  do out <- stages project_id aoi_extent aoi_epsg;
  do _ <- rmtree (tmp_dir_of project_id) true;
  mret out.
End anc_main.
End anc_main.

(** ** A geometry engine over lattice regions

    A region is a finite set of lattice points, given as a list.  The CRS
    with code [k] is the plane sheared by [k]: going from code [a] to code
    [b] maps [(x, y)] to [(x + (b - a) * y, y)], so transforms compose and
    the transform from a code to itself changes nothing. *)

Module Lattice.
Definition region : Type := list (Z * Z).

Definition mem (p : Z * Z) (a : region) : bool :=
  existsb (fun q => bool_decide (p = q)) a.

Definition lat_box (minx miny maxx maxy : Z) : region :=
  flat_map (fun x => map (fun y => (x, y)) (seqZ miny (maxy - miny + 1)))
           (seqZ minx (maxx - minx + 1)).

Definition lat_within (a b : region) : bool :=
  match a with
  | [] => false
  | _ => forallb (fun p => mem p b) a
  end.

Definition lat_intersects (a b : region) : bool :=
  existsb (fun p => mem p b) a.

Definition lat_bounds (a : region) : Bounds :=
  match a with
  | [] => (0, 0, 0, 0)
  | (x0, y0) :: more =>
      fold_left
        (fun '(minx, miny, maxx, maxy) '(x, y) =>
           (Z.min minx x, Z.min miny y, Z.max maxx x, Z.max maxy y))
        more (x0, y0, x0, y0)
  end.

Definition lat_envelope (a : region) : region :=
  match a with
  | [] => []
  | _ =>
      let '(minx, miny, maxx, maxy) := lat_bounds a in
      lat_box minx miny maxx maxy
  end.

Definition lat_transform (src dst : Z) (a : region) : region :=
  map (fun '(x, y) => (x + (dst - src) * y, y)) a.

#[export] Instance lattice_geometry : Geometry region := {|
  box := lat_box;
  within := lat_within;
  intersects := lat_intersects;
  envelope := lat_envelope;
  bounds := lat_bounds;
  transform := lat_transform
|}.
End Lattice.

(** ** A small world to run the pipeline in

    Stand-ins for the collaborators, over lattice regions: the merge hands
    back its first raster, the Dutch, German and Mexican servers deliver one
    elevation tile each, the SRTM server has no tile for the AOI, and the
    point-cloud binary is not installed. *)

Module Demo.
Import Lattice.

Definition wgs84 : Z := 4326.

Definition tile (c : option Z) (v : Z) : Dataset :=
  mkDataset ("tile" +:+ pretty v +:+ ".tif")
    (mkMeta "GTiff" "float32" (Some (-9999)) 2 2 1 c
            (mkAffine 1 0 0 0 (-1) 2))
    (mkArray (1, 2, 2) [v; v; v; v]).

Definition open_dtm : RegionCatalog region :=
  mkRegionCatalog wgs84
    [ mkRegionRow "NL" (lat_box 0 0 5 5);
      mkRegionRow "DK" (lat_box 0 0 9 9);
      mkRegionRow "DE_NRW" (lat_box 20 20 29 29);
      mkRegionRow "MX" (lat_box 40 40 49 49) ].

Definition first_tile_merge (src_all : list Dataset)
    (bnds : option Bounds) : result (Array * Affine) :=
  match src_all with
  | [] => raise (OtherError "RasterioError")
  | src :: _ => ok (ds_array src, trans (ds_meta src))
  end.

Definition fetch (sub : string) (tifs : list Dataset) (main_dir : string)
    : M StageOut :=
  let dwn_dir := os_path_join main_dir sub in
  do _ <- ensure_dir dwn_dir;
  do _ <- (match tifs with
           | [] => mret tt
           | _ => write_tifs dwn_dir tifs
           end);
  mret (mkStageOut "Finished downloading files!" dwn_dir).

Definition elevation_only (data_type : string) (epsg v : Z)
    : list Dataset :=
  if String.eqb data_type "DTM" then [tile (Some epsg) v] else [].

#[export] Instance world : Collaborators region := {|
  rasterio_merge := first_tile_merge;
  gdal_fill_nodata := fun ds => (ds, None);
  lastools_lasindex := fun _ => ok tt;
  lastools_blast2dem := fun _ _ => raise (OtherError "FileNotFoundError");
  dir_order := fun _ l => l;
  dir_order_perm := fun _ l => Permutation_refl l;
  crs_wkt := fun epsg => "EPSG:" +:+ pretty epsg;
  read_open_dtm := open_dtm;
  dwn_NL_download := fun data_type _ main_dir =>
    fetch data_type (elevation_only data_type 28992 7) main_dir;
  dwn_DK_download := fun _ main_dir data_type =>
    fetch data_type (elevation_only data_type 25832 5) main_dir;
  dwn_SI_download := fun data_type _ main_dir _ =>
    fetch data_type (elevation_only data_type 3794 4) main_dir;
  dwn_DE_download := fun data_type _ main_dir _ =>
    fetch data_type (elevation_only data_type 25832 3) main_dir;
  dwn_SRTM_download := fun _ main_dir => fetch "srtm" [] main_dir;
  dwn_MX_download := fun _ main_dir => fetch "mx" [tile (Some 4326) 9] main_dir
|}.

(** The storage before a run: the current directory, nothing locked. *)
Definition fs0 : FS := mkFS {["."]} ∅ ∅.

(** A storage whose directory ["d"] lists the given rasters. *)
Definition fs_with (tifs : list Dataset) : FS :=
  mkFS {[ "."; "d" ]} ∅ {[ "d" := tifs ]}.

(** AOIs: inside the Dutch and the Danish polygon at once, inside the
    Mexican one, and outside every polygon. *)
Definition in_nl_dk : Bounds := (1, 1, 2, 2).
Definition in_mx : Bounds := (41, 41, 42, 42).
Definition nowhere : Bounds := (71, 71, 72, 72).

Definition aoi_of (b : Bounds) (epsg : Z) : GeoSeries region :=
  let '(min_x, min_y, max_x, max_y) := b in
  mkGeoSeries (lat_box min_x min_y max_x max_y) epsg.

(** The entry of the output of a run under a key, if the run returned. *)
Definition entry (key : string) (run : result (gmap string pyval) * FS)
    : option pyval :=
  match fst run with
  | inr out => out !! key
  | inl _ => None
  end.

(** A catalog in the neighbouring CRS: tile [A] meets the reprojected
    unit square, tile [B] only the rectangle around it. *)
Definition srtm_net : Fishnet (dwn_SRTM.Row region) :=
  mkFishnet 4327
    [ dwn_SRTM.mkRow "A" [(1, 0)];
      dwn_SRTM.mkRow "B" [(2, 0)];
      dwn_SRTM.mkRow "C" [(5, 5)] ].

Definition unit_square : GeoSeries region :=
  mkGeoSeries (lat_box 0 0 1 1) wgs84.

(** A one-row NRW fishnet: no neighbour of the row is in the catalog. *)
Definition nrw_net : Fishnet (dwn_DE.Row region) :=
  mkFishnet wgs84
    [ dwn_DE.mkRow "dgm1_32_340_5640_1_nw.xyz.gz"
                   "3dm_32_340_5640_1_nw.laz"
                   340000 5640000 (lat_box 0 0 1 1) ].
End Demo.

(** ** A second world

    The servers deliver rasters without a CRS, the interpolation works on
    rasters that have a CRS and raises on the others, and the point-cloud
    binaries are installed. *)

Module Rough.
Import Lattice Demo.

Definition fill (ds : Dataset) : Dataset * option exn :=
  match ds_crs ds with
  | None => (ds, Some (OtherError "RuntimeError"))
  | Some _ =>
      (mkDataset (ds_name ds) (ds_meta ds)
         (mkArray (shape (ds_array ds))
            (map (fun v => if v =? -9999 then 0 else v)
                 (data (ds_array ds)))),
       None)
  end.

Definition rough : Collaborators region := {|
  rasterio_merge := first_tile_merge;
  gdal_fill_nodata := fill;
  lastools_lasindex := fun _ => ok tt;
  lastools_blast2dem := fun _ _ => ok [tile None 6; tile (Some 4327) 8];
  dir_order := fun _ l => l;
  dir_order_perm := fun _ l => Permutation_refl l;
  crs_wkt := fun epsg => "EPSG:" +:+ pretty epsg;
  read_open_dtm := open_dtm;
  dwn_NL_download := fun data_type _ main_dir =>
    fetch data_type [tile None 7] main_dir;
  dwn_DK_download := fun _ main_dir data_type =>
    fetch data_type [tile None 5] main_dir;
  dwn_SI_download := fun data_type _ main_dir _ =>
    fetch data_type [tile None 4] main_dir;
  dwn_DE_download := fun data_type _ main_dir _ =>
    fetch data_type [tile None 3] main_dir;
  dwn_SRTM_download := fun _ main_dir => fetch "srtm" [tile None 1] main_dir;
  dwn_MX_download := fun _ main_dir => fetch "mx" [tile None 9] main_dir
|}.

(** An NRW fishnet of two rows: the second is the eastern neighbour of the
    first. *)
Definition nrw_pair : Fishnet (dwn_DE.Row region) :=
  mkFishnet wgs84
    [ dwn_DE.mkRow "dgm1_32_340_5640_1_nw.xyz.gz"
                   "3dm_32_340_5640_1_nw.laz"
                   340000 5640000 (lat_box 0 0 1 1);
      dwn_DE.mkRow "dgm1_32_341_5640_1_nw.xyz.gz"
                   "3dm_32_341_5640_1_nw.laz"
                   341000 5640000 (lat_box 1 0 2 1) ].

(** The bounds of an AOI inside the Danish cell [(6170, 720)], and three
    cells of an archive. *)
Definition dk_bounds : Bounds := (720100, 6170200, 720900, 6170800).
Definition dk_cells : list (Z * Z) := [(6170, 720); (6171, 720); (6170, 721)].

(** A storage left by an earlier run: the directory ["d"] lists two
    rasters, and the directories of filled rasters and of intensity
    rasters each list a file from before. *)
Definition fs_stale : FS :=
  mkFS {[ "."; "d"; "d_fill"; "d_toIntensity" ]} ∅
       {[ "d" := [tile (Some 4326) (-9999); tile (Some 4327) 3];
          "d_fill" := [renamed "old_fill.tif" (tile (Some 4326) 1)];
          "d_toIntensity" := [tile (Some 4326) 1] ]}.

(** An interpolation that writes 7 where the nodata value stood. *)
Definition fill_sevens (array : list Z) : list Z :=
  map (fun v => if v =? -9999 then 7 else v) array.
End Rough.

(** ** A third world

    Every server delivers an elevation raster with its CRS, the
    point-cloud binaries are installed and produce two intensity rasters,
    and the file system lists the files of a directory in an order of its
    own. *)

Module Survey.
Import Lattice Demo.

Definition survey : Collaborators region := {|
  rasterio_merge := first_tile_merge;
  gdal_fill_nodata := fun ds => (ds, None);
  lastools_lasindex := fun _ => ok tt;
  lastools_blast2dem := fun _ _ =>
    ok [tile (Some 25832) 6; tile (Some 25832) 8];
  dir_order := fun _ l => rev l;
  dir_order_perm := fun _ l => Permutation_sym (Permutation_rev l);
  crs_wkt := fun epsg => "EPSG:" +:+ pretty epsg;
  read_open_dtm := open_dtm;
  dwn_NL_download := fun data_type _ main_dir =>
    fetch data_type (elevation_only data_type 28992 7) main_dir;
  dwn_DK_download := fun _ main_dir data_type =>
    fetch data_type (elevation_only data_type 25832 5) main_dir;
  dwn_SI_download := fun data_type _ main_dir _ =>
    fetch data_type (elevation_only data_type 3794 4) main_dir;
  dwn_DE_download := fun data_type _ main_dir _ =>
    fetch data_type (elevation_only data_type 25832 3) main_dir;
  dwn_SRTM_download := fun _ main_dir => fetch "srtm" [] main_dir;
  dwn_MX_download := fun _ main_dir => fetch "mx" [tile (Some 4326) 9] main_dir
|}.
End Survey.

(** ** Readings of the orchestrator used in the statements below *)

(** The working storage after [if not exists(p): mkdir(p)]. *)
Definition ensure_dir_fs (p : string) (fs : FS) : FS :=
  if bool_decide (p ∈ fs_dirs fs) then fs
  else mkFS ({[p]} ∪ fs_dirs fs) (fs_locked fs) (fs_tifs fs).

(** The result dictionary of [merge_clip] for a mosaic, its transform and
    the metadata of the first raster. *)
Definition merged_out (src0 : Dataset) (mosaic : Array) (out_trans : Affine)
    : gmap string pyval :=
  {[ "out_msg" := VStr "File successfully merged and clipped!";
     "array" := VArr mosaic;
     "dtm_meta" :=
       VMeta (meta_update (ds_meta src0) "GTiff" (shape1 mosaic)
                          (shape2 mosaic) out_trans) ]}.

Section Views.
Context {G : Type} `{Geometry G} `{Collaborators G}.

(** The call that produces the elevation product in each branch of the
    dispatch. *)
Definition primary_of (r : Region) (tmp_dir : string)
    (gs_aoi : GeoSeries G) : M (gmap string pyval) :=
  match r with
  | NL => anc_regions.get_NL "DTM" tmp_dir gs_aoi
  | DK => anc_regions.get_DK "DTM" tmp_dir gs_aoi
  | SI => anc_regions.get_SI "DTM" tmp_dir gs_aoi false
  | DE_NRW => anc_regions.get_DE "DTM" tmp_dir gs_aoi "NRW"
  | MX => anc_regions.get_MX tmp_dir gs_aoi
  | SRTM => anc_regions.get_SRTM tmp_dir gs_aoi
  end.

(** The download that call starts with. *)
Definition primary_download (r : Region) (tmp_dir : string)
    (gs_aoi : GeoSeries G) : M StageOut :=
  match r with
  | NL => dwn_NL_download "DTM" gs_aoi tmp_dir
  | DK => dwn_DK_download gs_aoi tmp_dir "DTM"
  | SI => dwn_SI_download "DTM" gs_aoi tmp_dir false
  | DE_NRW => dwn_DE_download "DTM" gs_aoi tmp_dir "NRW"
  | MX => dwn_MX_download gs_aoi tmp_dir
  | SRTM => dwn_SRTM_download gs_aoi tmp_dir
  end.

(** The steps of that call before its merge: the download and, in the
    Netherlands, the fill.  The result is the directory [merge_clip] is
    called on. *)
Definition primary_dir (r : Region) (tmp_dir : string)
    (gs_aoi : GeoSeries G) : M string :=
  match r with
  | NL =>
      do dwn_out <- dwn_NL_download "DTM" gs_aoi tmp_dir;
      do out <- anc_tools.fill_tif (out_dir dwn_out);
      mret (out_dir out)
  | _ =>
      do dwn_out <- primary_download r tmp_dir gs_aoi;
      mret (out_dir dwn_out)
  end.

(** The steps of the point-cloud branch before its merge; the result is
    the directory of intensity rasters. *)
Definition laz_dir (dwn_dir : string) (gs_aoi : GeoSeries G) (epsg : Z)
    (assign : bool) : M string :=
  do _ <- anc_tools.las_index dwn_dir;
  do out <- anc_tools.las_intensity dwn_dir gs_aoi epsg;
  do _ <- (if assign
           then do _ <- anc_tools.assign_crs (out_dir out) epsg; mret tt
           else mret tt);
  mret (out_dir out).

(** The steps of the intensity call before its merge, in the branches
    that have one. *)
Definition secondary_dir (r : Region) (tmp_dir : string)
    (gs_aoi : GeoSeries G) : option (M string) :=
  match r with
  | NL => Some (do dwn_out <- dwn_NL_download "LAZ" gs_aoi tmp_dir;
                laz_dir (out_dir dwn_out) gs_aoi 28992 true)
  | DK => Some (do dwn_out <- dwn_DK_download gs_aoi tmp_dir "LAZ";
                laz_dir (out_dir dwn_out) gs_aoi 25832 false)
  | SI => Some (do dwn_out <- dwn_SI_download "LAZ" gs_aoi tmp_dir false;
                laz_dir (out_dir dwn_out) gs_aoi 3794 true)
  | DE_NRW | MX | SRTM => None
  end.

(** The call that produces the intensity product, in the branches that
    have one. *)
Definition secondary_of (r : Region) (tmp_dir : string)
    (gs_aoi : GeoSeries G) : option (M (gmap string pyval)) :=
  match r with
  | NL => Some (anc_regions.get_NL "LAZ" tmp_dir gs_aoi)
  | DK => Some (anc_regions.get_DK "LAZ" tmp_dir gs_aoi)
  | SI => Some (anc_regions.get_SI "LAZ" tmp_dir gs_aoi false)
  | DE_NRW | MX | SRTM => None
  end.
End Views.

(** The identifiers one fishnet row of NRW contributes: none when the row
    does not meet the AOI rectangle, else its own file and the three
    neighbours to the right, above and above-right of its lower-left
    corner in kilometres. *)
Definition nrw_row_ids {G : Type} `{Geometry G} (aoi_pr : GeoSeries G)
    (url_main : string) (file_type : dwn_DE.Row G -> string)
    (row : dwn_DE.Row G) : list string :=
  if intersects (gs_geom aoi_pr) (dwn_DE.geometry row) then
    let ax := py_round_div (dwn_DE.left row) 1000 in
    let ay := py_round_div (dwn_DE.bottom row) 1000 in
    [ url_main +:+ file_type row;
      url_main +:+ dwn_DE.laz_tile (ax + 1) ay;
      url_main +:+ dwn_DE.laz_tile ax (ay + 1);
      url_main +:+ dwn_DE.laz_tile (ax + 1) (ay + 1) ]
  else [].

(** ** What the specification says, in its own words

    Definitions that follow the specification rather than the source, to
    compare the source against. *)

Module Spec.
Section Spec.
Context {G : Type} `{Geometry G}.

(** "first polygon for which AOI is strictly within wins" *)
Fixpoint first_containing (rows : list (RegionRow G)) (wgs_aoi : GeoSeries G)
    : option string :=
  match rows with
  | [] => None
  | row :: more =>
      if within (gs_geom wgs_aoi) (geometry row)
      then Some (abbrev row)
      else first_containing more wgs_aoi
  end.

(** "returns the subset of tile identifiers whose footprint intersects
    the AOI", the AOI reprojected into the catalog CRS. *)
Definition footprint_matches (fishnet : Fishnet (dwn_SRTM.Row G))
    (aoi : GeoSeries G) : list string :=
  let aoi_pr := reproject aoi (fn_crs fishnet) in
  map dwn_SRTM.tile_name
      (filter (fun row =>
                 intersects (gs_geom aoi_pr) (dwn_SRTM.geometry row) = true)
              (fn_rows fishnet)).
End Spec.
End Spec.

(** ** Closed forms used by the further properties *)

Section ClosedForms.
Context {G : Type} `{Geometry G}.

(** The tag of the last row whose polygon contains the AOI. *)
Fixpoint last_containing (rows : list (RegionRow G)) (wgs_aoi : GeoSeries G)
    : option string :=
  match rows with
  | [] => None
  | row :: more =>
      match last_containing more wgs_aoi with
      | Some tag => Some tag
      | None =>
          if within (gs_geom wgs_aoi) (geometry row)
          then Some (abbrev row)
          else None
      end
  end.
End ClosedForms.

(** The clip rectangle [merge_clip] reads off its first raster. *)
Definition clip_of {G : Type} `{Geometry G} (src0 : Dataset)
    (gs_aoi : GeoSeries G) : option Bounds :=
  match ds_crs src0 with
  | None => None
  | Some c => Some (gs_bounds (reproject gs_aoi c))
  end.

(** [mosaic] and [out_trans] are what the raster merge returned for the
    rasters the storage [fs] lists for the directory [i_dir], the first
    of which is [src0], under the clip rectangle of [src0]. *)
Definition merged_from {G : Type} `{Geometry G} `{Collaborators G}
    (gs_aoi : GeoSeries G) (fs : FS) (i_dir : string) (src0 : Dataset)
    (mosaic : Array) (out_trans : Affine) : Prop :=
  exists rest : list Dataset,
    default [] (fs_tifs fs !! i_dir) = src0 :: rest
    /\ rasterio_merge (src0 :: rest) (clip_of src0 gs_aoi)
         = ok (mosaic, out_trans).

(** The files of a listing that are called by none of [names]. *)
Definition kept (names : list string) (l : list Dataset) : list Dataset :=
  filter (fun d => ds_name d ∉ names) l.

(** The listing of the output directory of [fill_tif] after one turn of
    its loop. *)
Definition fill_step {G : Type} `{Collaborators G} (o_dir : string)
    (l : list Dataset) (ds : Dataset) : list Dataset :=
  updated (anc_tools.placed o_dir l (anc_tools.fill_copy ds))
          (anc_tools.fill_result ds).

(** The entries of the output dictionary that describe the elevation
    product. *)
Definition dtm_entries (mosaic : Array) (out_trans : Affine) (epsg : Z)
    (wkt : string) : gmap string pyval :=
  {[ "array_dtm" := VArr mosaic;
     "x_min" := VNum (af_c out_trans);
     "y_max" := VNum (af_f out_trans);
     "x_size" := VNum (af_a out_trans);
     "y_size" := VNum (af_e out_trans);
     "width" := VNum (shape2 mosaic);
     "height" := VNum (shape1 mosaic);
     "crs" := VCrs epsg;
     "crs_wkt" := VStr wkt ]}.

(** The output dictionary [base] with the intensity entries set, in the
    order the orchestrator sets them. *)
Definition add_intensity (mosaic : Array) (out_trans : Affine)
    (base : gmap string pyval) : gmap string pyval :=
  <["height_intensity" := VNum (shape1 mosaic)]>
    (<["width_intensity" := VNum (shape2 mosaic)]>
      (<["y_size_intensity" := VNum (af_e out_trans)]>
        (<["x_size_intensity" := VNum (af_a out_trans)]>
          (<["y_max_intensity" := VNum (af_f out_trans)]>
            (<["x_min_intensity" := VNum (af_c out_trans)]>
              (<["array_intensity" := VArr mosaic]> base)))))).

(** The tag the dispatch chain compares against for each branch that has
    one. *)
Definition tag_of (r : Region) : option string :=
  match r with
  | NL => Some "NL"
  | DK => Some "DK"
  | SI => Some "SI"
  | DE_NRW => Some "DE_NRW"
  | MX => Some "MX"
  | SRTM => None
  end.

(** The 1 km cell with lower-left corner [(gx, gy)] km reaches into the
    open rectangle spanned by the bounds. *)
Definition cell_overlaps (b : Bounds) (cell : Z * Z) : bool :=
  let '(minx, miny, maxx, maxy) := b in
  let '(gy, gx) := cell in
  bool_decide (minx < 1000 * (gx + 1) /\ 1000 * gx < maxx
               /\ miny < 1000 * (gy + 1) /\ 1000 * gy < maxy).

(** The suffix [extract_files] looks for, by data type. *)
Definition archive_suffix (dt sfx : string) : Prop :=
  (dt = "DTM" /\ sfx = ".tif") \/ (dt = "LAZ" /\ sfx = ".laz").

(** The [.xyz] entries of an archive that [extract_zip] manages to write. *)
Definition extracted_xyz (extract_ok : string -> bool)
    (namelist : list string) : list string :=
  filter (fun fil => Py.ends_with ".xyz" fil && extract_ok fil = true)
         namelist.

(** * Properties *)

(** ** Reconciliation of spatial references *)

Section ReprojectFacts.
Context {G : Type} `{Geometry G}.

Lemma reproject_same (gs : GeoSeries G) :
  reproject gs (gs_crs gs) = gs.
Proof.
  unfold reproject. rewrite bool_decide_eq_false_2; [reflexivity|].
  intros Hne. apply Hne. reflexivity.
Qed.

Lemma reproject_other (gs : GeoSeries G) (target : Z) :
  target ≠ gs_crs gs -> reproject gs target = to_crs gs target.
Proof.
  intros Hne. unfold reproject. rewrite bool_decide_eq_true_2; done.
Qed.

Lemma reproject_crs (gs : GeoSeries G) (target : Z) :
  gs_crs (reproject gs target) = target.
Proof.
  unfold reproject. case_bool_decide as Hd; [reflexivity|].
  destruct (decide (target = gs_crs gs)) as [->|Hne]; [reflexivity|].
  contradiction.
Qed.
End ReprojectFacts.

(** ** Source selection *)

Section SelectFacts.
Context {G : Type} `{Geometry G}.
Import anc_main.

Lemma select_step_hit (wgs_aoi : GeoSeries G) (select : option string)
    (row : RegionRow G) :
  within (gs_geom wgs_aoi) (geometry row) = true ->
  select_step wgs_aoi select row = Some (abbrev row).
Proof. intros Hw. unfold select_step. rewrite Hw. reflexivity. Qed.

Lemma select_step_miss_some (wgs_aoi : GeoSeries G) (tag : string)
    (row : RegionRow G) :
  within (gs_geom wgs_aoi) (geometry row) = false ->
  select_step wgs_aoi (Some tag) row = Some tag.
Proof. intros Hw. unfold select_step. rewrite Hw. reflexivity. Qed.

Lemma select_step_miss_none (wgs_aoi : GeoSeries G) (row : RegionRow G) :
  within (gs_geom wgs_aoi) (geometry row) = false ->
  select_step wgs_aoi None row = Some "SRTM".
Proof. intros Hw. unfold select_step. rewrite Hw. reflexivity. Qed.

(** Once a tag is set, rows that do not contain the AOI leave it alone. *)
Lemma select_loop_keeps (wgs_aoi : GeoSeries G) (rows : list (RegionRow G))
    (tag : string) :
  Forall (fun r => within (gs_geom wgs_aoi) (geometry r) = false) rows ->
  fold_left (select_step wgs_aoi) rows (Some tag) = Some tag.
Proof.
  induction 1 as [|row rows Hrow _ IH]; simpl; [reflexivity|].
  rewrite select_step_miss_some by exact Hrow. exact IH.
Qed.

(** From no tag, rows that do not contain the AOI end in the fallback
    tag as soon as there is one row. *)
Lemma select_loop_fallback (wgs_aoi : GeoSeries G)
    (rows : list (RegionRow G)) :
  Forall (fun r => within (gs_geom wgs_aoi) (geometry r) = false) rows ->
  fold_left (select_step wgs_aoi) rows None =
    match rows with [] => None | _ => Some "SRTM" end.
Proof.
  intros Hall. destruct Hall as [|row rows Hrow Hrows]; simpl.
  - reflexivity.
  - rewrite select_step_miss_none by exact Hrow.
    apply select_loop_keeps. exact Hrows.
Qed.

(** A containing row overrides whatever the loop held before it. *)
Lemma select_loop_last (wgs_aoi : GeoSeries G)
    (before after : list (RegionRow G)) (row : RegionRow G)
    (start : option string) :
  within (gs_geom wgs_aoi) (geometry row) = true ->
  Forall (fun r => within (gs_geom wgs_aoi) (geometry r) = false) after ->
  fold_left (select_step wgs_aoi) (before ++ row :: after) start =
    Some (abbrev row).
Proof.
  intros Hrow Hafter.
  rewrite fold_left_app. simpl.
  rewrite select_step_hit by exact Hrow.
  apply select_loop_keeps. exact Hafter.
Qed.

(** C1, as amended.  When the AOI lies within one or more coverage
    polygons of the catalog, the selection returns the tag of the
    last-listed polygon that contains it: the loop runs over the whole
    catalog and every later containing polygon overwrites the tag. *)
Theorem select_last_containing_wins (open_dtm : RegionCatalog G)
    (gs_aoi : GeoSeries G) (before after : list (RegionRow G))
    (row : RegionRow G) :
  rc_rows open_dtm = before ++ row :: after ->
  within (gs_geom (reproject gs_aoi (rc_crs open_dtm))) (geometry row)
    = true ->
  Forall (fun r =>
            within (gs_geom (reproject gs_aoi (rc_crs open_dtm)))
                   (geometry r) = false) after ->
  select_source open_dtm gs_aoi = Some (abbrev row).
Proof.
  intros Hrows Hrow Hafter.
  unfold select_source, select_database. rewrite Hrows.
  apply select_loop_last; assumption.
Qed.

(** C6.  When the AOI lies within no coverage polygon of the catalog, the
    selection ends in the global SRTM source, and it is a total function:
    the tag is ['SRTM'] for a catalog with at least one row, it stays
    [None] for a catalog without rows, and both dispatch to the SRTM
    branch of the orchestrator. *)
Theorem select_outside_all_is_fallback (open_dtm : RegionCatalog G)
    (gs_aoi : GeoSeries G) :
  Forall (fun r =>
            within (gs_geom (reproject gs_aoi (rc_crs open_dtm)))
                   (geometry r) = false) (rc_rows open_dtm) ->
  dispatch (select_source open_dtm gs_aoi) = SRTM
  /\ (rc_rows open_dtm <> [] ->
      select_source open_dtm gs_aoi = Some "SRTM")
  /\ (rc_rows open_dtm = [] -> select_source open_dtm gs_aoi = None).
Proof.
  intros Hall. unfold select_source, select_database.
  rewrite select_loop_fallback by exact Hall.
  destruct (rc_rows open_dtm) as [|row rows]; repeat split;
    try reflexivity; try congruence.
Qed.
End SelectFacts.

(** ** The merge-and-clip engine *)

Section MergeClipFacts.
Context {G : Type} `{Geometry G} `{Collaborators G}.
Import anc_tools.

(** What [merge_clip] computes, by cases on the directory listing. *)
Lemma merge_clip_eval (i_dir : string) (gs_aoi : GeoSeries G) (fs : FS) :
  merge_clip i_dir gs_aoi fs =
    match default [] (fs_tifs fs !! i_dir) with
    | [] => (raise IndexError, fs)
    | src0 :: rest =>
        let bnds :=
          match ds_crs src0 with
          | None => None
          | Some c => Some (gs_bounds (reproject gs_aoi c))
          end in
        match rasterio_merge (src0 :: rest) bnds with
        | inl e => (inl e, fs)
        | inr (mosaic, out_trans) =>
            (ok (merged_out src0 mosaic out_trans), fs)
        end
    end.
Proof.
  unfold merge_clip, mbind, glob_tif, lift, clip_bounds, py_index0, rbind.
  simpl.
  destruct (default [] (fs_tifs fs !! i_dir)) as [|src0 rest]; simpl.
  - reflexivity.
  - destruct (ds_crs src0) as [c|]; simpl;
      (destruct (rasterio_merge _ _) as [e|[mosaic out_trans]];
       reflexivity).
Qed.

Lemma clip_bounds_cons (src0 : Dataset) (rest : list Dataset)
    (gs_aoi : GeoSeries G) :
  clip_bounds (src0 :: rest) gs_aoi =
    ok (match ds_crs src0 with
        | None => None
        | Some c => Some (gs_bounds (reproject gs_aoi c))
        end).
Proof.
  unfold clip_bounds. simpl. destruct (ds_crs src0); reflexivity.
Qed.

(** C9.  When the CRS of a footprint is the target CRS, the
    reconciliation returns the footprint itself: [to_crs] is not called.
    So it is at the two places the claim names: the orchestrator hands the
    AOI as it is to the selection loop, and the merge-and-clip engine
    clips to the bounds of the AOI as it is.  For any other target the
    result is the footprint transformed by [to_crs]. *)
Theorem reproject_identity_when_crs_coincide (gs : GeoSeries G)
    (target : Z) :
  gs_crs gs = target ->
  reproject gs target = gs
  /\ (forall rows : list (RegionRow G),
        anc_main.select_source (mkRegionCatalog target rows) gs =
        anc_main.select_database (mkRegionCatalog target rows) gs)
  /\ (forall (src0 : Dataset) (rest : list Dataset),
        ds_crs src0 = Some target ->
        clip_bounds (src0 :: rest) gs = ok (Some (gs_bounds gs)))
  /\ (forall other : Z,
        other <> gs_crs gs -> reproject gs other = to_crs gs other).
Proof.
  intros <-. repeat split.
  - apply reproject_same.
  - intros rows. unfold anc_main.select_source. simpl.
    rewrite reproject_same. reflexivity.
  - intros src0 rest Hcrs. rewrite clip_bounds_cons, Hcrs.
    rewrite reproject_same. reflexivity.
  - intros other Hne. apply reproject_other. exact Hne.
Qed.

(** C10.  On a directory that lists at least one raster, whether to clip
    and in which CRS is read off the first raster alone: the clip
    rectangle is the same whatever rasters follow it, it is absent exactly
    when the first raster has no CRS, and otherwise it is the bounds of
    the AOI reconciled with the CRS of the first raster; all rasters are
    then merged under that rectangle and the metadata of the first one is
    updated with the shape and transform of the mosaic. *)
Theorem merge_clip_decides_on_first_tile (i_dir : string)
    (gs_aoi : GeoSeries G) (fs : FS) (src0 : Dataset)
    (rest : list Dataset) :
  fs_tifs fs !! i_dir = Some (src0 :: rest) ->
  let bnds :=
    match ds_crs src0 with
    | None => None
    | Some c => Some (gs_bounds (reproject gs_aoi c))
    end in
  clip_bounds (src0 :: rest) gs_aoi = ok bnds
  /\ (forall others : list Dataset,
        clip_bounds (src0 :: others) gs_aoi = ok bnds)
  /\ merge_clip i_dir gs_aoi fs =
       (match rasterio_merge (src0 :: rest) bnds with
        | inl e => inl e
        | inr (mosaic, out_trans) => ok (merged_out src0 mosaic out_trans)
        end, fs).
Proof.
  intros Hdir bnds. repeat split.
  - apply clip_bounds_cons.
  - intros others. apply clip_bounds_cons.
  - rewrite merge_clip_eval, Hdir. simpl. fold bnds.
    destruct (rasterio_merge (src0 :: rest) bnds) as [e|[mosaic out_trans]];
      reflexivity.
Qed.

(** C5, as amended.  When the first raster of the listing has no CRS, the
    clip step is skipped: all rasters are merged with no bounds, and when
    that merge returns a mosaic and a transform, [merge_clip] returns the
    mosaic with the metadata of the first raster updated to it. *)
Theorem merge_clip_first_tile_without_crs (i_dir : string)
    (gs_aoi : GeoSeries G) (fs : FS) (src0 : Dataset)
    (rest : list Dataset) (mosaic : Array) (out_trans : Affine) :
  fs_tifs fs !! i_dir = Some (src0 :: rest) ->
  ds_crs src0 = None ->
  rasterio_merge (src0 :: rest) None = ok (mosaic, out_trans) ->
  clip_bounds (src0 :: rest) gs_aoi = ok None
  /\ merge_clip i_dir gs_aoi fs =
       (ok (merged_out src0 mosaic out_trans), fs).
Proof.
  intros Hdir Hcrs Hmerge. split.
  - rewrite clip_bounds_cons, Hcrs. reflexivity.
  - rewrite merge_clip_eval, Hdir. simpl. rewrite Hcrs, Hmerge.
    reflexivity.
Qed.
End MergeClipFacts.

(** ** Error propagation through the regions and the orchestrator *)

Section PipelineFacts.
Context {G : Type} `{Geometry G} `{Collaborators G}.
Import anc_tools anc_regions anc_main.

Lemma ensure_dir_eval (p : string) (fs : FS) :
  ensure_dir p fs = (ok tt, ensure_dir_fs p fs).
Proof.
  unfold ensure_dir, ensure_dir_fs, mbind, os_path_exists, os_mkdir, mret.
  simpl. destruct (bool_decide (p ∈ fs_dirs fs)) eqn:Hex; simpl.
  - reflexivity.
  - rewrite Hex. reflexivity.
Qed.

(** A run is its stages followed by the clean-up statement. *)
Lemma anc_main_eval (project_id : string) (aoi_extent : Bounds)
    (aoi_epsg : Z) (fs : FS) :
  anc_main project_id aoi_extent aoi_epsg fs =
    match stages project_id aoi_extent aoi_epsg fs with
    | (inl e, fs1) => (inl e, fs1)
    | (inr out, fs1) => (ok out, rmtree_fs (tmp_dir_of project_id) fs1)
    end.
Proof.
  unfold anc_main, mbind, rmtree, mret.
  destruct (stages project_id aoi_extent aoi_epsg fs) as [[e|out] fs1];
    [reflexivity|].
  rewrite andb_false_r. reflexivity.
Qed.

(** The stages are the creation of the working directory, the
    acquisition for the selected source and the assembly of the output. *)
Lemma stages_eval (project_id : string) (min_x min_y max_x max_y : Z)
    (aoi_epsg : Z) (fs : FS) :
  let gs_aoi := mkGeoSeries (box min_x min_y max_x max_y) aoi_epsg in
  let tmp_dir := tmp_dir_of project_id in
  stages project_id (min_x, min_y, max_x, max_y) aoi_epsg fs =
    match acquire (select_source read_open_dtm gs_aoi) tmp_dir gs_aoi
                  (ensure_dir_fs tmp_dir fs) with
    | (inl e, fs1) => (inl e, fs1)
    | (inr (out, out_int), fs1) => (prepare_output out out_int, fs1)
    end.
Proof.
  intros gs_aoi tmp_dir. unfold stages. fold gs_aoi. fold tmp_dir.
  unfold mbind at 1. rewrite ensure_dir_eval.
  unfold mbind, lift.
  destruct (acquire _ _ _ _) as [[e|[out out_int]] fs1]; reflexivity.
Qed.

(** The dictionary a region function returns carries a message. *)
Lemma insert_msg_ok (msg : string) (c : M (gmap string pyval))
    (fs fs' : FS) (out : gmap string pyval) :
  (do o <- c; mret (<["out_msg" := VStr msg]> o)) fs = (ok out, fs') ->
  py_getitem "out_msg" out = ok (VStr msg).
Proof.
  unfold mbind, mret. destruct (c fs) as [[e|o] fs1]; intros Heq.
  - discriminate.
  - injection Heq as Hout _. subst out.
    unfold py_getitem. rewrite lookup_insert_eq. reflexivity.
Qed.

Lemma primary_has_msg (r : Region) (tmp_dir : string)
    (gs_aoi : GeoSeries G) (fs fs' : FS) (out : gmap string pyval) :
  primary_of r tmp_dir gs_aoi fs = (ok out, fs') ->
  exists msg, py_getitem "out_msg" out = ok (VStr msg).
Proof.
  destruct r; simpl;
    unfold get_NL, get_DK, get_SI, get_DE, get_SRTM, get_MX;
    intros Hrun.
  all: match type of Hrun with
       | mbind ?dl ?k ?s = _ =>
           unfold mbind at 1 in Hrun;
           destruct (dl s) as [[e|o] fs1]; [discriminate|]
       end.
  all: eexists; eapply insert_msg_ok; exact Hrun.
Qed.

(** The acquisition, by cases on whether the branch has a secondary
    product. *)
Lemma acquire_eval (select : option string) (tmp_dir : string)
    (gs_aoi : GeoSeries G) (fs : FS) :
  acquire select tmp_dir gs_aoi fs =
    match primary_of (dispatch select) tmp_dir gs_aoi fs with
    | (inl e, fs1) => (inl e, fs1)
    | (inr out, fs1) =>
        match secondary_of (dispatch select) tmp_dir gs_aoi with
        | None => (ok (out, None), fs1)
        | Some sec =>
            match sec fs1 with
            | (inl e, fs2) => (inl e, fs2)
            | (inr out_int, fs2) => (ok (out, Some out_int), fs2)
            end
        end
    end.
Proof.
  unfold acquire.
  destruct (dispatch select) eqn:Hr; simpl.
  all: unfold mbind at 1.
  all: match goal with
       | |- context [match ?c ?s with (_, _) => _ end] =>
           destruct (c s) as [[e|out] fs1] eqn:Hprim; [reflexivity|]
       end.
  1: destruct (primary_has_msg NL tmp_dir gs_aoi fs fs1 out Hprim)
       as [msg Hmsg].
  2: destruct (primary_has_msg DK tmp_dir gs_aoi fs fs1 out Hprim)
       as [msg Hmsg].
  3: destruct (primary_has_msg SI tmp_dir gs_aoi fs fs1 out Hprim)
       as [msg Hmsg].
  4: destruct (primary_has_msg DE_NRW tmp_dir gs_aoi fs fs1 out Hprim)
       as [msg Hmsg].
  1-4: unfold mbind, lift, mret; rewrite Hmsg.
  1-3: match goal with
       | |- context [match ?c ?s with (_, _) => _ end] =>
           destruct (c s) as [[e|out_int] fs2]; reflexivity
       end.
  all: reflexivity.
Qed.
End PipelineFacts.

(** ** The shape of what the region functions return *)

Section ResultFacts.
Context {G : Type} `{Geometry G} `{Collaborators G}.
Import anc_tools anc_regions anc_main.

Lemma mbind_ok_inv {A B : Type} (c : M A) (k : A -> M B) (fs fs' : FS)
    (b : B) :
  mbind c k fs = (ok b, fs') ->
  exists a fs1, c fs = (ok a, fs1) /\ k a fs1 = (ok b, fs').
Proof.
  unfold mbind. destruct (c fs) as [[e|a] fs1]; [discriminate|].
  intros Hk. exists a, fs1. split; [reflexivity|exact Hk].
Qed.

Lemma mbind_ok_run {A B : Type} (c : M A) (k : A -> M B) (fs fs1 : FS)
    (a : A) :
  c fs = (ok a, fs1) -> mbind c k fs = k a fs1.
Proof. intros Hc. unfold mbind. rewrite Hc. reflexivity. Qed.

(** A merge that returns leaves the storage as it was and returns the
    dictionary of the mosaic of the directory. *)
Lemma merge_clip_ok_inv (i_dir : string) (gs_aoi : GeoSeries G)
    (fs fs' : FS) (out : gmap string pyval) :
  merge_clip i_dir gs_aoi fs = (ok out, fs') ->
  fs' = fs
  /\ exists src0 mosaic out_trans,
       merged_from gs_aoi fs i_dir src0 mosaic out_trans
       /\ out = merged_out src0 mosaic out_trans.
Proof.
  rewrite merge_clip_eval.
  destruct (default [] (fs_tifs fs !! i_dir)) as [|src0 rest] eqn:Hdir;
    [discriminate|].
  cbv zeta. fold (clip_of src0 gs_aoi).
  destruct (rasterio_merge (src0 :: rest) (clip_of src0 gs_aoi))
    as [e|[mosaic out_trans]] eqn:Hmerge; [discriminate|].
  intros [= <- <-]. split; [reflexivity|].
  exists src0, mosaic, out_trans. split; [|reflexivity].
  exists rest. split; assumption.
Qed.

(** The point-cloud branch is its steps up to the directory of intensity
    rasters, then the merge of that directory. *)
Lemma laz_branch_ok_inv (dwn_dir : string) (gs_aoi : GeoSeries G)
    (epsg : Z) (assign : bool) (fs fs' : FS) (o : gmap string pyval) :
  laz_branch dwn_dir gs_aoi epsg assign fs = (ok o, fs') ->
  exists i_dir src0 mosaic out_trans,
    laz_dir dwn_dir gs_aoi epsg assign fs = (ok i_dir, fs')
    /\ merged_from gs_aoi fs' i_dir src0 mosaic out_trans
    /\ o = merged_out src0 mosaic out_trans.
Proof.
  unfold laz_branch, laz_dir. intros Hrun.
  apply mbind_ok_inv in Hrun as (u & fsa & Hidx & Hrun).
  apply mbind_ok_inv in Hrun as (so & fsb & Hint & Hrun).
  apply mbind_ok_inv in Hrun as (u' & fsc & Hassign & Hrun).
  apply merge_clip_ok_inv in Hrun
    as (-> & src0 & mosaic & out_trans & Hfrom & ->).
  exists (out_dir so), src0, mosaic, out_trans.
  split; [|split; [exact Hfrom|reflexivity]].
  rewrite (mbind_ok_run _ _ _ _ _ Hidx).
  rewrite (mbind_ok_run _ _ _ _ _ Hint).
  rewrite (mbind_ok_run _ _ _ _ _ Hassign). reflexivity.
Qed.

(** The elevation call of a branch is its steps up to the directory that
    is merged, the merge of that directory, and a new message. *)
Lemma primary_ok_inv (r : Region) (tmp_dir : string) (gs_aoi : GeoSeries G)
    (fs fs' : FS) (out : gmap string pyval) :
  primary_of r tmp_dir gs_aoi fs = (ok out, fs') ->
  exists i_dir msg src0 mosaic out_trans,
    primary_dir r tmp_dir gs_aoi fs = (ok i_dir, fs')
    /\ merged_from gs_aoi fs' i_dir src0 mosaic out_trans
    /\ out = <["out_msg" := VStr msg]> (merged_out src0 mosaic out_trans).
Proof.
  intros Hrun.
  destruct r; unfold primary_of in Hrun;
    unfold get_NL, get_DK, get_SI, get_DE, get_MX, get_SRTM in Hrun;
    apply mbind_ok_inv in Hrun as (dwn & fs1 & Hdwn & Hrun);
    apply mbind_ok_inv in Hrun as (o & fs2 & Ho & Hret);
    unfold mret in Hret; injection Hret as <- <-.
  - change ((do out <- fill_tif (out_dir dwn);
             merge_clip (out_dir out) gs_aoi) fs1 = (ok o, fs2)) in Ho.
    apply mbind_ok_inv in Ho as (so & fsa & Hfill & Ho).
    apply merge_clip_ok_inv in Ho
      as (-> & src0 & mosaic & out_trans & Hfrom & ->).
    eexists (out_dir so), _, src0, mosaic, out_trans.
    split; [|split; [exact Hfrom|reflexivity]].
    unfold primary_dir.
    rewrite (mbind_ok_run _ _ _ _ _ Hdwn).
    rewrite (mbind_ok_run _ _ _ _ _ Hfill). reflexivity.
  - change (merge_clip (out_dir dwn) gs_aoi fs1 = (ok o, fs2)) in Ho.
    apply merge_clip_ok_inv in Ho
      as (-> & src0 & mosaic & out_trans & Hfrom & ->).
    eexists (out_dir dwn), _, src0, mosaic, out_trans.
    split; [|split; [exact Hfrom|reflexivity]].
    unfold primary_dir, primary_download.
    rewrite (mbind_ok_run _ _ _ _ _ Hdwn). reflexivity.
  - change (merge_clip (out_dir dwn) gs_aoi fs1 = (ok o, fs2)) in Ho.
    apply merge_clip_ok_inv in Ho
      as (-> & src0 & mosaic & out_trans & Hfrom & ->).
    eexists (out_dir dwn), _, src0, mosaic, out_trans.
    split; [|split; [exact Hfrom|reflexivity]].
    unfold primary_dir, primary_download.
    rewrite (mbind_ok_run _ _ _ _ _ Hdwn). reflexivity.
  - change (merge_clip (out_dir dwn) gs_aoi fs1 = (ok o, fs2)) in Ho.
    apply merge_clip_ok_inv in Ho
      as (-> & src0 & mosaic & out_trans & Hfrom & ->).
    eexists (out_dir dwn), _, src0, mosaic, out_trans.
    split; [|split; [exact Hfrom|reflexivity]].
    unfold primary_dir, primary_download.
    rewrite (mbind_ok_run _ _ _ _ _ Hdwn). reflexivity.
  - apply merge_clip_ok_inv in Ho
      as (-> & src0 & mosaic & out_trans & Hfrom & ->).
    eexists (out_dir dwn), _, src0, mosaic, out_trans.
    split; [|split; [exact Hfrom|reflexivity]].
    unfold primary_dir, primary_download.
    rewrite (mbind_ok_run _ _ _ _ _ Hdwn). reflexivity.
  - apply merge_clip_ok_inv in Ho
      as (-> & src0 & mosaic & out_trans & Hfrom & ->).
    eexists (out_dir dwn), _, src0, mosaic, out_trans.
    split; [|split; [exact Hfrom|reflexivity]].
    unfold primary_dir, primary_download.
    rewrite (mbind_ok_run _ _ _ _ _ Hdwn). reflexivity.
Qed.

(** The same for the intensity call of the branches that have one. *)
Lemma secondary_ok_inv (r : Region) (tmp_dir : string)
    (gs_aoi : GeoSeries G) (sec : M (gmap string pyval)) (fs fs' : FS)
    (out : gmap string pyval) :
  secondary_of r tmp_dir gs_aoi = Some sec ->
  sec fs = (ok out, fs') ->
  exists sdir i_dir msg src0 mosaic out_trans,
    secondary_dir r tmp_dir gs_aoi = Some sdir
    /\ sdir fs = (ok i_dir, fs')
    /\ merged_from gs_aoi fs' i_dir src0 mosaic out_trans
    /\ out = <["out_msg" := VStr msg]> (merged_out src0 mosaic out_trans).
Proof.
  intros Hsec Hrun.
  destruct r; simpl in Hsec; try discriminate; injection Hsec as <-;
    unfold get_NL, get_DK, get_SI in Hrun;
    apply mbind_ok_inv in Hrun as (dwn & fs1 & Hdwn & Hrun);
    apply mbind_ok_inv in Hrun as (o & fs2 & Ho & Hret);
    unfold mret in Hret; injection Hret as <- <-.
  - change (laz_branch (out_dir dwn) gs_aoi 28992 true fs1 = (ok o, fs2))
      in Ho.
    apply laz_branch_ok_inv in Ho
      as (i_dir & src0 & mosaic & out_trans & Hdir & Hfrom & ->).
    eexists _, i_dir, _, src0, mosaic, out_trans.
    split; [reflexivity|]. split; [|split; [exact Hfrom|reflexivity]].
    rewrite (mbind_ok_run _ _ _ _ _ Hdwn). exact Hdir.
  - change (laz_branch (out_dir dwn) gs_aoi 25832 false fs1 = (ok o, fs2))
      in Ho.
    apply laz_branch_ok_inv in Ho
      as (i_dir & src0 & mosaic & out_trans & Hdir & Hfrom & ->).
    eexists _, i_dir, _, src0, mosaic, out_trans.
    split; [reflexivity|]. split; [|split; [exact Hfrom|reflexivity]].
    rewrite (mbind_ok_run _ _ _ _ _ Hdwn). exact Hdir.
  - change (laz_branch (out_dir dwn) gs_aoi 3794 true fs1 = (ok o, fs2))
      in Ho.
    apply laz_branch_ok_inv in Ho
      as (i_dir & src0 & mosaic & out_trans & Hdir & Hfrom & ->).
    eexists _, i_dir, _, src0, mosaic, out_trans.
    split; [reflexivity|]. split; [|split; [exact Hfrom|reflexivity]].
    rewrite (mbind_ok_run _ _ _ _ _ Hdwn). exact Hdir.
Qed.

Lemma update_intensity_none (base : gmap string pyval) :
  update_intensity base None = ok (<["array_intensity" := VNone]> base).
Proof. reflexivity. Qed.

Lemma update_intensity_merged (base : gmap string pyval) (msg : string)
    (src0 : Dataset) (mosaic : Array) (out_trans : Affine) :
  update_intensity base
    (Some (<["out_msg" := VStr msg]> (merged_out src0 mosaic out_trans)))
  = ok (add_intensity mosaic out_trans base).
Proof.
  unfold update_intensity, merged_out, rbind, py_pop.
  destruct src0 as [nm [drv dty nd w h cnt c t] arr].
  reflexivity.
Qed.

Lemma prepare_output_merged (msg : string) (src0 : Dataset) (mosaic : Array)
    (out_trans : Affine) (out_int : option (gmap string pyval)) :
  prepare_output
    (<["out_msg" := VStr msg]> (merged_out src0 mosaic out_trans)) out_int
  = match ds_crs src0 with
    | None => raise AttributeError
    | Some epsg =>
        update_intensity
          (dtm_entries mosaic out_trans epsg (crs_wkt epsg)) out_int
    end.
Proof.
  destruct src0 as [nm [drv dty nd w h cnt c t] arr].
  unfold ds_crs. simpl.
  destruct c as [epsg|].
  - unfold prepare_output, merged_out, dtm_entries, rbind, py_pop.
    f_equal.
  - reflexivity.
Qed.

(** The shape of the output of every run that returns. *)
Lemma anc_main_ok_inv (project_id : string)
    (min_x min_y max_x max_y aoi_epsg : Z) (fs fs' : FS)
    (out : gmap string pyval) :
  let gs_aoi := mkGeoSeries (box min_x min_y max_x max_y) aoi_epsg in
  let tmp_dir := tmp_dir_of project_id in
  let r := dispatch (select_source read_open_dtm gs_aoi) in
  anc_main project_id (min_x, min_y, max_x, max_y) aoi_epsg fs
    = (ok out, fs') ->
  exists i_dir fs1 src0 mosaic out_trans epsg,
    primary_dir r tmp_dir gs_aoi (ensure_dir_fs tmp_dir fs)
      = (ok i_dir, fs1)
    /\ merged_from gs_aoi fs1 i_dir src0 mosaic out_trans
    /\ ds_crs src0 = Some epsg
    /\ ((secondary_of r tmp_dir gs_aoi = None
         /\ out = <["array_intensity" := VNone]>
                    (dtm_entries mosaic out_trans epsg (crs_wkt epsg)))
        \/ (exists sdir i_dir_i fs2 src_i mosaic_i trans_i,
              secondary_of r tmp_dir gs_aoi <> None
              /\ secondary_dir r tmp_dir gs_aoi = Some sdir
              /\ sdir fs1 = (ok i_dir_i, fs2)
              /\ merged_from gs_aoi fs2 i_dir_i src_i mosaic_i trans_i
              /\ out = add_intensity mosaic_i trans_i
                         (dtm_entries mosaic out_trans epsg
                                      (crs_wkt epsg)))).
Proof.
  intros gs_aoi tmp_dir r.
  rewrite anc_main_eval, stages_eval, acquire_eval.
  fold gs_aoi. fold tmp_dir. fold r.
  destruct (primary_of r tmp_dir gs_aoi (ensure_dir_fs tmp_dir fs))
    as [[e|o] fs1] eqn:Hprim; [discriminate|].
  destruct (primary_ok_inv _ _ _ _ _ _ Hprim)
    as (i_dir & msg & src0 & mosaic & out_trans & Hdir & Hfrom & ->).
  destruct (secondary_of r tmp_dir gs_aoi) as [sec|] eqn:Hsec.
  - destruct (sec fs1) as [[e|oi] fs2] eqn:Hrun; [discriminate|].
    destruct (secondary_ok_inv _ _ _ _ _ _ _ Hsec Hrun)
      as (sdir & i_dir_i & msg_i & src_i & mosaic_i & trans_i
          & Hsdir & Hdir_i & Hfrom_i & ->).
    lazy beta iota delta [ok]. rewrite prepare_output_merged.
    destruct (ds_crs src0) as [epsg|] eqn:Hcrs; [|discriminate].
    rewrite update_intensity_merged. intros [= <- _].
    exists i_dir, fs1, src0, mosaic, out_trans, epsg.
    split; [exact Hdir|]. split; [exact Hfrom|]. split; [exact Hcrs|].
    right. exists sdir, i_dir_i, fs2, src_i, mosaic_i, trans_i.
    split; [discriminate|]. split; [exact Hsdir|].
    split; [exact Hdir_i|]. split; [exact Hfrom_i|reflexivity].
  - lazy beta iota delta [ok]. rewrite prepare_output_merged.
    destruct (ds_crs src0) as [epsg|] eqn:Hcrs; [|discriminate].
    rewrite update_intensity_none. intros [= <- _].
    exists i_dir, fs1, src0, mosaic, out_trans, epsg.
    split; [exact Hdir|]. split; [exact Hfrom|]. split; [exact Hcrs|].
    left. split; reflexivity.
Qed.
End ResultFacts.

(** ** The orchestrator: degenerate input, intensity, clean-up *)

Section OrchestratorFacts.
Context {G : Type} `{Geometry G} `{Collaborators G}.
Import anc_tools anc_regions anc_main.

Lemma merge_clip_no_tiles (i_dir : string) (gs_aoi : GeoSeries G)
    (fs : FS) :
  default [] (fs_tifs fs !! i_dir) = [] ->
  merge_clip i_dir gs_aoi fs = (raise IndexError, fs).
Proof. intros Hnone. rewrite merge_clip_eval, Hnone. reflexivity. Qed.

(** Outside the Netherlands the elevation product is the merge of the
    download directory as it is. *)
Lemma primary_no_tiles (r : Region) (tmp_dir i_dir msg : string)
    (gs_aoi : GeoSeries G) (fs0 fs : FS) :
  r <> NL ->
  primary_download r tmp_dir gs_aoi fs0 = (ok (mkStageOut msg i_dir), fs) ->
  default [] (fs_tifs fs !! i_dir) = [] ->
  primary_of r tmp_dir gs_aoi fs0 = (raise IndexError, fs).
Proof.
  intros Hr Hdwn Hnone.
  destruct r; try congruence; simpl in *;
    unfold get_DK, get_SI, get_DE, get_MX, get_SRTM;
    unfold mbind at 1; rewrite Hdwn; simpl;
    unfold mbind; rewrite (merge_clip_no_tiles _ _ _ Hnone);
    reflexivity.
Qed.

(** Filling an empty directory leaves the directory of filled rasters as
    it was, created if it was missing. *)
Lemma fill_tif_no_tiles (d : string) (fs1 : FS) :
  default [] (fs_tifs fs1 !! d) = [] ->
  fill_tif d fs1 =
    (ok (mkStageOut "File/s successfully filled!" (d +:+ "_fill")),
     ensure_dir_fs (d +:+ "_fill") fs1).
Proof.
  intros Hnone. unfold fill_tif.
  unfold mbind at 1. unfold glob_tif at 1. rewrite Hnone.
  unfold mbind at 1. rewrite ensure_dir_eval.
  reflexivity.
Qed.

Lemma ensure_dir_fs_tifs (p : string) (fs : FS) :
  fs_tifs (ensure_dir_fs p fs) = fs_tifs fs.
Proof. unfold ensure_dir_fs. case_bool_decide; reflexivity. Qed.

(** In the Netherlands the download directory is filled first. *)
Lemma primary_no_tiles_NL (tmp_dir d msg : string) (gs_aoi : GeoSeries G)
    (fs0 fs1 : FS) :
  dwn_NL_download "DTM" gs_aoi tmp_dir fs0 = (ok (mkStageOut msg d), fs1) ->
  default [] (fs_tifs fs1 !! d) = [] ->
  default [] (fs_tifs fs1 !! (d +:+ "_fill")) = [] ->
  get_NL "DTM" tmp_dir gs_aoi fs0
    = (raise IndexError, ensure_dir_fs (d +:+ "_fill") fs1).
Proof.
  intros Hdwn Hnone Hfill. unfold get_NL.
  unfold mbind at 1. rewrite Hdwn. simpl.
  unfold mbind at 1. unfold mbind at 1.
  rewrite (fill_tif_no_tiles _ _ Hnone). simpl.
  rewrite merge_clip_no_tiles; [reflexivity|].
  rewrite ensure_dir_fs_tifs. exact Hfill.
Qed.

(** C3, as amended.  On a directory with no raster file, [merge_clip]
    fails with [IndexError], raised where the first opened raster is
    looked up, and leaves the working storage as it was.  Nothing on the
    way up handles it: when the download of the selected source leaves
    such a directory, the region function fails with the same error, and
    so does the run of the orchestrator (in the Dutch branch, where the
    download directory is filled before the merge, the same holds for the
    directory of filled rasters). *)
Theorem zero_tiles_raise_index_error (i_dir : string)
    (gs_aoi : GeoSeries G) (fs : FS) :
  default [] (fs_tifs fs !! i_dir) = [] ->
  merge_clip i_dir gs_aoi fs = (raise IndexError, fs)
  /\ (forall (r : Region) (tmp_dir : string) (fs0 : FS) (msg : string),
        r <> NL ->
        primary_download r tmp_dir gs_aoi fs0
          = (ok (mkStageOut msg i_dir), fs) ->
        primary_of r tmp_dir gs_aoi fs0 = (raise IndexError, fs))
  /\ (forall (tmp_dir d : string) (fs0 fs1 : FS) (msg : string),
        dwn_NL_download "DTM" gs_aoi tmp_dir fs0
          = (ok (mkStageOut msg d), fs1) ->
        default [] (fs_tifs fs1 !! d) = [] ->
        i_dir = d +:+ "_fill" ->
        fs = ensure_dir_fs i_dir fs1 ->
        primary_of NL tmp_dir gs_aoi fs0 = (raise IndexError, fs))
  /\ (forall (project_id : string) (min_x min_y max_x max_y aoi_epsg : Z)
             (fs0 : FS),
        gs_aoi = mkGeoSeries (box min_x min_y max_x max_y) aoi_epsg ->
        primary_of (dispatch (select_source read_open_dtm gs_aoi))
                   (tmp_dir_of project_id) gs_aoi
                   (ensure_dir_fs (tmp_dir_of project_id) fs0)
          = (raise IndexError, fs) ->
        anc_main project_id (min_x, min_y, max_x, max_y) aoi_epsg fs0
          = (raise IndexError, fs)).
Proof.
  intros Hnone.
  split; [apply merge_clip_no_tiles; exact Hnone|].
  split; [|split].
  - intros r tmp_dir fs0 msg Hr Hdwn.
    apply (primary_no_tiles r tmp_dir i_dir msg); assumption.
  - intros tmp_dir d fs0 fs1 msg Hdwn Hd -> ->. simpl.
    apply (primary_no_tiles_NL tmp_dir d msg); [exact Hdwn|exact Hd|].
    rewrite ensure_dir_fs_tifs in Hnone. exact Hnone.
  - intros project_id min_x min_y max_x max_y aoi_epsg fs0 -> Hprim.
    rewrite anc_main_eval, stages_eval, acquire_eval, Hprim. reflexivity.
Qed.






End OrchestratorFacts.

(** ** Tile index matchers *)

Section MatcherFacts.
Context {G : Type} `{Geometry G}.

(** The rectangle the matchers test against. *)
Lemma matcher_aoi (aoi : GeoSeries G) (net_crs : Z) :
  (if bool_decide (net_crs ≠ gs_crs aoi)
   then gs_envelope (to_crs aoi net_crs)
   else gs_envelope aoi) = gs_envelope (reproject aoi net_crs).
Proof. unfold reproject. case_bool_decide; reflexivity. Qed.

(** A loop that appends [f row] for the rows passing a test collects the
    passing rows in order. *)
Lemma append_loop_filter {Row : Type} (test : Row -> bool)
    (f : Row -> string) (rows : list Row) (acc : list string) :
  fold_left (fun tiles row => if test row then tiles ++ [f row] else tiles)
            rows acc
  = acc ++ map f (filter (fun row => test row = true) rows).
Proof.
  revert acc. induction rows as [|row rows IH]; intros acc; simpl.
  - rewrite app_nil_r. reflexivity.
  - rewrite IH. rewrite filter_cons.
    destruct (test row) eqn:Ht.
    + rewrite decide_True by reflexivity. simpl.
      rewrite <- app_assoc. reflexivity.
    + rewrite decide_False by discriminate. reflexivity.
Qed.

Lemma nl_loop_filter (aoi_pr : GeoSeries G)
    (rows : list (dwn_NL.Row G)) (acc : dwn_NL.Tiles) :
  let hit := filter (fun row =>
               intersects (gs_geom aoi_pr) (dwn_NL.geometry row) = true)
               rows in
  fold_left (dwn_NL.add_row aoi_pr) rows acc =
    dwn_NL.mkTiles
      (dwn_NL.tile_names acc ++ map dwn_NL.Kaartblad hit)
      (dwn_NL.laz_url acc ++ map dwn_NL.AHN3_LAZ hit)
      (dwn_NL.dtm_url acc ++ map dwn_NL.AHN3_05m_DTM hit)
      (dwn_NL.ahn2_i acc ++ map dwn_NL.ahn2_05m_i hit)
      (dwn_NL.ahn2_r acc ++ map dwn_NL.ahn2_05m_r hit).
Proof.
  revert acc. induction rows as [|row rows IH]; intros acc; simpl.
  - rewrite !app_nil_r. destruct acc; reflexivity.
  - rewrite IH. rewrite filter_cons. unfold dwn_NL.add_row.
    destruct (intersects (gs_geom aoi_pr) (dwn_NL.geometry row)) eqn:Ht.
    + rewrite decide_True by reflexivity. simpl.
      rewrite <- !app_assoc. reflexivity.
    + rewrite decide_False by discriminate. reflexivity.
Qed.

(** C8, as amended.  The matcher returns, in catalog order, the
    identifiers of the catalog tiles whose footprint intersects the
    envelope (the axis-aligned bounding rectangle) of the AOI reprojected
    into the CRS of the catalog; for the Dutch catalog the five lists it
    fills are the five attributes of those same rows. *)
Theorem get_tile_names_match_envelope (aoi : GeoSeries G) :
  (forall fishnet : Fishnet (dwn_SRTM.Row G),
     dwn_SRTM.get_tile_names fishnet aoi =
       map dwn_SRTM.tile_name
         (filter (fun row =>
                    intersects
                      (envelope (gs_geom (reproject aoi (fn_crs fishnet))))
                      (dwn_SRTM.geometry row) = true)
                 (fn_rows fishnet)))
  /\ (forall ahn3_gj : Fishnet (dwn_NL.Row G),
        let hit :=
          filter (fun row =>
                    intersects
                      (envelope (gs_geom (reproject aoi (fn_crs ahn3_gj))))
                      (dwn_NL.geometry row) = true)
                 (fn_rows ahn3_gj) in
        dwn_NL.get_tile_names ahn3_gj aoi =
          dwn_NL.mkTiles (map dwn_NL.Kaartblad hit)
                         (map dwn_NL.AHN3_LAZ hit)
                         (map dwn_NL.AHN3_05m_DTM hit)
                         (map dwn_NL.ahn2_05m_i hit)
                         (map dwn_NL.ahn2_05m_r hit)).
Proof.
  split.
  - intros fishnet. unfold dwn_SRTM.get_tile_names.
    rewrite matcher_aoi.
    rewrite (append_loop_filter
               (fun row => intersects _ (dwn_SRTM.geometry row))).
    reflexivity.
  - intros ahn3_gj hit. unfold dwn_NL.get_tile_names.
    rewrite matcher_aoi, nl_loop_filter. reflexivity.
Qed.

Lemma py_round_div_nearest (n : Z) :
  2 * Z.abs (1000 * py_round_div n 1000 - n) <= 1000.
Proof.
  unfold py_round_div.
  pose proof (Z.div_mod n 1000 ltac:(lia)) as Hdm.
  pose proof (Z.mod_pos_bound n 1000 ltac:(lia)) as Hr.
  destruct (2 * (n mod 1000) <? 1000) eqn:Hlo;
    [apply Z.ltb_lt in Hlo; lia|apply Z.ltb_ge in Hlo].
  destruct (1000 <? 2 * (n mod 1000)) eqn:Hhi;
    [apply Z.ltb_lt in Hhi; lia|apply Z.ltb_ge in Hhi].
  destruct (Z.even (n / 1000)); lia.
Qed.

Lemma py_round_div_exact (k : Z) : py_round_div (1000 * k) 1000 = k.
Proof.
  unfold py_round_div.
  replace (1000 * k) with (k * 1000) by lia.
  rewrite Z.div_mul by lia. rewrite Z.mod_mul by lia. reflexivity.
Qed.

Lemma nrw_loop_flat_map (aoi_pr : GeoSeries G) (url_main : string)
    (file_type : dwn_DE.Row G -> string) (rows : list (dwn_DE.Row G))
    (acc : list string) :
  fold_left (dwn_DE.add_row aoi_pr url_main file_type) rows acc
  = acc ++ flat_map (nrw_row_ids aoi_pr url_main file_type) rows.
Proof.
  revert acc. induction rows as [|row rows IH]; intros acc; simpl.
  - rewrite app_nil_r. reflexivity.
  - rewrite IH. unfold dwn_DE.add_row, nrw_row_ids.
    destruct (intersects (gs_geom aoi_pr) (dwn_DE.geometry row)).
    + rewrite <- !app_assoc. reflexivity.
    + reflexivity.
Qed.

Lemma nrw_ids_length (aoi_pr : GeoSeries G) (url_main : string)
    (file_type : dwn_DE.Row G -> string) (rows : list (dwn_DE.Row G)) :
  length (flat_map (nrw_row_ids aoi_pr url_main file_type) rows)
  = (4 * length (filter (fun row =>
                   intersects (gs_geom aoi_pr) (dwn_DE.geometry row) = true)
                   rows))%nat.
Proof.
  induction rows as [|row rows IH]; simpl; [reflexivity|].
  rewrite length_app, IH, filter_cons. unfold nrw_row_ids.
  destruct (intersects (gs_geom aoi_pr) (dwn_DE.geometry row)) eqn:Ht.
  - rewrite decide_True by reflexivity. simpl. lia.
  - rewrite decide_False by discriminate. simpl. lia.
Qed.

End MatcherFacts.

(** * The pipeline on concrete inputs *)

Section Runs.
Import Lattice Demo.

Ltac by_evaluation := vm_compute; reflexivity.
Ltac in_set :=
  match goal with
  | |- ?P => apply (@bool_decide_unpack P _); vm_compute; exact I
  end.

(** A complete run: the Mexican source has no intensity product, the
    output carries [None] for it, and the working directory is gone. *)
Example run_in_mx :
  is_ok (fst (anc_main.anc_main "p" in_mx 4326 fs0)) = true
  /\ snd (anc_main.anc_main "p" in_mx 4326 fs0) = fs0
  /\ entry "array_intensity" (anc_main.anc_main "p" in_mx 4326 fs0)
       = Some VNone
  /\ entry "array_dtm" (anc_main.anc_main "p" in_mx 4326 fs0)
       = Some (VArr (mkArray (1, 2, 2) [9; 9; 9; 9])).
Proof. repeat split; by_evaluation. Qed.

(** *** Source selection *)

Lemma select_last_containing_wins_witness :
  rc_rows open_dtm =
    [mkRegionRow "NL" (lat_box 0 0 5 5)]
    ++ mkRegionRow "DK" (lat_box 0 0 9 9)
    :: [mkRegionRow "DE_NRW" (lat_box 20 20 29 29);
        mkRegionRow "MX" (lat_box 40 40 49 49)]
  /\ anc_main.select_source open_dtm (aoi_of in_nl_dk 4326) = Some "DK".
Proof.
  split; [reflexivity|].
  apply (select_last_containing_wins open_dtm (aoi_of in_nl_dk 4326)
           [mkRegionRow "NL" (lat_box 0 0 5 5)]
           [mkRegionRow "DE_NRW" (lat_box 20 20 29 29);
            mkRegionRow "MX" (lat_box 40 40 49 49)]
           (mkRegionRow "DK" (lat_box 0 0 9 9))).
  - reflexivity.
  - by_evaluation.
  - repeat constructor.
Defined.

(** The AOI lies within the first-listed Dutch polygon and within the
    Danish one listed after it; the specification's rule gives the Dutch
    tag, the loop gives the Danish one. *)
Lemma first_listed_polygon_does_not_win :
  within (gs_geom (aoi_of in_nl_dk 4326)) (lat_box 0 0 5 5) = true
  /\ within (gs_geom (aoi_of in_nl_dk 4326)) (lat_box 0 0 9 9) = true
  /\ Spec.first_containing (rc_rows open_dtm) (aoi_of in_nl_dk 4326)
       = Some "NL"
  /\ anc_main.select_source open_dtm (aoi_of in_nl_dk 4326) = Some "DK"
  /\ anc_main.select_source open_dtm (aoi_of in_nl_dk 4326)
       <> Spec.first_containing (rc_rows open_dtm) (aoi_of in_nl_dk 4326).
Proof.
  repeat split; try by_evaluation.
  vm_compute. discriminate.
Qed.

Lemma select_outside_all_is_fallback_witness :
  Forall (fun r =>
            within (gs_geom (reproject (aoi_of nowhere 4326)
                                       (rc_crs open_dtm)))
                   (geometry r) = false) (rc_rows open_dtm)
  /\ anc_main.dispatch
       (anc_main.select_source open_dtm (aoi_of nowhere 4326)) = SRTM
  /\ anc_main.select_source open_dtm (aoi_of nowhere 4326) = Some "SRTM".
Proof.
  assert (Hout : Forall (fun r =>
            within (gs_geom (reproject (aoi_of nowhere 4326)
                                       (rc_crs open_dtm)))
                   (geometry r) = false) (rc_rows open_dtm))
    by (repeat constructor).
  split; [exact Hout|].
  destruct (select_outside_all_is_fallback open_dtm (aoi_of nowhere 4326)
              Hout) as (Hd & Hsome & _).
  split; [exact Hd|]. apply Hsome. discriminate.
Defined.

(** *** Reconciliation *)

Lemma reproject_identity_when_crs_coincide_witness :
  gs_crs unit_square = 4326
  /\ reproject unit_square 4326 = unit_square
  /\ anc_tools.clip_bounds [tile (Some 4326) 1; tile (Some 4327) 2]
                           unit_square = ok (Some (0, 0, 1, 1))
  /\ reproject unit_square 4327 =
       mkGeoSeries [(0, 0); (1, 1); (1, 0); (2, 1)] 4327.
Proof.
  split; [reflexivity|].
  destruct (reproject_identity_when_crs_coincide unit_square 4326 eq_refl)
    as (Hsame & _ & Hclip & Hother).
  split; [exact Hsame|].
  split.
  - rewrite (Hclip (tile (Some 4326) 1) [tile (Some 4327) 2] eq_refl).
    reflexivity.
  - rewrite (Hother 4327) by discriminate. reflexivity.
Defined.

(** *** Merge and clip *)

(** The first raster has a CRS, the second has none: the pair is clipped
    to the AOI bounds in the CRS of the first. *)
Lemma merge_clip_decides_on_first_tile_witness :
  fs_tifs (fs_with [tile (Some 4327) 1; tile None 2]) !! "d"
    = Some [tile (Some 4327) 1; tile None 2]
  /\ anc_tools.clip_bounds [tile (Some 4327) 1; tile None 2] unit_square
       = ok (Some (0, 0, 2, 1))
  /\ anc_tools.clip_bounds [tile (Some 4327) 1] unit_square
       = ok (Some (0, 0, 2, 1))
  /\ fst (anc_tools.merge_clip "d" unit_square
            (fs_with [tile (Some 4327) 1; tile None 2]))
       = ok (merged_out (tile (Some 4327) 1) (mkArray (1, 2, 2) [1; 1; 1; 1])
                        (mkAffine 1 0 0 0 (-1) 2)).
Proof.
  assert (Hdir : fs_tifs (fs_with [tile (Some 4327) 1; tile None 2]) !! "d"
                 = Some [tile (Some 4327) 1; tile None 2])
    by reflexivity.
  split; [exact Hdir|].
  destruct (merge_clip_decides_on_first_tile "d" unit_square _ _ _ Hdir)
    as (Hb & Hothers & Hrun).
  split; [rewrite Hb; reflexivity|].
  split; [rewrite (Hothers []); reflexivity|].
  rewrite Hrun. reflexivity.
Defined.

Lemma merge_clip_first_tile_without_crs_witness :
  fs_tifs (fs_with [tile None 1; tile (Some 4327) 2]) !! "d"
    = Some [tile None 1; tile (Some 4327) 2]
  /\ ds_crs (tile None 1) = None
  /\ rasterio_merge [tile None 1; tile (Some 4327) 2] None
       = ok (mkArray (1, 2, 2) [1; 1; 1; 1], mkAffine 1 0 0 0 (-1) 2)
  /\ anc_tools.clip_bounds [tile None 1; tile (Some 4327) 2] unit_square
       = ok None
  /\ anc_tools.merge_clip "d" unit_square
       (fs_with [tile None 1; tile (Some 4327) 2])
       = (ok (merged_out (tile None 1) (mkArray (1, 2, 2) [1; 1; 1; 1])
                         (mkAffine 1 0 0 0 (-1) 2)),
          fs_with [tile None 1; tile (Some 4327) 2]).
Proof.
  split; [reflexivity|]. split; [reflexivity|]. split; [reflexivity|].
  apply (merge_clip_first_tile_without_crs "d" unit_square
           (fs_with [tile None 1; tile (Some 4327) 2])
           (tile None 1) [tile (Some 4327) 2]);
    reflexivity.
Defined.

(** A raster without CRS is in the listing, as the second file: the clip
    rectangle is computed all the same. *)
Lemma clip_applied_despite_tile_without_crs :
  tile None 2 ∈ [tile (Some 4327) 1; tile None 2]
  /\ ds_crs (tile None 2) = None
  /\ anc_tools.clip_bounds [tile (Some 4327) 1; tile None 2] unit_square
       = ok (Some (0, 0, 2, 1))
  /\ anc_tools.clip_bounds [tile (Some 4327) 1; tile None 2] unit_square
       <> ok None.
Proof.
  split; [apply elem_of_cons; right; apply elem_of_cons; left; reflexivity|].
  split; [reflexivity|].
  split; [by_evaluation|].
  vm_compute. discriminate.
Qed.
(** *** Degenerate input *)

(** The SRTM server had no tile for the AOI: the download directory is
    empty, [merge_clip] raises [IndexError] and the run ends with it. *)
Lemma zero_tiles_raise_index_error_witness :
  let tmp_dir := anc_main.tmp_dir_of "p" in
  let fs := snd (dwn_SRTM_download (aoi_of nowhere 4326) tmp_dir
                   (ensure_dir_fs tmp_dir fs0)) in
  default [] (fs_tifs fs !! "./p_anc_temp/srtm") = []
  /\ anc_tools.merge_clip "./p_anc_temp/srtm" (aoi_of nowhere 4326) fs
       = (raise IndexError, fs)
  /\ anc_regions.get_SRTM tmp_dir (aoi_of nowhere 4326)
                          (ensure_dir_fs tmp_dir fs0)
       = (raise IndexError, fs)
  /\ anc_main.anc_main "p" (71, 71, 72, 72) 4326 fs0
       = (raise IndexError, fs).
Proof.
  intros tmp_dir fs.
  assert (Hnone : default [] (fs_tifs fs !! "./p_anc_temp/srtm") = [])
    by by_evaluation.
  split; [exact Hnone|].
  destruct (zero_tiles_raise_index_error "./p_anc_temp/srtm"
              (aoi_of nowhere 4326) fs Hnone)
    as (Hmerge & Hregion & _ & Hmain).
  assert (Hsrtm : primary_of SRTM tmp_dir (aoi_of nowhere 4326)
                    (ensure_dir_fs tmp_dir fs0) = (raise IndexError, fs)).
  { apply (Hregion SRTM tmp_dir (ensure_dir_fs tmp_dir fs0)
             "Finished downloading files!"); [discriminate|].
    by_evaluation. }
  split; [exact Hmerge|].
  split; [exact Hsrtm|].
  apply (Hmain "p" 71 71 72 72 4326 fs0); [reflexivity|].
  assert (Hsel : anc_main.dispatch
                   (anc_main.select_source read_open_dtm
                      (aoi_of nowhere 4326)) = SRTM) by by_evaluation.
  rewrite Hsel. exact Hsrtm.
Defined.

(** The exception of the degenerate case is not the one the specification
    names. *)
Lemma zero_tiles_not_no_data_available_error :
  default [] (fs_tifs fs0 !! "d") = []
  /\ fst (anc_tools.merge_clip "d" unit_square fs0) = raise IndexError
  /\ fst (anc_tools.merge_clip "d" unit_square fs0)
       <> raise (OtherError "NoDataAvailableError").
Proof.
  split; [reflexivity|]. split; [by_evaluation|].
  vm_compute. discriminate.
Qed.

(** *** Intensity *)



(** *** Clean-up *)



(** Removal of the working directory is refused: the run still returns
    its output, and the directory stays. *)
Example cleanup_failure_is_swallowed :
  let locked := mkFS {["."]} {["./p_anc_temp"]} ∅ in
  is_ok (fst (anc_main.anc_main "p" in_mx 4326 locked)) = true
  /\ ("./p_anc_temp"
       ∈ fs_dirs (snd (anc_main.anc_main "p" in_mx 4326 locked))).
Proof. intros locked. split; [by_evaluation|in_set]. Qed.

(** *** Tile matching *)

(** The unit square of CRS 4326 becomes a parallelogram in the catalog
    CRS; tile [B] lies in a corner of its bounding rectangle, outside the
    parallelogram, and is returned. *)
Lemma tile_outside_footprint_is_matched :
  gs_geom (reproject unit_square (fn_crs srtm_net))
    = [(0, 0); (1, 1); (1, 0); (2, 1)]
  /\ intersects (gs_geom (reproject unit_square (fn_crs srtm_net)))
                [(2, 0)] = false
  /\ dwn_SRTM.get_tile_names srtm_net unit_square = ["A"; "B"]
  /\ Spec.footprint_matches srtm_net unit_square = ["A"]
  /\ dwn_SRTM.get_tile_names srtm_net unit_square
       <> Spec.footprint_matches srtm_net unit_square.
Proof.
  repeat split; try by_evaluation.
  vm_compute. discriminate.
Qed.

(** The matched row of a one-row fishnet brings three names that no row
    of the catalog carries. *)
Example nrw_single_row :
  dwn_DE.get_tile_names nrw_net unit_square "LAZ" =
    ok [ dwn_DE.url_path +:+ "3dm_l_las/3dm_l_las/3dm_32_340_5640_1_nw.laz";
         dwn_DE.url_path +:+ "3dm_l_las/3dm_l_las/3dm_32_341_5640_1_nw.laz";
         dwn_DE.url_path +:+ "3dm_l_las/3dm_l_las/3dm_32_340_5641_1_nw.laz";
         dwn_DE.url_path +:+ "3dm_l_las/3dm_l_las/3dm_32_341_5641_1_nw.laz" ].
Proof. by_evaluation. Qed.

Example py_round_div_ties :
  py_round_div 340500 1000 = 340 /\ py_round_div 341500 1000 = 342
  /\ py_round_div 340499 1000 = 340 /\ py_round_div (-500) 1000 = 0.
Proof. repeat split. Qed.
End Runs.

(** * Further properties *)

(** ** Source selection as a whole *)

Section SelectClosedForm.
Context {G : Type} `{Geometry G}.
Import anc_main.

Lemma select_loop_closed (wgs_aoi : GeoSeries G) (rows : list (RegionRow G))
    (start : option string) :
  fold_left (select_step wgs_aoi) rows start =
    match last_containing rows wgs_aoi with
    | Some tag => Some tag
    | None =>
        match rows, start with
        | [], _ => start
        | _ :: _, None => Some "SRTM"
        | _ :: _, Some _ => start
        end
    end.
Proof.
  revert start. induction rows as [|row rows IH]; intros start; simpl.
  - reflexivity.
  - rewrite IH. destruct (last_containing rows wgs_aoi) as [tag|] eqn:Hlast;
      [reflexivity|].
    unfold select_step.
    destruct (within (gs_geom wgs_aoi) (geometry row)); simpl.
    + destruct rows; reflexivity.
    + destruct start as [t|]; destruct rows; reflexivity.
Qed.

Lemma last_containing_sound (wgs_aoi : GeoSeries G)
    (rows : list (RegionRow G)) (tag : string) :
  last_containing rows wgs_aoi = Some tag ->
  exists row, row ∈ rows
              /\ within (gs_geom wgs_aoi) (geometry row) = true
              /\ abbrev row = tag.
Proof.
  induction rows as [|row rows IH]; simpl; [discriminate|].
  destruct (last_containing rows wgs_aoi) as [t|].
  - intros [= <-]. destruct (IH eq_refl) as (r & Hin & Hw & Ht).
    exists r. split; [apply elem_of_cons; right; exact Hin|]. split; assumption.
  - destruct (within (gs_geom wgs_aoi) (geometry row)) eqn:Hw; [|discriminate].
    intros [= <-]. exists row.
    split; [apply elem_of_cons; left; reflexivity|]. split; [exact Hw|reflexivity].
Qed.

Lemma last_containing_none (wgs_aoi : GeoSeries G)
    (rows : list (RegionRow G)) :
  last_containing rows wgs_aoi = None ->
  Forall (fun r => within (gs_geom wgs_aoi) (geometry r) = false) rows.
Proof.
  induction rows as [|row rows IH]; simpl; [constructor|].
  destruct (last_containing rows wgs_aoi) as [t|]; [discriminate|].
  destruct (within (gs_geom wgs_aoi) (geometry row)) eqn:Hw; [discriminate|].
  intros _. constructor; [exact Hw|apply IH; reflexivity].
Qed.

(** X1.  The selection loop in closed form: it returns the tag of the last
    catalog row whose polygon contains the reprojected AOI; when no row
    does it returns ['SRTM'], except for a catalog without rows, where the
    tag stays [None]. *)
Theorem select_source_closed_form (open_dtm : RegionCatalog G)
    (gs_aoi : GeoSeries G) :
  select_source open_dtm gs_aoi =
    match last_containing (rc_rows open_dtm)
                          (reproject gs_aoi (rc_crs open_dtm)) with
    | Some tag => Some tag
    | None =>
        match rc_rows open_dtm with
        | [] => None
        | _ :: _ => Some "SRTM"
        end
    end.
Proof.
  unfold select_source, select_database.
  rewrite select_loop_closed.
  destruct (last_containing _ _); [reflexivity|].
  destruct (rc_rows open_dtm); reflexivity.
Qed.

(** X2.  The selection never names a region that does not contain the AOI:
    a returned tag is ['SRTM'] or the tag of a catalog row whose polygon
    contains the reprojected AOI; and when some row contains the AOI, the
    returned tag is that of a containing row. *)
Theorem select_source_sound (open_dtm : RegionCatalog G)
    (gs_aoi : GeoSeries G) :
  let wgs_aoi := reproject gs_aoi (rc_crs open_dtm) in
  (forall tag,
     select_source open_dtm gs_aoi = Some tag ->
     tag = "SRTM"
     \/ exists row, row ∈ rc_rows open_dtm
                    /\ within (gs_geom wgs_aoi) (geometry row) = true
                    /\ abbrev row = tag)
  /\ (forall row0,
        row0 ∈ rc_rows open_dtm ->
        within (gs_geom wgs_aoi) (geometry row0) = true ->
        exists row, row ∈ rc_rows open_dtm
                    /\ within (gs_geom wgs_aoi) (geometry row) = true
                    /\ select_source open_dtm gs_aoi = Some (abbrev row)).
Proof.
  intros wgs_aoi. unfold select_source, select_database.
  rewrite select_loop_closed. fold wgs_aoi.
  destruct (last_containing (rc_rows open_dtm) wgs_aoi) as [t|] eqn:Hlast.
  - split.
    + intros tag [= <-]. right. apply last_containing_sound. exact Hlast.
    + intros _ _ _.
      destruct (last_containing_sound _ _ _ Hlast) as (r & Hin & Hw & Ht).
      exists r. rewrite Ht. repeat split; assumption.
  - pose proof (last_containing_none _ _ Hlast) as Hnone. split.
    + intros tag. destruct (rc_rows open_dtm); [discriminate|].
      intros [= <-]. left. reflexivity.
    + intros row0 Hin Hw. rewrite Forall_forall in Hnone.
      rewrite (Hnone row0 Hin) in Hw. discriminate.
Qed.

(** X3.  Tags and branches correspond one to one: each of the five tags
    reaches its own branch, and a branch other than the SRTM one is reached
    by its own tag only; every other tag, and no tag at all, reaches the
    SRTM branch. *)
Theorem dispatch_tag_round_trip (sel : option string) (r : Region) :
  (tag_of r <> None -> dispatch (tag_of r) = r)
  /\ (dispatch sel = r -> r <> SRTM -> sel = tag_of r)
  /\ (dispatch sel = SRTM <->
      forall r', r' <> SRTM -> sel <> tag_of r').
Proof.
  split; [|split].
  - destruct r; simpl; intros Hne; reflexivity.
  - destruct sel as [tag|]; simpl; [|congruence].
    destruct (String.eqb tag "NL") eqn:E1;
      [apply String.eqb_eq in E1; subst; intros <- _; reflexivity|].
    destruct (String.eqb tag "DK") eqn:E2;
      [apply String.eqb_eq in E2; subst; intros <- _; reflexivity|].
    destruct (String.eqb tag "SI") eqn:E3;
      [apply String.eqb_eq in E3; subst; intros <- _; reflexivity|].
    destruct (String.eqb tag "DE_NRW") eqn:E4;
      [apply String.eqb_eq in E4; subst; intros <- _; reflexivity|].
    destruct (String.eqb tag "MX") eqn:E5;
      [apply String.eqb_eq in E5; subst; intros <- _; reflexivity|].
    congruence.
  - split.
    + intros Hd r' Hr' Heq. subst sel.
      destruct r'; simpl in Hd; congruence.
    + intros Hall. destruct sel as [tag|]; simpl; [|reflexivity].
      destruct (String.eqb tag "NL") eqn:E1;
        [apply String.eqb_eq in E1; subst;
         exfalso; apply (Hall NL); [discriminate|reflexivity]|].
      destruct (String.eqb tag "DK") eqn:E2;
        [apply String.eqb_eq in E2; subst;
         exfalso; apply (Hall DK); [discriminate|reflexivity]|].
      destruct (String.eqb tag "SI") eqn:E3;
        [apply String.eqb_eq in E3; subst;
         exfalso; apply (Hall SI); [discriminate|reflexivity]|].
      destruct (String.eqb tag "DE_NRW") eqn:E4;
        [apply String.eqb_eq in E4; subst;
         exfalso; apply (Hall DE_NRW); [discriminate|reflexivity]|].
      destruct (String.eqb tag "MX") eqn:E5;
        [apply String.eqb_eq in E5; subst;
         exfalso; apply (Hall MX); [discriminate|reflexivity]|].
      reflexivity.
Qed.
End SelectClosedForm.

(** ** The output of a run *)

Section OutputFacts.
Context {G : Type} `{Geometry G} `{Collaborators G}.
Import anc_tools anc_regions anc_main.

(** X4.  In the output of every run that returns, the entries of the
    elevation product describe the mosaic of this run: the directory the
    elevation call of the selected branch arrived at, in the storage that
    call left, lists at least one raster; [array_dtm] is the mosaic the
    raster merge returned for that listing, [width] and [height] are its
    shape, the origin and pixel sizes are those of the transform the merge
    returned, [crs] is the CRS of the first raster listed, and the keys
    [out_msg], [array] and [dtm_meta] of the region result are gone. *)
Theorem output_describes_the_mosaic (project_id : string)
    (min_x min_y max_x max_y aoi_epsg : Z) (fs fs' : FS)
    (out : gmap string pyval) :
  let gs_aoi := mkGeoSeries (box min_x min_y max_x max_y) aoi_epsg in
  let tmp_dir := tmp_dir_of project_id in
  let r := dispatch (select_source read_open_dtm gs_aoi) in
  anc_main project_id (min_x, min_y, max_x, max_y) aoi_epsg fs
    = (ok out, fs') ->
  exists i_dir fs1 src0 rest mosaic out_trans epsg,
    primary_dir r tmp_dir gs_aoi (ensure_dir_fs tmp_dir fs)
      = (ok i_dir, fs1)
    /\ default [] (fs_tifs fs1 !! i_dir) = src0 :: rest
    /\ rasterio_merge (src0 :: rest) (clip_of src0 gs_aoi)
         = ok (mosaic, out_trans)
    /\ ds_crs src0 = Some epsg
    /\ out !! "array_dtm" = Some (VArr mosaic)
    /\ out !! "width" = Some (VNum (shape2 mosaic))
    /\ out !! "height" = Some (VNum (shape1 mosaic))
    /\ out !! "x_min" = Some (VNum (af_c out_trans))
    /\ out !! "y_max" = Some (VNum (af_f out_trans))
    /\ out !! "x_size" = Some (VNum (af_a out_trans))
    /\ out !! "y_size" = Some (VNum (af_e out_trans))
    /\ out !! "crs" = Some (VCrs epsg)
    /\ out !! "crs_wkt" = Some (VStr (crs_wkt epsg))
    /\ out !! "out_msg" = None
    /\ out !! "array" = None
    /\ out !! "dtm_meta" = None.
Proof.
  intros gs_aoi tmp_dir r Hrun.
  destruct (anc_main_ok_inv _ _ _ _ _ _ _ _ _ Hrun)
    as (i_dir & fs1 & src0 & mosaic & out_trans & epsg & Hdir
        & (rest & Hlist & Hmerge) & Hcrs & Hout).
  exists i_dir, fs1, src0, rest, mosaic, out_trans, epsg.
  split; [exact Hdir|]. split; [exact Hlist|]. split; [exact Hmerge|].
  split; [exact Hcrs|].
  destruct Hout as [[_ ->]|(sdir & d & fs2 & s & m & t & _ & _ & _ & _ & ->)];
    repeat split; reflexivity.
Qed.

(** X5.  The output of every run that returns has an intensity entry: it
    is [None], with no other intensity key, when the selected branch has
    no secondary product; otherwise the directory the intensity call of
    the branch arrived at, started in the storage the elevation call
    left, lists at least one raster, [array_intensity] is the mosaic the
    raster merge returned for that listing, and [width_intensity],
    [height_intensity], origin and pixel sizes are read off that mosaic
    and its transform, independently of the elevation entries. *)
Theorem output_intensity_entries (project_id : string)
    (min_x min_y max_x max_y aoi_epsg : Z) (fs fs' : FS)
    (out : gmap string pyval) :
  let gs_aoi := mkGeoSeries (box min_x min_y max_x max_y) aoi_epsg in
  let tmp_dir := tmp_dir_of project_id in
  let r := dispatch (select_source read_open_dtm gs_aoi) in
  anc_main project_id (min_x, min_y, max_x, max_y) aoi_epsg fs
    = (ok out, fs') ->
  (secondary_of r tmp_dir gs_aoi = None
   /\ out !! "array_intensity" = Some VNone
   /\ out !! "width_intensity" = None
   /\ out !! "height_intensity" = None)
  \/ (exists sdir i_dir fs1 i_dir_i fs2 src_i rest_i mosaic_i trans_i,
        secondary_dir r tmp_dir gs_aoi = Some sdir
        /\ primary_dir r tmp_dir gs_aoi (ensure_dir_fs tmp_dir fs)
             = (ok i_dir, fs1)
        /\ sdir fs1 = (ok i_dir_i, fs2)
        /\ default [] (fs_tifs fs2 !! i_dir_i) = src_i :: rest_i
        /\ rasterio_merge (src_i :: rest_i) (clip_of src_i gs_aoi)
             = ok (mosaic_i, trans_i)
        /\ out !! "array_intensity" = Some (VArr mosaic_i)
        /\ out !! "width_intensity" = Some (VNum (shape2 mosaic_i))
        /\ out !! "height_intensity" = Some (VNum (shape1 mosaic_i))
        /\ out !! "x_min_intensity" = Some (VNum (af_c trans_i))
        /\ out !! "y_max_intensity" = Some (VNum (af_f trans_i))
        /\ out !! "x_size_intensity" = Some (VNum (af_a trans_i))
        /\ out !! "y_size_intensity" = Some (VNum (af_e trans_i))).
Proof.
  intros gs_aoi tmp_dir r Hrun.
  destruct (anc_main_ok_inv _ _ _ _ _ _ _ _ _ Hrun)
    as (i_dir & fs1 & src0 & mosaic & out_trans & epsg & Hdir & _ & _
        & Hout).
  destruct Hout as [[Hsec ->]|(sdir & i_dir_i & fs2 & s & m & t & _ & Hsdir
                               & Hdir_i & (rest_i & Hlist & Hmerge) & ->)].
  - left. split; [exact Hsec|]. repeat split; reflexivity.
  - right. exists sdir, i_dir, fs1, i_dir_i, fs2, s, rest_i, m, t.
    split; [exact Hsdir|]. split; [exact Hdir|]. split; [exact Hdir_i|].
    split; [exact Hlist|]. split; [exact Hmerge|].
    repeat split; reflexivity.
Qed.

(** X6.  A mosaic without CRS does not get through the orchestrator: when
    the acquisition returns and the metadata of the elevation product
    carries no CRS (the first merged raster had none), the run ends with
    [AttributeError], raised where the CRS of the metadata is unpacked, and
    the working directory is left in place. *)
Theorem mosaic_without_crs_fails_the_run (project_id : string)
    (min_x min_y max_x max_y aoi_epsg : Z) (fs fs1 : FS)
    (out : gmap string pyval) (out_int : option (gmap string pyval))
    (m : Meta) :
  let gs_aoi := mkGeoSeries (box min_x min_y max_x max_y) aoi_epsg in
  let tmp_dir := tmp_dir_of project_id in
  acquire (select_source read_open_dtm gs_aoi) tmp_dir gs_aoi
          (ensure_dir_fs tmp_dir fs) = (ok (out, out_int), fs1) ->
  out !! "dtm_meta" = Some (VMeta m) ->
  crs m = None ->
  anc_main project_id (min_x, min_y, max_x, max_y) aoi_epsg fs
    = (raise AttributeError, fs1).
Proof.
  intros gs_aoi tmp_dir Hacq Hmeta Hcrs.
  rewrite anc_main_eval, stages_eval.
  fold gs_aoi. fold tmp_dir. rewrite Hacq.
  assert (Hform : exists msg src0 mosaic out_trans,
             out = <["out_msg" := VStr msg]>
                     (merged_out src0 mosaic out_trans)).
  { rewrite acquire_eval in Hacq.
    destruct (primary_of _ tmp_dir gs_aoi (ensure_dir_fs tmp_dir fs))
      as [[e|o] fsa] eqn:Hprim; [discriminate|].
    destruct (primary_ok_inv _ _ _ _ _ _ Hprim)
      as (i_dir & msg & src0 & mosaic & out_trans & _ & _ & ->).
    exists msg, src0, mosaic, out_trans.
    destruct (secondary_of _ tmp_dir gs_aoi) as [sec|].
    - destruct (sec fsa) as [[e|oi] fsb]; [discriminate|].
      injection Hacq as <- _ _. reflexivity.
    - injection Hacq as <- _ _. reflexivity. }
  destruct Hform as (msg & src0 & mosaic & out_trans & ->).
  lazy beta iota delta [ok]. rewrite prepare_output_merged.
  assert (Hsrc : ds_crs src0 = None).
  { destruct src0 as [nm [drv dty nd w h cnt c t] arr].
    injection Hmeta as <-. exact Hcrs. }
  rewrite Hsrc. reflexivity.
Qed.
End OutputFacts.

(** ** Python string operations *)

Section StringFacts.

Lemma string_length_app (a b : string) :
  String.length (a +:+ b) = (String.length a + String.length b)%nat.
Proof.
  induction a as [|c a IH]; simpl; [reflexivity|].
  rewrite IH. reflexivity.
Qed.

Lemma string_app_cons (x : Ascii.ascii) (a b : string) :
  String x a +:+ b = String x (a +:+ b).
Proof. reflexivity. Qed.

Lemma string_app_nil (b : string) : EmptyString +:+ b = b.
Proof. reflexivity. Qed.

Lemma string_app_assoc (a b c : string) :
  (a +:+ b) +:+ c = a +:+ (b +:+ c).
Proof.
  induction a as [|x a IH]; [reflexivity|].
  rewrite !string_app_cons, IH. reflexivity.
Qed.

Lemma has_char_app (c : Ascii.ascii) (a b : string) :
  Py.has_char c (a +:+ b) = Py.has_char c a || Py.has_char c b.
Proof.
  induction a as [|x a IH]; [reflexivity|].
  rewrite string_app_cons. simpl. rewrite IH, orb_assoc. reflexivity.
Qed.

Lemma split_no_sep (sep : Ascii.ascii) (s : string) :
  Py.has_char sep s = false -> Py.split sep s = [s].
Proof.
  induction s as [|x s IH]; simpl; [reflexivity|].
  intros Hno. apply orb_false_iff in Hno as [Hx Hs].
  rewrite Hx, (IH Hs). reflexivity.
Qed.

Lemma split_app_sep (sep : Ascii.ascii) (a b : string) :
  Py.has_char sep a = false ->
  Py.split sep (a +:+ String sep b) = a :: Py.split sep b.
Proof.
  induction a as [|x a IH].
  - intros _. rewrite string_app_nil. simpl.
    rewrite Ascii.eqb_refl. reflexivity.
  - rewrite string_app_cons. simpl.
    intros Hno. apply orb_false_iff in Hno as [Hx Ha].
    rewrite Hx, (IH Ha). reflexivity.
Qed.

Lemma split_length (sep : Ascii.ascii) (s : string) :
  length (Py.split sep s) = S (Py.count_char sep s).
Proof.
  induction s as [|x s IH]; simpl; [reflexivity|].
  destruct (Ascii.eqb x sep); simpl.
  - rewrite IH. reflexivity.
  - destruct (Py.split sep s) as [|w ws]; simpl in *; [discriminate|].
    exact IH.
Qed.

Lemma readline_no_eol (s : string) :
  Py.has_char Py.LF_char s = false ->
  Py.has_char Py.CR_char s = false ->
  Py.readline s = s.
Proof.
  induction s as [|x s IH]; simpl; [reflexivity|].
  intros Hlf Hcr.
  apply orb_false_iff in Hlf as [Hx Hs].
  apply orb_false_iff in Hcr as [Hx' Hs'].
  rewrite Hx, Hx', (IH Hs Hs'). reflexivity.
Qed.

Lemma readline_first_line (a rest : string) (c : Ascii.ascii) :
  Py.has_char Py.LF_char a = false ->
  Py.has_char Py.CR_char a = false ->
  c = Py.LF_char \/ c = Py.CR_char ->
  Py.readline (a +:+ String c rest) = a +:+ Py.LF.
Proof.
  intros Hlf Hcr Hc. induction a as [|x a IH].
  - rewrite !string_app_nil. simpl.
    destruct Hc as [-> | ->]; reflexivity.
  - rewrite !string_app_cons. simpl.
    apply orb_false_iff in Hlf as [Hx Ha].
    apply orb_false_iff in Hcr as [Hx' Ha'].
    rewrite Hx, Hx', (IH Ha Ha'). reflexivity.
Qed.

Lemma ends_with_app (sfx a : string) : Py.ends_with sfx (a +:+ sfx) = true.
Proof.
  induction a as [|x a IH].
  - rewrite string_app_nil.
    destruct sfx; simpl; rewrite ?String.eqb_refl, ?Ascii.eqb_refl;
      reflexivity.
  - rewrite string_app_cons. simpl. rewrite IH. apply orb_true_r.
Qed.

Lemma ends_with_char_absent (c : Ascii.ascii) (s : string) :
  Py.has_char c s = false -> Py.ends_with (String c EmptyString) s = false.
Proof.
  induction s as [|x s IH]; simpl; [reflexivity|].
  intros Hno. apply orb_false_iff in Hno as [Hx Hs].
  rewrite (IH Hs), orb_false_r. rewrite Hx. reflexivity.
Qed.

Lemma substring_prefix (a b : string) :
  String.substring 0 (String.length a) (a +:+ b) = a.
Proof.
  induction a as [|x a IH].
  - rewrite string_app_nil. destruct b; reflexivity.
  - rewrite string_app_cons. simpl. rewrite IH. reflexivity.
Qed.

Lemma drop_last_app (a b : string) :
  Py.drop_last (String.length b) (a +:+ b) = a.
Proof.
  unfold Py.drop_last. rewrite string_length_app.
  replace (String.length a + String.length b - String.length b)%nat
    with (String.length a) by lia.
  apply substring_prefix.
Qed.
End StringFacts.

(** ** The raster tools on the working storage *)

Section ToolFacts.
Context {G : Type} `{Geometry G} `{Collaborators G}.
Import anc_tools.

Lemma suffixed_ne (d sfx : string) : sfx <> "" -> d +:+ sfx <> d.
Proof.
  intros Hsfx Heq. apply (f_equal String.length) in Heq.
  rewrite string_length_app in Heq.
  destruct sfx as [|c sfx]; [congruence|]. simpl in Heq. lia.
Qed.

Lemma assign_one_crs (epsg : Z) (tif : Dataset) :
  ds_crs (assign_one epsg tif) = Some (default epsg (ds_crs tif)).
Proof.
  unfold assign_one. destruct (ds_crs tif) as [c|] eqn:Hc; simpl.
  - exact Hc.
  - reflexivity.
Qed.




(** The listing of a directory after [assign_crs]. *)
Lemma assign_crs_listing (tif_dir : string) (epsg : Z) (fs : FS)
    (d : string) :
  default [] (fs_tifs (snd (assign_crs tif_dir epsg fs)) !! d) =
    if bool_decide (d = tif_dir)
    then map (assign_one epsg) (default [] (fs_tifs fs !! tif_dir))
    else default [] (fs_tifs fs !! d).
Proof.
  unfold assign_crs, mbind, glob_tif, write_tifs, mret. simpl.
  destruct (default [] (fs_tifs fs !! tif_dir)) as [|t l] eqn:Hl; simpl.
  - case_bool_decide as Hd; [subst d; exact Hl|reflexivity].
  - case_bool_decide as Hd.
    + subst d. rewrite lookup_insert_eq. reflexivity.
    + rewrite lookup_insert_ne by congruence. reflexivity.
Qed.

(** *** Writing files into a directory *)

Lemma kept_nil (l : list Dataset) : kept [] l = l.
Proof.
  unfold kept. induction l as [|d l IH]; [reflexivity|].
  rewrite filter_cons. destruct (decide _) as [_|Hno].
  - rewrite IH. reflexivity.
  - contradiction Hno. apply not_elem_of_nil.
Qed.

Lemma kept_others (n : string) (names : list string) (l : list Dataset) :
  kept names (others n l) = kept (n :: names) l.
Proof.
  unfold kept, others. rewrite list_filter_filter.
  apply list_filter_iff. intros d. rewrite not_elem_of_cons. tauto.
Qed.

Lemma map_id_on {A : Type} (f : A -> A) (l : list A) :
  (forall x, x ∈ l -> f x = x) -> map f l = l.
Proof.
  induction l as [|x l IH]; intros Hf; [reflexivity|].
  cbn [map]. rewrite (Hf x) by (apply elem_of_cons; left; reflexivity).
  rewrite IH; [reflexivity|].
  intros y Hy. apply Hf. apply elem_of_cons. right. exact Hy.
Qed.

(** Up to the order of the listing, writing a file replaces the file of
    that name or adds one. *)
Lemma placed_perm (o_dir : string) (l : list Dataset) (ds : Dataset) :
  placed o_dir l ds ≡ₚ ds :: others (ds_name ds) l.
Proof. unfold placed. apply dir_order_perm. Qed.

Lemma fill_step_perm (o_dir : string) (l : list Dataset) (ds : Dataset) :
  fill_step o_dir l ds
  ≡ₚ fill_result ds :: others (fill_name (ds_name ds)) l.
Proof.
  unfold fill_step, updated.
  etransitivity;
    [apply Permutation_map; apply placed_perm|].
  cbn [map]. change (ds_name (fill_copy ds)) with (fill_name (ds_name ds)).
  change (ds_name (fill_result ds)) with (fill_name (ds_name ds)).
  rewrite bool_decide_eq_true_2 by reflexivity.
  rewrite map_id_on; [reflexivity|].
  intros d Hd. unfold others in Hd. apply list_elem_of_filter in Hd as [Hd _].
  rewrite bool_decide_eq_false_2 by exact Hd. reflexivity.
Qed.

(** A run of writes under names that differ from one another: the
    directory lists what was written and the files it listed before under
    other names. *)
Lemma written_perm {A : Type} (step : list Dataset -> A -> list Dataset)
    (out : A -> Dataset) :
  (forall l a, step l a ≡ₚ out a :: others (ds_name (out a)) l) ->
  forall (xs : list A) (l : list Dataset),
    NoDup (map (fun a => ds_name (out a)) xs) ->
    fold_left step xs l
    ≡ₚ map out xs ++ kept (map (fun a => ds_name (out a)) xs) l.
Proof.
  intros Hstep xs. induction xs as [|a xs IH]; intros l Hnd.
  - cbn [fold_left map app]. rewrite kept_nil. reflexivity.
  - cbn [fold_left map] in *. apply NoDup_cons in Hnd as [Hnew Hnd].
    etransitivity; [apply (IH _ Hnd)|].
    assert (Hkept : kept (map (fun a => ds_name (out a)) xs) (step l a)
                    ≡ₚ out a :: kept (ds_name (out a)
                                       :: map (fun a => ds_name (out a)) xs)
                                      l).
    { etransitivity;
        [unfold kept; apply filter_Permutation; apply Hstep|].
      fold (kept (map (fun a => ds_name (out a)) xs)
                 (out a :: others (ds_name (out a)) l)).
      unfold kept at 1. rewrite filter_cons.
      destruct (decide _) as [_|Hno]; [|contradiction].
      fold (kept (map (fun a => ds_name (out a)) xs)
                 (others (ds_name (out a)) l)).
      rewrite kept_others. reflexivity. }
    rewrite Hkept. symmetry. apply Permutation_middle.
Qed.

Lemma put_tifs_run (o_dir : string) (tifs : list Dataset) (fs : FS) :
  exists fs',
    put_tifs o_dir tifs fs = (ok tt, fs')
    /\ default [] (fs_tifs fs' !! o_dir)
       = fold_left (placed o_dir) tifs (default [] (fs_tifs fs !! o_dir))
    /\ (forall d, d <> o_dir -> fs_tifs fs' !! d = fs_tifs fs !! d)
    /\ fs_dirs fs' = fs_dirs fs.
Proof.
  revert fs. induction tifs as [|ds tifs IH]; intros fs.
  - exists fs. repeat split; reflexivity.
  - cbn [put_tifs fold_left]. unfold mbind at 1. unfold put_tif at 1.
    set (fs1 := mkFS (fs_dirs fs) (fs_locked fs)
                  (<[o_dir := placed o_dir
                                (default [] (fs_tifs fs !! o_dir)) ds]>
                     (fs_tifs fs))).
    destruct (IH fs1) as (fs' & Hrun & Hlist & Hother & Hdirs).
    exists fs'. split; [exact Hrun|]. split; [|split].
    + rewrite Hlist. unfold fs1. cbn [fs_tifs].
      rewrite lookup_insert_eq. reflexivity.
    + intros d Hd. rewrite (Hother d Hd). unfold fs1. cbn [fs_tifs].
      rewrite lookup_insert_ne by congruence. reflexivity.
    + rewrite Hdirs. reflexivity.
Qed.

(** One turn of the loop of [fill_tif] on the storage. *)
Lemma fill_turn (o_dir : string) (ds : Dataset) (fs : FS) :
  exists fs1,
    (do _ <- put_tif o_dir (fill_copy ds);
     update_tif o_dir (fill_result ds)) fs = (ok tt, fs1)
    /\ default [] (fs_tifs fs1 !! o_dir)
       = fill_step o_dir (default [] (fs_tifs fs !! o_dir)) ds
    /\ (forall d, d <> o_dir -> fs_tifs fs1 !! d = fs_tifs fs !! d)
    /\ fs_dirs fs1 = fs_dirs fs.
Proof.
  eexists. split; [reflexivity|]. cbn [fs_tifs fs_dirs].
  split; [|split].
  - rewrite !lookup_insert_eq. reflexivity.
  - intros d Hd. rewrite !lookup_insert_ne by congruence. reflexivity.
  - reflexivity.
Qed.

Lemma fill_loop_cons (o_dir : string) (ds : Dataset) (more : list Dataset)
    (fs fs1 : FS) :
  (do _ <- put_tif o_dir (fill_copy ds);
   update_tif o_dir (fill_result ds)) fs = (ok tt, fs1) ->
  fill_loop o_dir (ds :: more) fs =
    match snd (gdal_fill_nodata (fill_copy ds)) with
    | Some e => (raise e, fs1)
    | None => fill_loop o_dir more fs1
    end.
Proof.
  intros Hturn. cbn [fill_loop].
  unfold mbind in Hturn |- *. unfold put_tif in Hturn |- *.
  unfold update_tif at 1 in Hturn. unfold update_tif at 1.
  injection Hturn as <-.
  destruct (snd (gdal_fill_nodata (fill_copy ds))); reflexivity.
Qed.

Lemma fill_loop_ok (o_dir : string) (todo : list Dataset) :
  Forall (fun ds => snd (gdal_fill_nodata (fill_copy ds)) = None) todo ->
  forall fs,
  exists fs',
    fill_loop o_dir todo fs = (ok tt, fs')
    /\ default [] (fs_tifs fs' !! o_dir)
       = fold_left (fill_step o_dir) todo
                   (default [] (fs_tifs fs !! o_dir))
    /\ (forall d, d <> o_dir -> fs_tifs fs' !! d = fs_tifs fs !! d)
    /\ fs_dirs fs' = fs_dirs fs.
Proof.
  induction 1 as [|ds todo Hds _ IH]; intros fs.
  - exists fs. repeat split; reflexivity.
  - destruct (fill_turn o_dir ds fs) as (fs1 & Hturn & Hl1 & Ho1 & Hd1).
    rewrite (fill_loop_cons _ _ _ _ _ Hturn), Hds.
    destruct (IH fs1) as (fs' & Hrun & Hlist & Hother & Hdirs).
    exists fs'. split; [exact Hrun|]. split; [|split].
    + rewrite Hlist, Hl1. reflexivity.
    + intros d Hd. rewrite (Hother d Hd). apply Ho1. exact Hd.
    + rewrite Hdirs. exact Hd1.
Qed.

Lemma fill_loop_fail (o_dir : string) (before : list Dataset)
    (ds : Dataset) (later : list Dataset) (e : exn) :
  Forall (fun ds => snd (gdal_fill_nodata (fill_copy ds)) = None) before ->
  snd (gdal_fill_nodata (fill_copy ds)) = Some e ->
  forall fs,
  exists fs',
    fill_loop o_dir (before ++ ds :: later) fs = (raise e, fs')
    /\ default [] (fs_tifs fs' !! o_dir)
       = fold_left (fill_step o_dir) (before ++ [ds])
                   (default [] (fs_tifs fs !! o_dir))
    /\ (forall d, d <> o_dir -> fs_tifs fs' !! d = fs_tifs fs !! d).
Proof.
  intros Hbefore Hds.
  induction Hbefore as [|d0 before Hd0 _ IH]; intros fs; cbn [app].
  - destruct (fill_turn o_dir ds fs) as (fs1 & Hturn & Hl1 & Ho1 & _).
    rewrite (fill_loop_cons _ _ _ _ _ Hturn), Hds.
    exists fs1. split; [reflexivity|]. split; [exact Hl1|exact Ho1].
  - destruct (fill_turn o_dir d0 fs) as (fs1 & Hturn & Hl1 & Ho1 & _).
    rewrite (fill_loop_cons _ _ _ _ _ Hturn), Hd0.
    destruct (IH fs1) as (fs' & Hrun & Hlist & Hother).
    exists fs'. split; [exact Hrun|]. split.
    + rewrite Hlist, Hl1. reflexivity.
    + intros d Hd. rewrite (Hother d Hd). apply Ho1. exact Hd.
Qed.

Lemma fill_tif_eval (i_dir : string) (fs : FS) :
  fill_tif i_dir fs =
    match fill_loop (i_dir +:+ "_fill") (default [] (fs_tifs fs !! i_dir))
                    (ensure_dir_fs (i_dir +:+ "_fill") fs) with
    | (inl e, fs') => (inl e, fs')
    | (inr _, fs') =>
        (ok (mkStageOut "File/s successfully filled!" (i_dir +:+ "_fill")),
         fs')
    end.
Proof.
  unfold fill_tif. unfold mbind at 1. unfold glob_tif at 1.
  unfold mbind at 1. rewrite ensure_dir_eval.
  unfold mbind, mret. lazy beta iota delta [ok].
  destruct (fill_loop _ _ _) as [[e|u] fs']; reflexivity.
Qed.

Lemma ensure_dir_fs_dirs (p : string) (fs : FS) :
  p ∈ fs_dirs (ensure_dir_fs p fs).
Proof.
  unfold ensure_dir_fs. case_bool_decide as Hin; [exact Hin|].
  simpl. apply elem_of_union. left. apply elem_of_singleton. reflexivity.
Qed.

(** The name of a copy: the last four characters of the name of the
    raster, [.tif] for a file the pattern [*.tif] matched, give way to
    [_fill.tif]. *)
Lemma fill_name_stem (stem sfx : string) :
  String.length sfx = 4%nat ->
  fill_name (stem +:+ sfx) = stem +:+ "_fill.tif".
Proof.
  intros Hlen. unfold fill_name.
  rewrite <- Hlen, drop_last_app. reflexivity.
Qed.

Lemma fill_dir_ne (i_dir : string) : i_dir <> i_dir +:+ "_fill".
Proof.
  intros Heq. symmetry in Heq. revert Heq. apply suffixed_ne. discriminate.
Qed.

(** X8.  When the interpolation raises on no raster of the input
    directory and the copies get names that differ from one another,
    [fill_tif] returns the directory named after the input with [_fill]
    appended; that directory exists and lists, in the order of the file
    system, one filled copy per input raster, under the name of the input
    with [.tif] replaced by [_fill.tif], and next to them the files it
    listed before under other names; the input directory lists what it
    listed before. *)
Theorem fill_tif_copies_every_raster (i_dir : string) (fs : FS) :
  let o_dir := i_dir +:+ "_fill" in
  let dem_fps := default [] (fs_tifs fs !! i_dir) in
  let names := map (fun ds => fill_name (ds_name ds)) dem_fps in
  Forall (fun ds => snd (gdal_fill_nodata (fill_copy ds)) = None) dem_fps ->
  NoDup names ->
  exists fs',
    fill_tif i_dir fs
      = (ok (mkStageOut "File/s successfully filled!" o_dir), fs')
    /\ default [] (fs_tifs fs' !! o_dir)
       ≡ₚ map fill_result dem_fps
          ++ kept names (default [] (fs_tifs fs !! o_dir))
    /\ default [] (fs_tifs fs' !! i_dir) = dem_fps
    /\ o_dir ∈ fs_dirs fs'
    /\ map ds_name (map fill_result dem_fps) = names
    /\ (forall stem sfx : string,
          String.length sfx = 4%nat ->
          fill_name (stem +:+ sfx) = stem +:+ "_fill.tif").
Proof.
  intros o_dir dem_fps names Hfill Hnames. rewrite fill_tif_eval.
  fold o_dir. fold dem_fps.
  destruct (fill_loop_ok o_dir dem_fps Hfill (ensure_dir_fs o_dir fs))
    as (fs' & Hrun & Hlist & Hother & Hdirs).
  exists fs'. rewrite Hrun. split; [reflexivity|].
  rewrite ensure_dir_fs_tifs in Hlist, Hother.
  split; [|split].
  - rewrite Hlist.
    apply (written_perm (fill_step o_dir) fill_result
             (fill_step_perm o_dir) dem_fps _ Hnames).
  - unfold dem_fps. rewrite (Hother i_dir); [reflexivity|].
    apply fill_dir_ne.
  - split; [rewrite Hdirs; apply ensure_dir_fs_dirs|].
    split; [|exact fill_name_stem].
    unfold names. rewrite map_map. reflexivity.
Qed.

(** X9.  When the interpolation raises on one raster, [fill_tif] ends with
    that exception and nothing is rolled back: the directory of filled
    rasters lists the copies of the rasters that came before the failing
    one, the copy of the failing raster itself, which was created before
    the interpolation started, and the files it listed before under other
    names; the rasters after the failing one are not copied, and the input
    directory lists what it listed before. *)
Theorem fill_tif_failure_leaves_the_copies (i_dir : string) (fs : FS)
    (before later : list Dataset) (ds : Dataset) (e : exn) :
  let o_dir := i_dir +:+ "_fill" in
  let names := map (fun ds => fill_name (ds_name ds)) (before ++ [ds]) in
  default [] (fs_tifs fs !! i_dir) = before ++ ds :: later ->
  Forall (fun ds => snd (gdal_fill_nodata (fill_copy ds)) = None) before ->
  snd (gdal_fill_nodata (fill_copy ds)) = Some e ->
  NoDup names ->
  exists fs',
    fill_tif i_dir fs = (raise e, fs')
    /\ default [] (fs_tifs fs' !! o_dir)
       ≡ₚ map fill_result (before ++ [ds])
          ++ kept names (default [] (fs_tifs fs !! o_dir))
    /\ fill_result ds ∈ default [] (fs_tifs fs' !! o_dir)
    /\ default [] (fs_tifs fs' !! i_dir) = before ++ ds :: later
    /\ ds_name (fill_result ds) = fill_name (ds_name ds)
    /\ (forall stem sfx : string,
          String.length sfx = 4%nat ->
          fill_name (stem +:+ sfx) = stem +:+ "_fill.tif").
Proof.
  intros o_dir names Hdir Hbefore Hds Hnames. rewrite fill_tif_eval, Hdir.
  fold o_dir.
  destruct (fill_loop_fail o_dir before ds later e Hbefore Hds
              (ensure_dir_fs o_dir fs))
    as (fs' & Hrun & Hlist & Hother).
  exists fs'. rewrite Hrun. split; [reflexivity|].
  rewrite ensure_dir_fs_tifs in Hlist, Hother.
  assert (Hperm : default [] (fs_tifs fs' !! o_dir)
                  ≡ₚ map fill_result (before ++ [ds])
                     ++ kept names (default [] (fs_tifs fs !! o_dir))).
  { rewrite Hlist.
    apply (written_perm (fill_step o_dir) fill_result
             (fill_step_perm o_dir) (before ++ [ds]) _ Hnames). }
  split; [exact Hperm|]. split.
  - rewrite Hperm. apply elem_of_app. left.
    rewrite map_app. apply elem_of_app. right.
    apply elem_of_cons. left. reflexivity.
  - split; [rewrite (Hother i_dir); [exact Hdir|]; apply fill_dir_ne|].
    split; [reflexivity|exact fill_name_stem].
Qed.

Lemma nodata_in_map_zero (v : Z) (array : list Z) :
  v <> 0 ->
  existsb (Z.eqb v)
          (map (fun x => if nodata_in (Some v) [x] then 0 else x) array)
  = false.
Proof.
  intros Hv. induction array as [|x array IH]; [reflexivity|].
  cbn [map existsb]. rewrite IH, orb_false_r.
  unfold nodata_in. cbn [existsb]. rewrite orb_false_r.
  destruct (Z.eqb v x) eqn:Hx.
  - apply Z.eqb_neq. exact Hv.
  - exact Hx.
Qed.

(** X10.  The fill step on a band: a band that holds no nodata pixel is
    returned as it is, without calling the interpolation; otherwise, when
    the nodata value is not zero, the result holds no nodata pixel,
    whatever the interpolation left ([nodata_check] answers [False]), and
    has as many pixels as the interpolation returned.  When the nodata
    value is zero, the pixels the interpolation left at nodata stay at
    nodata. *)
Theorem fill_band_removes_nodata (fill_nodata : list Z -> list Z)
    (nodata : option Z) (array : list Z) :
  (nodata_in nodata array = false ->
   fill_band fill_nodata nodata array = array)
  /\ (nodata <> Some 0 ->
      nodata_check nodata (fill_band fill_nodata nodata array) = false)
  /\ (nodata_in nodata array = true ->
      length (fill_band fill_nodata nodata array)
      = length (fill_nodata array))
  /\ (nodata = Some 0 ->
      nodata_in nodata array = true ->
      fill_band fill_nodata nodata array = fill_nodata array).
Proof.
  unfold nodata_check, fill_band. split; [|split; [|split]].
  - intros ->. reflexivity.
  - intros Hnz.
    destruct (nodata_in nodata array) eqn:Hin; [|rewrite Hin; reflexivity].
    cbv zeta.
    destruct (nodata_in nodata (fill_nodata array)) eqn:Hleft;
      [|rewrite Hleft; reflexivity].
    destruct nodata as [v|]; [|discriminate].
    unfold nodata_in at 1. rewrite nodata_in_map_zero; [reflexivity|].
    congruence.
  - intros ->. cbv zeta.
    destruct (nodata_in nodata (fill_nodata array)); [|reflexivity].
    apply length_map.
  - intros -> ->. cbv zeta.
    destruct (nodata_in (Some 0) (fill_nodata array)); [|reflexivity].
    rewrite <- (map_id (fill_nodata array)) at 2.
    apply map_ext. intros x. simpl.
    destruct x; reflexivity.
Qed.

Lemma las_intensity_run (i_dir : string) (gs_aoi : GeoSeries G) (epsg : Z)
    (fs : FS) (tifs : list Dataset) :
  lastools_blast2dem i_dir (gs_bounds (reproject gs_aoi epsg)) = ok tifs ->
  exists fs2,
    las_intensity i_dir gs_aoi epsg fs =
      (ok (mkStageOut "Successfuly created Intensity from LAZ!"
                      (i_dir +:+ "_toIntensity")), fs2)
    /\ default [] (fs_tifs fs2 !! (i_dir +:+ "_toIntensity"))
       = fold_left (placed (i_dir +:+ "_toIntensity")) tifs
           (default [] (fs_tifs fs !! (i_dir +:+ "_toIntensity"))).
Proof.
  intros Hblast. unfold las_intensity.
  rewrite (mbind_ok_run _ _ _ _ _ (ensure_dir_eval _ fs)).
  unfold mbind at 1. unfold lift at 1. rewrite Hblast.
  lazy beta iota delta [ok].
  destruct (put_tifs_run (i_dir +:+ "_toIntensity") tifs
              (ensure_dir_fs (i_dir +:+ "_toIntensity") fs))
    as (fs2 & Hput & Hlist & _).
  exists fs2. rewrite (mbind_ok_run _ _ _ _ _ Hput).
  split; [reflexivity|].
  rewrite Hlist, ensure_dir_fs_tifs. reflexivity.
Qed.

Lemma assign_crs_ok (tif_dir : string) (epsg : Z) (fs : FS) :
  (do _ <- assign_crs tif_dir epsg; mret tt) fs
  = (ok tt, snd (assign_crs tif_dir epsg fs)).
Proof.
  unfold assign_crs, mbind, glob_tif, mret. cbn [fst snd].
  destruct (default [] (fs_tifs fs !! tif_dir)); reflexivity.
Qed.

Lemma merge_clip_result (i_dir : string) (gs_aoi : GeoSeries G) (fs : FS) :
  fst (merge_clip i_dir gs_aoi fs) =
    match default [] (fs_tifs fs !! i_dir) with
    | [] => raise IndexError
    | t0 :: rest =>
        match rasterio_merge (t0 :: rest) (clip_of t0 gs_aoi) with
        | inl e => inl e
        | inr (mosaic, out_trans) => ok (merged_out t0 mosaic out_trans)
        end
    end.
Proof.
  rewrite merge_clip_eval.
  destruct (default [] (fs_tifs fs !! i_dir)) as [|t0 rest];
    [reflexivity|].
  cbv zeta. fold (clip_of t0 gs_aoi).
  destruct (rasterio_merge _ _) as [e|[mosaic out_trans]]; reflexivity.
Qed.

(** X11.  The point-cloud branch of a region, once the index ran and the
    rasterisation wrote its files, under names that differ from one
    another: the directory of intensity rasters lists, in the order of the
    file system, the files just written and the files it listed before
    under other names, and the branch merges all of them: in the regions
    that assign the CRS before merging (NL, SI) with their CRS completed,
    so that there always is a clip rectangle, in the others (DK, DE) as
    they are listed, with the clip rectangle decided on the first one.  A
    directory that lists nothing ends the branch with [IndexError]. *)
Theorem laz_branch_merges_the_directory (dwn_dir : string)
    (gs_aoi : GeoSeries G) (epsg : Z) (assign : bool) (fs : FS)
    (tifs : list Dataset) :
  let o_dir := dwn_dir +:+ "_toIntensity" in
  let listed :=
    default [] (fs_tifs (snd (las_intensity dwn_dir gs_aoi epsg fs))
                  !! o_dir) in
  let merged := if assign then map (assign_one epsg) listed else listed in
  lastools_lasindex dwn_dir = ok tt ->
  lastools_blast2dem dwn_dir (gs_bounds (reproject gs_aoi epsg))
    = ok tifs ->
  NoDup (map ds_name tifs) ->
  listed ≡ₚ tifs ++ kept (map ds_name tifs)
                         (default [] (fs_tifs fs !! o_dir))
  /\ fst (anc_regions.laz_branch dwn_dir gs_aoi epsg assign fs) =
       match merged with
       | [] => raise IndexError
       | t0 :: rest =>
           match rasterio_merge (t0 :: rest) (clip_of t0 gs_aoi) with
           | inl e => inl e
           | inr (mosaic, out_trans) =>
               ok (merged_out t0 mosaic out_trans)
           end
       end
  /\ (assign = true ->
      forall t, t ∈ merged -> clip_of t gs_aoi <> None).
Proof.
  intros o_dir listed merged Hidx Hblast Hnames.
  destruct (las_intensity_run dwn_dir gs_aoi epsg fs tifs Hblast)
    as (fs2 & Hint & Hlist).
  fold o_dir in Hint, Hlist.
  assert (Hlisted : listed = default [] (fs_tifs fs2 !! o_dir)).
  { unfold listed. rewrite Hint. reflexivity. }
  split; [|split].
  - rewrite Hlisted, Hlist.
    etransitivity;
      [apply (written_perm (placed o_dir) (fun t => t)
                (placed_perm o_dir) tifs _ Hnames)|].
    rewrite map_id. reflexivity.
  - unfold anc_regions.laz_branch.
    rewrite (mbind_ok_run (las_index dwn_dir) _ fs fs tt)
      by (unfold las_index, lift; rewrite Hidx; reflexivity).
    rewrite (mbind_ok_run _ _ _ _ _ Hint). cbn [out_dir]. fold o_dir.
    unfold merged. destruct assign.
    + rewrite (mbind_ok_run _ _ _ _ _ (assign_crs_ok o_dir epsg fs2)).
      rewrite merge_clip_result, assign_crs_listing.
      rewrite bool_decide_eq_true_2 by reflexivity.
      rewrite <- Hlisted. reflexivity.
    + rewrite (mbind_ok_run (mret tt) _ fs2 fs2 tt) by reflexivity.
      rewrite merge_clip_result, <- Hlisted. reflexivity.
  - intros -> t Ht. unfold merged in Ht.
    apply list_elem_of_In, in_map_iff in Ht as (t' & <- & _).
    unfold clip_of. rewrite assign_one_crs. discriminate.
Qed.
End ToolFacts.


(** ** The matchers over the whole catalog *)

Section MatcherCatalogFacts.
Context {G : Type} `{Geometry G}.

Lemma srtm_names_filter (net_crs : Z) (rows : list (dwn_SRTM.Row G))
    (aoi : GeoSeries G) :
  dwn_SRTM.get_tile_names (mkFishnet net_crs rows) aoi =
    map dwn_SRTM.tile_name
      (filter (fun row =>
                 intersects (gs_geom (gs_envelope (reproject aoi net_crs)))
                            (dwn_SRTM.geometry row) = true) rows).
Proof.
  unfold dwn_SRTM.get_tile_names. cbn [fn_crs fn_rows].
  rewrite matcher_aoi.
  rewrite (append_loop_filter
             (fun row => intersects _ (dwn_SRTM.geometry row))).
  reflexivity.
Qed.

Lemma nrw_names_flat_map (net_crs : Z) (rows : list (dwn_DE.Row G))
    (aoi : GeoSeries G) (data_type : string) :
  dwn_DE.get_tile_names (mkFishnet net_crs rows) aoi data_type =
    if String.eqb data_type "DTM" then
      ok (flat_map (nrw_row_ids (gs_envelope (reproject aoi net_crs))
                      (dwn_DE.url_path +:+ "dgm1_xyz/dgm1_xyz/")
                      dwn_DE.file_name) rows)
    else if String.eqb data_type "LAZ" then
      ok (flat_map (nrw_row_ids (gs_envelope (reproject aoi net_crs))
                      (dwn_DE.url_path +:+ "3dm_l_las/3dm_l_las/")
                      dwn_DE.laz_name) rows)
    else raise (ValueError ("Unrecognized data type '" +:+ data_type
                            +:+ "' dwn_DE.py.")).
Proof.
  unfold dwn_DE.get_tile_names. cbn [fn_crs fn_rows].
  rewrite matcher_aoi.
  destruct (String.eqb data_type "DTM").
  - cbn [rbind ok]. rewrite nrw_loop_flat_map. reflexivity.
  - destruct (String.eqb data_type "LAZ").
    + cbn [rbind ok]. rewrite nrw_loop_flat_map. reflexivity.
    + reflexivity.
Qed.

(** X12.  Matching goes row by row: the result for a catalog made of two
    parts is the result for the first part followed by the result for the
    second, for the SRTM, the Dutch and the NRW matcher alike.  So the
    order of the catalog is the order of the result, and a row listed
    twice is matched twice: nothing is deduplicated. *)
Theorem matchers_distribute_over_catalog (net_crs : Z) (aoi : GeoSeries G) :
  (forall rows1 rows2 : list (dwn_SRTM.Row G),
     dwn_SRTM.get_tile_names (mkFishnet net_crs (rows1 ++ rows2)) aoi =
       dwn_SRTM.get_tile_names (mkFishnet net_crs rows1) aoi
       ++ dwn_SRTM.get_tile_names (mkFishnet net_crs rows2) aoi)
  /\ (forall rows1 rows2 : list (dwn_NL.Row G),
        let t := dwn_NL.get_tile_names (mkFishnet net_crs (rows1 ++ rows2))
                                       aoi in
        let t1 := dwn_NL.get_tile_names (mkFishnet net_crs rows1) aoi in
        let t2 := dwn_NL.get_tile_names (mkFishnet net_crs rows2) aoi in
        t = dwn_NL.mkTiles
              (dwn_NL.tile_names t1 ++ dwn_NL.tile_names t2)
              (dwn_NL.laz_url t1 ++ dwn_NL.laz_url t2)
              (dwn_NL.dtm_url t1 ++ dwn_NL.dtm_url t2)
              (dwn_NL.ahn2_i t1 ++ dwn_NL.ahn2_i t2)
              (dwn_NL.ahn2_r t1 ++ dwn_NL.ahn2_r t2))
  /\ (forall (rows1 rows2 : list (dwn_DE.Row G)) (data_type : string),
        dwn_DE.get_tile_names (mkFishnet net_crs (rows1 ++ rows2)) aoi
                              data_type =
          rbind (dwn_DE.get_tile_names (mkFishnet net_crs rows1) aoi
                                       data_type)
            (fun tiles1 =>
               rbind (dwn_DE.get_tile_names (mkFishnet net_crs rows2) aoi
                                            data_type)
                 (fun tiles2 => ok (tiles1 ++ tiles2)))).
Proof.
  split; [|split].
  - intros rows1 rows2. rewrite !srtm_names_filter.
    rewrite filter_app, map_app. reflexivity.
  - intros rows1 rows2 t t1 t2. unfold t, t1, t2.
    unfold dwn_NL.get_tile_names. cbn [fn_crs fn_rows].
    rewrite matcher_aoi, !nl_loop_filter. cbn [dwn_NL.tile_names
      dwn_NL.laz_url dwn_NL.dtm_url dwn_NL.ahn2_i dwn_NL.ahn2_r app].
    rewrite filter_app, !map_app. reflexivity.
  - intros rows1 rows2 data_type. rewrite !nrw_names_flat_map.
    destruct (String.eqb data_type "DTM").
    + cbn [rbind ok]. rewrite flat_map_app. reflexivity.
    + destruct (String.eqb data_type "LAZ").
      * cbn [rbind ok]. rewrite flat_map_app. reflexivity.
      * reflexivity.
Qed.

(** X13.  The NRW matcher requests a file twice when a matched row and its
    matched neighbour are both in the catalog: if a row after [r1] in the
    catalog carries, as its point-cloud file name, one of the three names
    synthesized for [r1], then that name occurs in the result once for
    [r1] and once more for the row itself. *)
Theorem nrw_neighbour_requested_twice (fishnet : Fishnet (dwn_DE.Row G))
    (aoi : GeoSeries G) (r1 r2 : dwn_DE.Row G)
    (pre mid post : list (dwn_DE.Row G)) :
  let aoi_pr := gs_envelope (reproject aoi (fn_crs fishnet)) in
  let laz_main := dwn_DE.url_path +:+ "3dm_l_las/3dm_l_las/" in
  let ax := py_round_div (dwn_DE.left r1) 1000 in
  let ay := py_round_div (dwn_DE.bottom r1) 1000 in
  fn_rows fishnet = pre ++ r1 :: mid ++ r2 :: post ->
  intersects (gs_geom aoi_pr) (dwn_DE.geometry r1) = true ->
  intersects (gs_geom aoi_pr) (dwn_DE.geometry r2) = true ->
  dwn_DE.laz_name r2 ∈ [ dwn_DE.laz_tile (ax + 1) ay;
                          dwn_DE.laz_tile ax (ay + 1);
                          dwn_DE.laz_tile (ax + 1) (ay + 1) ] ->
  exists before between after,
    dwn_DE.get_tile_names fishnet aoi "LAZ" =
      ok (before ++ (laz_main +:+ dwn_DE.laz_name r2)
            :: between ++ (laz_main +:+ dwn_DE.laz_name r2) :: after).
Proof.
  intros aoi_pr laz_main ax ay Hrows Hr1 Hr2 Hname.
  destruct fishnet as [net_crs rows]. cbn [fn_rows fn_crs] in *. subst rows.
  rewrite nrw_names_flat_map. cbn [String.eqb Ascii.eqb Bool.eqb].
  fold aoi_pr. fold laz_main.
  set (ids := nrw_row_ids aoi_pr laz_main dwn_DE.laz_name).
  rewrite flat_map_app. cbn [flat_map]. rewrite flat_map_app.
  cbn [flat_map].
  assert (H1 : exists a b,
             ids r1 = a ++ (laz_main +:+ dwn_DE.laz_name r2) :: b).
  { unfold ids, nrw_row_ids. rewrite Hr1. fold ax. fold ay.
    apply elem_of_cons in Hname as [->|Hname].
    { eexists [_], [_; _]. reflexivity. }
    apply elem_of_cons in Hname as [->|Hname].
    { eexists [_; _], [_]. reflexivity. }
    apply elem_of_cons in Hname as [->|Hname].
    { eexists [_; _; _], []. reflexivity. }
    apply elem_of_nil in Hname. destruct Hname. }
  destruct H1 as (a & b & Hids1).
  assert (H2 : exists c, ids r2 = (laz_main +:+ dwn_DE.laz_name r2) :: c).
  { unfold ids, nrw_row_ids. rewrite Hr2. eexists. reflexivity. }
  destruct H2 as (c & Hids2).
  rewrite Hids1, Hids2.
  exists (flat_map ids pre ++ a), (b ++ flat_map ids mid),
         (c ++ flat_map ids post).
  f_equal. rewrite <- ?app_assoc. cbn [app]. rewrite <- ?app_assoc.
  cbn [app]. reflexivity.
Qed.
End MatcherCatalogFacts.


(** ** The credentials file and the reading of integers *)

Section PyFacts.

(** X14.  Reading the credentials gives back what was written: for a
    user name and a password that hold no space, line feed or carriage
    return, a file whose first line is the user name, one space and the
    password yields exactly this pair, whether the line is the last one
    without a line end or is ended by a line feed, a carriage return or
    both, and whatever follows the line. *)
Theorem read_credentials_round_trip (user password eol rest : string) :
  Py.has_char " " user = false ->
  Py.has_char " " password = false ->
  Py.has_char Py.LF_char user = false ->
  Py.has_char Py.LF_char password = false ->
  Py.has_char Py.CR_char user = false ->
  Py.has_char Py.CR_char password = false ->
  eol ∈ [Py.LF; Py.CR; Py.CR +:+ Py.LF] ->
  dwn_SRTM.read_credentials
    (Some (user +:+ " " +:+ password +:+ eol +:+ rest))
    = ok (user, password)
  /\ dwn_SRTM.read_credentials (Some (user +:+ " " +:+ password))
       = ok (user, password).
Proof.
  intros Hu Hp Hul Hpl Huc Hpc Heol.
  assert (Hlf : Py.has_char Py.LF_char (user +:+ " " +:+ password)
                = false).
  { rewrite !has_char_app, Hul, Hpl. reflexivity. }
  assert (Hcr : Py.has_char Py.CR_char (user +:+ " " +:+ password)
                = false).
  { rewrite !has_char_app, Huc, Hpc. reflexivity. }
  assert (Hline : exists c tail,
             (c = Py.LF_char \/ c = Py.CR_char)
             /\ eol +:+ rest = String c tail).
  { apply elem_of_cons in Heol as [->|Heol];
      [exists Py.LF_char, rest; split; [left|]; reflexivity|].
    apply elem_of_cons in Heol as [->|Heol];
      [exists Py.CR_char, rest; split; [right|]; reflexivity|].
    apply elem_of_cons in Heol as [->|Heol];
      [|apply elem_of_nil in Heol; contradiction].
    exists Py.CR_char, (Py.LF +:+ rest). split; [right|]; reflexivity. }
  destruct Hline as (c & tail & Hc & Htail).
  split; unfold dwn_SRTM.read_credentials.
  - replace (user +:+ " " +:+ password +:+ eol +:+ rest)
      with ((user +:+ " " +:+ password) +:+ String c tail)
      by (rewrite <- Htail, !string_app_assoc; reflexivity).
    rewrite (readline_first_line _ tail c Hlf Hcr Hc).
    rewrite !string_app_assoc.
    change (" " +:+ password +:+ Py.LF)
      with (String " "%char (password +:+ Py.LF)).
    rewrite (split_app_sep " "%char user _ Hu).
    rewrite split_no_sep by (rewrite has_char_app, Hp; reflexivity).
    rewrite ends_with_app.
    rewrite (drop_last_app password Py.LF
             : Py.drop_last 1 (password +:+ Py.LF) = password).
    reflexivity.
  - rewrite (readline_no_eol _ Hlf Hcr).
    change (" " +:+ password) with (String " "%char password).
    rewrite (split_app_sep " "%char user _ Hu).
    rewrite (split_no_sep " "%char password Hp).
    unfold Py.LF. rewrite (ends_with_char_absent _ _ Hpl). reflexivity.
Qed.

(** X15.  The credentials are read exactly when the first line of the file
    holds one space: with no space, or with more than one (a password with
    a space in it), the unpacking raises [ValueError], which the handler
    for [IOError] around it does not catch; the handler turns only a file
    that cannot be opened into the exit of the program. *)
Theorem read_credentials_needs_one_space (content : string) :
  (Py.count_char " " (Py.readline content) = 1%nat ->
   is_ok (dwn_SRTM.read_credentials (Some content)) = true)
  /\ (Py.count_char " " (Py.readline content) <> 1%nat ->
      dwn_SRTM.read_credentials (Some content) = raise (ValueError "unpack"))
  /\ dwn_SRTM.read_credentials None = raise (OtherError "SystemExit").
Proof.
  unfold dwn_SRTM.read_credentials.
  pose proof (split_length " "%char (Py.readline content)) as Hlen.
  destruct (Py.split " "%char (Py.readline content)) as [|a [|b [|c l]]];
    simpl in Hlen; repeat split; try reflexivity; intros Hcount;
    try lia.
Qed.
(** *** Printing and reading integers *)

Lemma pretty_N_char_digit (d : N) :
  (d < 10)%N ->
  Py.digit_val (pretty_N_char d) = Some (Z.of_N d)
  /\ Ascii.eqb (pretty_N_char d) "_" = false
  /\ Py.is_space (pretty_N_char d) = false.
Proof.
  intros Hd.
  assert (d = 0 \/ d = 1 \/ d = 2 \/ d = 3 \/ d = 4 \/ d = 5 \/ d = 6
          \/ d = 7 \/ d = 8 \/ d = 9)%N as Hcases by lia.
  repeat (destruct Hcases as [->|Hcases]); try subst d; repeat split.
Qed.

Lemma all_chars_pretty_N_go (p : Ascii.ascii -> bool) (x : N) (s : string) :
  (forall d, (d < 10)%N -> p (pretty_N_char d) = true) ->
  Py.all_chars p (pretty_N_go x s) = Py.all_chars p s.
Proof.
  intros Hp. revert s.
  induction (N.lt_wf_0 x) as [x _ IH]; intros s.
  destruct (decide (x = 0)%N) as [->|Hx].
  - rewrite pretty_N_go_0. reflexivity.
  - rewrite pretty_N_go_step by lia.
    rewrite IH by (apply N.div_lt; lia).
    simpl. rewrite Hp by (apply N.mod_lt; lia). reflexivity.
Qed.

Lemma digits_val_pretty_N_go (x : N) (s : string) :
  (0 < x)%N ->
  Py.digits_val 0 false (pretty_N_go x s)
  = Py.digits_val (Z.of_N x) true s.
Proof.
  revert s. induction (N.lt_wf_0 x) as [x _ IH]; intros s Hx.
  rewrite pretty_N_go_step by exact Hx.
  destruct (pretty_N_char_digit (x `mod` 10)%N) as (Hd & Hu & _);
    [apply N.mod_lt; lia|].
  destruct (decide (x `div` 10 = 0)%N) as [Hq|Hq].
  - rewrite Hq, pretty_N_go_0. simpl. rewrite Hu, Hd.
    f_equal. rewrite (N.div_mod x 10) at 2 by lia.
    rewrite Hq, N.mul_0_r, N.add_0_l. lia.
  - rewrite IH; [|apply N.div_lt; lia|apply N.neq_0_lt_0; exact Hq].
    simpl. rewrite Hu, Hd.
    f_equal. rewrite (N.div_mod x 10) at 3 by lia.
    rewrite N2Z.inj_add, N2Z.inj_mul. reflexivity.
Qed.

Lemma lstrip_id (s : string) :
  Py.all_chars (fun c => negb (Py.is_space c)) s = true -> Py.lstrip s = s.
Proof.
  destruct s as [|c s]; simpl; [reflexivity|].
  intros Hall. apply andb_true_iff in Hall as [Hc _].
  apply negb_true_iff in Hc. rewrite Hc. reflexivity.
Qed.

Lemma rstrip_id (s : string) :
  Py.all_chars (fun c => negb (Py.is_space c)) s = true -> Py.rstrip s = s.
Proof.
  induction s as [|c s IH]; simpl; [reflexivity|].
  intros Hall. apply andb_true_iff in Hall as [Hc Hs].
  apply negb_true_iff in Hc. rewrite (IH Hs).
  destruct s; [rewrite Hc|]; reflexivity.
Qed.

Lemma has_char_all_chars (c : Ascii.ascii) (s : string) :
  Py.all_chars (fun x => negb (Ascii.eqb x c)) s = true ->
  Py.has_char c s = false.
Proof.
  induction s as [|x s IH]; simpl; [reflexivity|].
  intros Hall. apply andb_true_iff in Hall as [Hx Hs].
  apply negb_true_iff in Hx. rewrite Hx, (IH Hs). reflexivity.
Qed.

(** The decimal text of a positive number: its digits, nothing else. *)
Lemma pretty_pos_text (x : positive) :
  exists c r,
    pretty_N_go (Npos x) "" = String c r
    /\ Ascii.eqb c "-" = false /\ Ascii.eqb c "+" = false
    /\ Py.digits_val 0 false (String c r) = Some (Zpos x)
    /\ Py.all_chars (fun c => negb (Py.is_space c)) (String c r) = true
    /\ Py.has_char "_" (String c r) = false.
Proof.
  pose proof (digits_val_pretty_N_go (Npos x) "" ltac:(lia)) as Hval.
  simpl in Hval.
  assert (Hsp : Py.all_chars (fun c => negb (Py.is_space c))
                  (pretty_N_go (Npos x) "") = true).
  { rewrite all_chars_pretty_N_go; [reflexivity|].
    intros d Hd. destruct (pretty_N_char_digit d Hd) as (_ & _ & ->).
    reflexivity. }
  assert (Hus : Py.all_chars (fun c => negb (Ascii.eqb c "_"))
                  (pretty_N_go (Npos x) "") = true).
  { rewrite all_chars_pretty_N_go; [reflexivity|].
    intros d Hd. destruct (pretty_N_char_digit d Hd) as (_ & -> & _).
    reflexivity. }
  assert (Hdg : Py.all_chars (fun c => bool_decide (Py.digit_val c <> None))
                  (pretty_N_go (Npos x) "") = true).
  { rewrite all_chars_pretty_N_go; [reflexivity|].
    intros d Hd. destruct (pretty_N_char_digit d Hd) as (-> & _ & _).
    reflexivity. }
  destruct (pretty_N_go (Npos x) "") as [|c r] eqn:Htext;
    [simpl in Hval; discriminate|].
  exists c, r. split; [reflexivity|].
  simpl in Hdg. apply andb_true_iff in Hdg as [Hc _].
  apply bool_decide_eq_true_1 in Hc.
  split; [|split; [|split; [|split]]].
  - destruct (Ascii.eqb c "-") eqn:E; [|reflexivity].
    apply Ascii.eqb_eq in E. subst c. contradiction Hc. reflexivity.
  - destruct (Ascii.eqb c "+") eqn:E; [|reflexivity].
    apply Ascii.eqb_eq in E. subst c. contradiction Hc. reflexivity.
  - exact Hval.
  - exact Hsp.
  - apply has_char_all_chars. exact Hus.
Qed.

(** Reading the decimal text of an integer gives the integer back. *)
Lemma int_pretty (z : Z) : Py.int (pretty z) = ok z.
Proof.
  destruct z as [|x|x].
  - reflexivity.
  - change (pretty (Zpos x)) with (pretty_N_go (Npos x) "").
    destruct (pretty_pos_text x) as (c & r & -> & Hm & Hp & Hval & Hsp & _).
    unfold Py.int, Py.strip.
    rewrite (lstrip_id _ Hsp), (rstrip_id _ Hsp).
    rewrite Hm, Hp, Hval. reflexivity.
  - change (pretty (Zneg x)) with ("-" +:+ pretty_N_go (Npos x) "").
    destruct (pretty_pos_text x) as (c & r & -> & Hm & Hp & Hval & Hsp & _).
    assert (Hall : Py.all_chars (fun c => negb (Py.is_space c))
                     ("-" +:+ String c r) = true).
    { change ("-" +:+ String c r) with (String "-" (String c r)).
      change (Py.all_chars _ (String "-" (String c r)))
        with (Py.all_chars (fun c => negb (Py.is_space c)) (String c r)).
      exact Hsp. }
    unfold Py.int, Py.strip.
    rewrite (lstrip_id _ Hall), (rstrip_id _ Hall).
    change ("-" +:+ String c r) with (String "-" (String c r)).
    cbv beta iota. rewrite Ascii.eqb_refl, Hval. reflexivity.
Qed.

Lemma pretty_no_underscore (z : Z) : Py.has_char "_" (pretty z) = false.
Proof.
  destruct z as [|x|x].
  - reflexivity.
  - change (pretty (Zpos x)) with (pretty_N_go (Npos x) "").
    destruct (pretty_pos_text x) as (c & r & -> & _ & _ & _ & _ & Hus).
    exact Hus.
  - change (pretty (Zneg x)) with ("-" +:+ pretty_N_go (Npos x) "").
    destruct (pretty_pos_text x) as (c & r & -> & _ & _ & _ & _ & Hus).
    exact Hus.
Qed.
End PyFacts.

(** ** Archives: [dwn_DK.extract_files] and [dwn_MX.extract_zip] *)

Section ArchiveFacts.

Lemma tile_entry_fields (kind res sfx : string) (gy gx : Z) :
  String.length sfx = 4%nat ->
  Py.has_char "_" kind = false ->
  Py.has_char "_" res = false ->
  Py.split "_" (Py.drop_last 4 (dwn_DK.tile_entry kind res gy gx sfx))
  = [kind; res; pretty gy; pretty gx].
Proof.
  intros Hlen Hkind Hres. unfold dwn_DK.tile_entry.
  replace (kind +:+ "_" +:+ res +:+ "_" +:+ pretty gy +:+ "_"
           +:+ pretty gx +:+ sfx)
    with ((kind +:+ "_" +:+ res +:+ "_" +:+ pretty gy +:+ "_"
           +:+ pretty gx) +:+ sfx)
    by (rewrite <- !string_app_assoc; reflexivity).
  rewrite <- Hlen, drop_last_app.
  change ("_" +:+ ?x) with (String "_"%char x).
  rewrite (split_app_sep "_" kind _ Hkind).
  change ("_" +:+ pretty gy +:+ "_" +:+ pretty gx)
    with (String "_"%char (pretty gy +:+ String "_"%char (pretty gx))).
  rewrite (split_app_sep "_" res _ Hres).
  rewrite (split_app_sep "_" (pretty gy) _ (pretty_no_underscore gy)).
  rewrite (split_no_sep "_" (pretty gx) (pretty_no_underscore gx)).
  reflexivity.
Qed.

Lemma covered_tile_entry (x_min x_max y_min y_max : Z)
    (kind res sfx : string) (gy gx : Z) :
  String.length sfx = 4%nat ->
  Py.has_char "_" kind = false ->
  Py.has_char "_" res = false ->
  dwn_DK.covered x_min x_max y_min y_max
    (dwn_DK.tile_entry kind res gy gx sfx)
  = ok ((y_min <=? gy) && (gy <? y_max)
        && ((x_min <=? gx) && (gx <? x_max))).
Proof.
  intros Hlen Hkind Hres. unfold dwn_DK.covered.
  rewrite (tile_entry_fields kind res sfx gy gx Hlen Hkind Hres).
  unfold Py.index; simpl lookup. unfold rbind, ok.
  rewrite (int_pretty gy). unfold ok.
  destruct ((y_min <=? gy) && (gy <? y_max)); [|reflexivity].
  rewrite (int_pretty gx). reflexivity.
Qed.

Lemma km_window (lo hi g : Z) :
  (dwn_DK.floor_km lo <=? g) && (g <? dwn_DK.ceil_km hi)
  = bool_decide (lo < 1000 * (g + 1) /\ 1000 * g < hi).
Proof.
  unfold dwn_DK.floor_km, dwn_DK.ceil_km.
  pose proof (Z.div_mod lo 1000 ltac:(lia)) as Hlo.
  pose proof (Z.mod_pos_bound lo 1000 ltac:(lia)) as Hlo'.
  pose proof (Z.div_mod (- hi) 1000 ltac:(lia)) as Hhi.
  pose proof (Z.mod_pos_bound (- hi) 1000 ltac:(lia)) as Hhi'.
  destruct (bool_decide_reflect (lo < 1000 * (g + 1) /\ 1000 * g < hi))
    as [[H1 H2]|Hn].
  - apply andb_true_iff. split; [apply Z.leb_le|apply Z.ltb_lt]; lia.
  - apply andb_false_iff.
    destruct (Z.leb_spec (lo / 1000) g) as [Hle|Hgt]; [|left; reflexivity].
    right. apply Z.ltb_ge.
    assert (~ 1000 * g < hi) by (intros ?; apply Hn; split; lia). lia.
Qed.

Lemma extract_loop_entries (b : Bounds) (kind res sfx : string)
    (cells : list (Z * Z)) :
  String.length sfx = 4%nat ->
  Py.has_char "_" kind = false ->
  Py.has_char "_" res = false ->
  let '(minx, miny, maxx, maxy) := b in
  dwn_DK.extract_loop (dwn_DK.floor_km minx) (dwn_DK.ceil_km maxx)
    (dwn_DK.floor_km miny) (dwn_DK.ceil_km maxy)
    (map (fun c => dwn_DK.tile_entry kind res c.1 c.2 sfx) cells)
  = (map (fun c => dwn_DK.tile_entry kind res c.1 c.2 sfx)
         (filter (fun c => cell_overlaps b c = true) cells), None).
Proof.
  destruct b as [[[minx miny] maxx] maxy]. intros Hlen Hkind Hres.
  induction cells as [|[gy gx] cells IH]; [reflexivity|].
  cbn [map dwn_DK.extract_loop fst snd].
  rewrite (covered_tile_entry _ _ _ _ kind res sfx gy gx Hlen Hkind Hres).
  unfold ok. rewrite IH. rewrite filter_cons.
  rewrite !km_window.
  unfold cell_overlaps at 2.
  destruct (bool_decide_reflect (miny < 1000 * (gy + 1) /\ 1000 * gy < maxy))
    as [Hy|Hy];
  destruct (bool_decide_reflect (minx < 1000 * (gx + 1) /\ 1000 * gx < maxx))
    as [Hx|Hx]; cbn [andb];
  destruct (decide _) as [Hin|Hout]; try reflexivity; exfalso.
  - apply Hout. apply bool_decide_eq_true_2. tauto.
  - apply bool_decide_eq_true_1 in Hin. tauto.
  - apply bool_decide_eq_true_1 in Hin. tauto.
  - apply bool_decide_eq_true_1 in Hin. tauto.
Qed.

Lemma filter_entries (kind res sfx : string) (cells : list (Z * Z)) :
  filter (fun item => Py.ends_with sfx item = true)
         (map (fun c => dwn_DK.tile_entry kind res c.1 c.2 sfx) cells)
  = map (fun c => dwn_DK.tile_entry kind res c.1 c.2 sfx) cells.
Proof.
  induction cells as [|c cells IH]; [reflexivity|].
  cbn [map]. rewrite filter_cons, IH.
  destruct (decide _) as [_|Hno]; [reflexivity|].
  contradiction Hno. unfold dwn_DK.tile_entry.
  replace (kind +:+ "_" +:+ res +:+ "_" +:+ pretty c.1 +:+ "_"
           +:+ pretty c.2 +:+ sfx)
    with ((kind +:+ "_" +:+ res +:+ "_" +:+ pretty c.1 +:+ "_"
           +:+ pretty c.2) +:+ sfx)
    by (rewrite <- !string_app_assoc; reflexivity).
  apply ends_with_app.
Qed.

Lemma extract_files_eval (namelist : list string) (b : Bounds)
    (dt sfx : string) :
  archive_suffix dt sfx ->
  dwn_DK.extract_files namelist b dt
  = dwn_DK.extract_loop (dwn_DK.floor_km b.1.1.1) (dwn_DK.ceil_km b.1.2)
      (dwn_DK.floor_km b.1.1.2) (dwn_DK.ceil_km b.2)
      (filter (fun item => Py.ends_with sfx item = true) namelist).
Proof.
  destruct b as [[[minx miny] maxx] maxy].
  intros [[-> ->]|[-> ->]]; reflexivity.
Qed.

(** X16. From an archive of 1 km tiles named
    [<kind>_<res>_<north>_<east><suffix>], [extract_files] extracts exactly
    the tiles whose cell reaches into the open rectangle of the AOI's
    bounds, in the order of the archive, and ends without an exception. *)
Theorem extract_files_takes_overlapping_cells (b : Bounds)
    (dt sfx kind res : string) (cells : list (Z * Z)) :
  archive_suffix dt sfx ->
  Py.has_char "_" kind = false ->
  Py.has_char "_" res = false ->
  dwn_DK.extract_files
    (map (fun c => dwn_DK.tile_entry kind res c.1 c.2 sfx) cells) b dt
  = (map (fun c => dwn_DK.tile_entry kind res c.1 c.2 sfx)
         (filter (fun c => cell_overlaps b c = true) cells), None).
Proof.
  intros Hsfx Hkind Hres.
  assert (Hlen : String.length sfx = 4%nat)
    by (destruct Hsfx as [[_ ->]|[_ ->]]; reflexivity).
  rewrite (extract_files_eval _ b dt sfx Hsfx), filter_entries.
  pose proof (extract_loop_entries b kind res sfx cells Hlen Hkind Hres)
    as Hloop.
  destruct b as [[[minx miny] maxx] maxy]. exact Hloop.
Qed.

Lemma extract_loop_app (x_min x_max y_min y_max : Z)
    (before after : list string) (ex : list string) :
  dwn_DK.extract_loop x_min x_max y_min y_max before = (ex, None) ->
  dwn_DK.extract_loop x_min x_max y_min y_max (before ++ after)
  = (ex ++ (dwn_DK.extract_loop x_min x_max y_min y_max after).1,
     (dwn_DK.extract_loop x_min x_max y_min y_max after).2).
Proof.
  revert ex. induction before as [|flnm before IH]; intros ex.
  - intros [= <-]. cbn [app]. destruct (dwn_DK.extract_loop _ _ _ _ after).
    reflexivity.
  - cbn [app dwn_DK.extract_loop].
    destruct (dwn_DK.covered x_min x_max y_min y_max flnm) as [e|test];
      [discriminate|].
    destruct (dwn_DK.extract_loop x_min x_max y_min y_max before)
      as [ex' err] eqn:Hrest.
    intros [= <- ->]. rewrite (IH ex' eq_refl).
    destruct test; reflexivity.
Qed.

Lemma covered_too_few_fields (x_min x_max y_min y_max : Z) (flnm : string) :
  (Py.count_char "_" (Py.drop_last 4 flnm) < 2)%nat ->
  dwn_DK.covered x_min x_max y_min y_max flnm = raise IndexError.
Proof.
  intros Hfew. unfold dwn_DK.covered.
  pose proof (split_length "_" (Py.drop_last 4 flnm)) as Hlen.
  unfold Py.index.
  rewrite (lookup_ge_None_2 (Py.split "_" (Py.drop_last 4 flnm)) 2)
    by lia.
  reflexivity.
Qed.

(** X17. An entry with the suffix looked for whose name has fewer than
    three fields stops [extract_files] with an [IndexError]: what was
    extracted from the entries before it stays, and no entry after it is
    looked at. *)
Theorem extract_files_stops_at_short_name (b : Bounds) (dt sfx : string)
    (before after : list string) (bad : string) (ex : list string) :
  archive_suffix dt sfx ->
  Py.ends_with sfx bad = true ->
  (Py.count_char "_" (Py.drop_last 4 bad) < 2)%nat ->
  dwn_DK.extract_files before b dt = (ex, None) ->
  dwn_DK.extract_files (before ++ bad :: after) b dt
  = (ex, Some IndexError).
Proof.
  intros Hsfx Hends Hfew.
  rewrite !(extract_files_eval _ b dt sfx Hsfx).
  intros Hbefore.
  rewrite filter_app, filter_cons.
  destruct (decide _) as [_|Hno]; [|contradiction].
  rewrite (extract_loop_app _ _ _ _ _ _ ex Hbefore).
  cbn [dwn_DK.extract_loop].
  rewrite (covered_too_few_fields _ _ _ _ bad Hfew).
  cbn [raise fst snd]. rewrite app_nil_r. reflexivity.
Qed.

Lemma mx_extract_loop_last (basename : string -> string)
    (extract_ok : string -> bool) (dwn_dir : string)
    (namelist : list string) (fnm : option string) :
  dwn_MX.extract_loop basename extract_ok dwn_dir namelist fnm
  = match last (extracted_xyz extract_ok namelist) with
    | Some fil => Some (os_path_join dwn_dir (basename fil))
    | None => fnm
    end.
Proof.
  revert fnm. induction namelist as [|fil more IH]; intros fnm;
    [reflexivity|].
  cbn [dwn_MX.extract_loop]. rewrite IH.
  unfold extracted_xyz. rewrite filter_cons.
  destruct (Py.ends_with ".xyz" fil) eqn:Hxyz; cbn [orb andb].
  - destruct (extract_ok fil) eqn:Hok.
    + destruct (decide _) as [_|Hno]; [|contradiction Hno; reflexivity].
      rewrite last_cons.
      destruct (last (filter _ more)); reflexivity.
    + destruct (decide _) as [Hyes|_]; [discriminate|].
      reflexivity.
  - destruct (decide _) as [Hyes|_]; [discriminate|].
    destruct (Py.ends_with ".html" fil), (extract_ok fil); reflexivity.
Qed.

(** X18. [extract_zip] returns the path of the last [.xyz] entry of the
    archive that was written to the download directory, and fails on the
    unbound [fnm] when there is no such entry. *)
Theorem extract_zip_returns_last_xyz (basename : string -> string)
    (extract_ok : string -> bool) (dwn_dir : string)
    (namelist : list string) :
  dwn_MX.extract_zip basename extract_ok dwn_dir namelist
  = match last (extracted_xyz extract_ok namelist) with
    | Some fil => ok (os_path_join dwn_dir (basename fil))
    | None => raise (OtherError "UnboundLocalError")
    end.
Proof.
  unfold dwn_MX.extract_zip. rewrite mx_extract_loop_last.
  destruct (last (extracted_xyz extract_ok namelist)); reflexivity.
Qed.
End ArchiveFacts.

(** ** The identifiers the NRW matcher synthesizes *)

Section NrwNames.
Context {G : Type} `{Geometry G}.

(** Python's [round] of a quotient: the nearest integer, and the even one
    of the two when the quotient lies half way. *)
Lemma py_round_div_tie_even (n : Z) :
  2 * Z.abs (1000 * py_round_div n 1000 - n) = 1000 ->
  Z.even (py_round_div n 1000) = true.
Proof.
  unfold py_round_div.
  pose proof (Z.div_mod n 1000 ltac:(lia)) as Hdm.
  pose proof (Z.mod_pos_bound n 1000 ltac:(lia)) as Hr.
  destruct (2 * (n mod 1000) <? 1000) eqn:Hlo;
    [apply Z.ltb_lt in Hlo; lia|apply Z.ltb_ge in Hlo].
  destruct (1000 <? 2 * (n mod 1000)) eqn:Hhi;
    [apply Z.ltb_lt in Hhi; lia|apply Z.ltb_ge in Hhi].
  destruct (Z.even (n / 1000)) eqn:Heven; intros _; [exact Heven|].
  change (n / 1000 + 1) with (Z.succ (n / 1000)).
  rewrite Z.even_succ, <- Z.negb_even, Heven. reflexivity.
Qed.

Lemma laz_tile_fields (x y : Z) :
  Py.split "_" (pretty x +:+ "_" +:+ pretty y +:+ "_1_nw.laz")
  = [pretty x; pretty y; "1"; "nw.laz"].
Proof.
  change ("_" +:+ pretty y +:+ "_1_nw.laz")
    with (String "_"%char (pretty y +:+ String "_"%char "1_nw.laz")).
  rewrite (split_app_sep "_" (pretty x) _ (pretty_no_underscore x)).
  rewrite (split_app_sep "_" (pretty y) _ (pretty_no_underscore y)).
  reflexivity.
Qed.

(** The name of a point-cloud tile tells its cell. *)
Lemma laz_tile_inj (x y x' y' : Z) :
  dwn_DE.laz_tile x y = dwn_DE.laz_tile x' y' -> x = x' /\ y = y'.
Proof.
  unfold dwn_DE.laz_tile. intros Heq.
  apply (inj (String.append "3dm_32_")) in Heq.
  apply (f_equal (Py.split "_")) in Heq.
  rewrite !laz_tile_fields in Heq.
  injection Heq as Hx Hy.
  split; apply (inj pretty); assumption.
Qed.

(** C7.  For either data type the NRW matcher returns, row by row in
    catalog order, for every fishnet row that meets the AOI rectangle the
    row's own file followed by exactly three synthesized names: the tiles
    at [(ax+1, ay)], [(ax, ay+1)] and [(ax+1, ay+1)], where [(ax, ay)] is
    the row's lower-left corner rounded to whole kilometres, to the
    nearest integer and to the even one of a tie.  The three names are
    built from the coordinates alone, [3dm_32_<x>_<y>_1_nw.laz] with the
    coordinates in decimal, so that they differ from one another and tell
    their cell; the catalog is not consulted for them, so they are in the
    result whatever rows the catalog has. *)
Theorem nrw_adjacent_tiles_appended (fishnet : Fishnet (dwn_DE.Row G))
    (aoi : GeoSeries G) :
  let aoi_pr := gs_envelope (reproject aoi (fn_crs fishnet)) in
  let dtm_main := dwn_DE.url_path +:+ "dgm1_xyz/dgm1_xyz/" in
  let laz_main := dwn_DE.url_path +:+ "3dm_l_las/3dm_l_las/" in
  dwn_DE.get_tile_names fishnet aoi "DTM" =
    ok (flat_map (nrw_row_ids aoi_pr dtm_main dwn_DE.file_name)
                 (fn_rows fishnet))
  /\ dwn_DE.get_tile_names fishnet aoi "LAZ" =
       ok (flat_map (nrw_row_ids aoi_pr laz_main dwn_DE.laz_name)
                    (fn_rows fishnet))
  /\ (forall (url_main : string) (file_type : dwn_DE.Row G -> string),
        length (flat_map (nrw_row_ids aoi_pr url_main file_type)
                         (fn_rows fishnet))
        = (4 * length (filter (fun row =>
                         intersects (gs_geom aoi_pr)
                                    (dwn_DE.geometry row) = true)
                         (fn_rows fishnet)))%nat)
  /\ (forall (url_main : string) (file_type : dwn_DE.Row G -> string)
             (row : dwn_DE.Row G),
        row ∈ fn_rows fishnet ->
        intersects (gs_geom aoi_pr) (dwn_DE.geometry row) = true ->
        let ax := py_round_div (dwn_DE.left row) 1000 in
        let ay := py_round_div (dwn_DE.bottom row) 1000 in
        2 * Z.abs (1000 * ax - dwn_DE.left row) <= 1000
        /\ 2 * Z.abs (1000 * ay - dwn_DE.bottom row) <= 1000
        /\ (forall id,
              id ∈ [ url_main +:+ dwn_DE.laz_tile (ax + 1) ay;
                     url_main +:+ dwn_DE.laz_tile ax (ay + 1);
                     url_main +:+ dwn_DE.laz_tile (ax + 1) (ay + 1) ] ->
              id ∈ flat_map (nrw_row_ids aoi_pr url_main file_type)
                            (fn_rows fishnet))
        /\ (2 * Z.abs (1000 * ax - dwn_DE.left row) = 1000 ->
            Z.even ax = true)
        /\ (2 * Z.abs (1000 * ay - dwn_DE.bottom row) = 1000 ->
            Z.even ay = true)
        /\ NoDup [ url_main +:+ dwn_DE.laz_tile (ax + 1) ay;
                   url_main +:+ dwn_DE.laz_tile ax (ay + 1);
                   url_main +:+ dwn_DE.laz_tile (ax + 1) (ay + 1) ])
  /\ (forall x y x' y' : Z,
        dwn_DE.laz_tile x y = dwn_DE.laz_tile x' y' -> x = x' /\ y = y')
  /\ (forall x y : Z,
        Py.split "_" (dwn_DE.laz_tile x y)
        = ["3dm"; "32"; pretty x; pretty y; "1"; "nw.laz"]).
Proof.
  intros aoi_pr dtm_main laz_main.
  split; [|split; [|split; [|split; [|split]]]].
  - unfold dwn_DE.get_tile_names. rewrite matcher_aoi. simpl.
    rewrite nrw_loop_flat_map. reflexivity.
  - unfold dwn_DE.get_tile_names. rewrite matcher_aoi. simpl.
    rewrite nrw_loop_flat_map. reflexivity.
  - intros url_main file_type. apply nrw_ids_length.
  - intros url_main file_type row Hrow Hhit ax ay.
    split; [apply py_round_div_nearest|].
    split; [apply py_round_div_nearest|].
    split; [|split; [apply py_round_div_tie_even|
             split; [apply py_round_div_tie_even|]]].
    + intros id Hid. apply list_elem_of_In, in_flat_map.
      exists row. split; [apply list_elem_of_In; exact Hrow|].
      unfold nrw_row_ids. rewrite Hhit. fold ax. fold ay.
      apply list_elem_of_In. apply elem_of_cons. right. exact Hid.
    + assert (Hne : forall x y x' y',
                (x, y) <> (x', y') ->
                url_main +:+ dwn_DE.laz_tile x y
                <> url_main +:+ dwn_DE.laz_tile x' y').
      { intros x y x' y' Hcell Heq.
        apply (inj (String.append url_main)) in Heq.
        apply laz_tile_inj in Heq as [-> ->]. contradiction. }
      assert (Hcells : forall x y x' y' : Z,
                x <> x' \/ y <> y' -> (x, y) <> (x', y'))
        by (intros x y x' y' Hd Heq; injection Heq; intros; lia).
      apply NoDup_cons. split.
      * rewrite !not_elem_of_cons.
        split; [apply Hne, Hcells; lia|].
        split; [apply Hne, Hcells; lia|apply not_elem_of_nil].
      * apply NoDup_cons. split; [|apply NoDup_singleton].
        rewrite not_elem_of_cons.
        split; [apply Hne, Hcells; lia|apply not_elem_of_nil].
  - apply laz_tile_inj.
  - intros x y. unfold dwn_DE.laz_tile.
    change ("3dm_32_" +:+ pretty x +:+ "_" +:+ pretty y +:+ "_1_nw.laz")
      with ("3dm" +:+ String "_"%char
              ("32" +:+ String "_"%char
                 (pretty x +:+ "_" +:+ pretty y +:+ "_1_nw.laz"))).
    rewrite (split_app_sep "_" "3dm" _ eq_refl).
    rewrite (split_app_sep "_" "32" _ eq_refl).
    rewrite laz_tile_fields. reflexivity.
Qed.
End NrwNames.

(** * The further properties on concrete inputs *)

Section FurtherRuns.
Import Lattice Demo Rough Survey.

Ltac by_evaluation := vm_compute; reflexivity.
Ltac decided :=
  match goal with
  | |- ?P => apply (@bool_decide_unpack P _); vm_compute; exact I
  end.

(** *** Source selection *)

Lemma select_source_sound_witness :
  exists row,
    row ∈ rc_rows open_dtm
    /\ within (gs_geom (reproject (aoi_of in_nl_dk 4326) (rc_crs open_dtm)))
               (geometry row) = true
    /\ abbrev row = "DK".
Proof.
  pose proof (select_source_sound open_dtm (aoi_of in_nl_dk 4326)) as Hs.
  cbv zeta in Hs. destruct Hs as (Hsound & _).
  assert (Hsel : anc_main.select_source open_dtm (aoi_of in_nl_dk 4326)
                 = Some "DK") by by_evaluation.
  destruct (Hsound "DK" Hsel) as [Hbad|Hrow]; [discriminate|exact Hrow].
Defined.

Lemma dispatch_tag_round_trip_witness :
  anc_main.dispatch (tag_of DE_NRW) = DE_NRW
  /\ (anc_main.dispatch (Some "MX") = MX /\ Some "MX" = tag_of MX).
Proof.
  destruct (dispatch_tag_round_trip (Some "MX") DE_NRW) as (Hto & _ & _).
  destruct (dispatch_tag_round_trip (Some "MX") MX) as (_ & Hfrom & _).
  split; [apply Hto; discriminate|].
  split; [reflexivity|]. apply Hfrom; [reflexivity|discriminate].
Defined.

(** *** The output of a run *)

Lemma output_describes_the_mosaic_witness :
  is_ok (fst (anc_main.anc_main "p" in_mx 4326 fs0)) = true
  /\ entry "out_msg" (anc_main.anc_main "p" in_mx 4326 fs0) = None
  /\ entry "crs" (anc_main.anc_main "p" in_mx 4326 fs0)
       = Some (VCrs 4326)
  /\ (exists i_dir fs1,
        primary_dir MX (anc_main.tmp_dir_of "p") (aoi_of in_mx 4326)
                    (ensure_dir_fs (anc_main.tmp_dir_of "p") fs0)
          = (ok i_dir, fs1)
        /\ exists src0 rest mosaic,
             default [] (fs_tifs fs1 !! i_dir) = src0 :: rest
             /\ entry "array_dtm" (anc_main.anc_main "p" in_mx 4326 fs0)
                  = Some (VArr mosaic)).
Proof.
  pose (run := anc_main.anc_main "p" (41, 41, 42, 42) 4326 fs0).
  pose (out := match fst run with inr o => o | inl _ => ∅ end).
  assert (Hrun : anc_main.anc_main "p" (41, 41, 42, 42) 4326 fs0
                 = (ok out, snd run)) by by_evaluation.
  pose proof (output_describes_the_mosaic "p" 41 41 42 42 4326 fs0
                (snd run) out Hrun) as Hshape.
  cbv zeta in Hshape.
  assert (Hr : anc_main.dispatch
                 (anc_main.select_source read_open_dtm
                    (mkGeoSeries (box 41 41 42 42) 4326)) = MX)
    by by_evaluation.
  rewrite Hr in Hshape.
  destruct Hshape
    as (i_dir & fs1 & src0 & rest & mosaic & out_trans & epsg & Hdir
        & Hlist & _ & _ & Harr & _ & _ & _ & _ & _ & _ & _ & _ & Hmsg & _).
  split; [by_evaluation|].
  split; [unfold entry, in_mx; rewrite Hrun; exact Hmsg|].
  split; [by_evaluation|].
  exists i_dir, fs1. split; [exact Hdir|].
  exists src0, rest, mosaic. split; [exact Hlist|].
  unfold entry, in_mx. rewrite Hrun. exact Harr.
Defined.

Lemma output_intensity_entries_witness :
  (entry "array_intensity" (anc_main.anc_main "p" in_mx 4326 fs0)
     = Some VNone
   /\ entry "width_intensity" (anc_main.anc_main "p" in_mx 4326 fs0)
        = None)
  /\ entry "array_intensity"
       (@anc_main.anc_main region lattice_geometry survey "p" in_nl_dk
          4326 fs0)
     = Some (VArr (mkArray (1, 2, 2) [6; 6; 6; 6]))
  /\ (exists i_dir_i fs2 src_i rest_i mosaic_i,
        default [] (fs_tifs fs2 !! i_dir_i) = src_i :: rest_i
        /\ entry "array_intensity"
             (@anc_main.anc_main region lattice_geometry survey "p"
                in_nl_dk 4326 fs0) = Some (VArr mosaic_i)
        /\ entry "width_intensity"
             (@anc_main.anc_main region lattice_geometry survey "p"
                in_nl_dk 4326 fs0) = Some (VNum (shape2 mosaic_i))
        /\ entry "height_intensity"
             (@anc_main.anc_main region lattice_geometry survey "p"
                in_nl_dk 4326 fs0) = Some (VNum (shape1 mosaic_i))).
Proof.
  split; [|split; [by_evaluation|]].
  - pose (run := anc_main.anc_main "p" (41, 41, 42, 42) 4326 fs0).
    pose (out := match fst run with inr o => o | inl _ => ∅ end).
    assert (Hrun : anc_main.anc_main "p" (41, 41, 42, 42) 4326 fs0
                   = (ok out, snd run)) by by_evaluation.
    pose proof (output_intensity_entries "p" 41 41 42 42 4326 fs0 (snd run)
                  out Hrun) as Hout.
    cbv zeta in Hout.
    assert (Hr : anc_main.dispatch
                   (anc_main.select_source read_open_dtm
                      (mkGeoSeries (box 41 41 42 42) 4326)) = MX)
      by by_evaluation.
    rewrite Hr in Hout.
    destruct Hout as [(_ & Harr & Hwidth & _)|Hsome].
    + unfold entry, in_mx. rewrite Hrun. split; [exact Harr|exact Hwidth].
    + destruct Hsome as (sdir & Hsome). destruct Hsome as (d & Hsome).
      destruct Hsome as (fsa & Hsome). destruct Hsome as (d' & Hsome).
      destruct Hsome as (fsb & Hsome). destruct Hsome as (t & Hsome).
      destruct Hsome as (l & Hsome). destruct Hsome as (m & Hsome).
      destruct Hsome as (tr & Hsdir & _). discriminate Hsdir.
  - pose (run := @anc_main.anc_main region lattice_geometry survey "p"
                   (1, 1, 2, 2) 4326 fs0).
    pose (out := match fst run with inr o => o | inl _ => ∅ end).
    assert (Hrun : @anc_main.anc_main region lattice_geometry survey "p"
                     (1, 1, 2, 2) 4326 fs0 = (ok out, snd run))
      by by_evaluation.
    pose proof (@output_intensity_entries region lattice_geometry survey
                  "p" 1 1 2 2 4326 fs0 (snd run) out Hrun) as Hout.
    cbv zeta in Hout.
    assert (Hr : anc_main.dispatch
                   (anc_main.select_source
                      (@read_open_dtm region survey)
                      (mkGeoSeries (box 1 1 2 2) 4326)) = DK)
      by by_evaluation.
    rewrite Hr in Hout.
    destruct Hout as [(Hsec & _)|Hsome]; [discriminate Hsec|].
    destruct Hsome
      as (sdir & i_dir & fs1 & i_dir_i & fs2 & src_i & rest_i & mosaic_i
          & trans_i & _ & _ & _ & Hlist & _ & Harr & Hwidth & Hheight & _).
    exists i_dir_i, fs2, src_i, rest_i, mosaic_i.
    split; [exact Hlist|].
    unfold entry, in_nl_dk. rewrite Hrun.
    split; [exact Harr|]. split; [exact Hwidth|exact Hheight].
Defined.

Lemma mosaic_without_crs_fails_the_run_witness :
  @anc_main.anc_main region lattice_geometry rough "p" (41, 41, 42, 42)
     4326 fs0
  = (raise AttributeError,
     snd (@anc_main.acquire region lattice_geometry rough
            (@anc_main.select_source region lattice_geometry open_dtm
               (aoi_of in_mx 4326))
            (anc_main.tmp_dir_of "p") (aoi_of in_mx 4326)
            (ensure_dir_fs (anc_main.tmp_dir_of "p") fs0))).
Proof.
  pose (acq := @anc_main.acquire region lattice_geometry rough
            (@anc_main.select_source region lattice_geometry open_dtm
               (aoi_of in_mx 4326))
            (anc_main.tmp_dir_of "p") (aoi_of in_mx 4326)
            (ensure_dir_fs (anc_main.tmp_dir_of "p") fs0)).
  pose (out := match fst acq with inr (o, _) => o | inl _ => ∅ end).
  pose (out_int := match fst acq with
                   | inr (_, oi) => oi
                   | inl _ => None
                   end).
  apply (@mosaic_without_crs_fails_the_run region lattice_geometry rough
           "p" 41 41 42 42 4326 fs0 (snd acq) out out_int
           (ds_meta (tile None 9))).
  - by_evaluation.
  - by_evaluation.
  - reflexivity.
Defined.

(** *** Raster tools *)

(** Two rasters are filled next to a file an earlier run left: the
    directory of filled rasters lists three files afterwards. *)
Lemma fill_tif_copies_every_raster_witness :
  exists fs',
    @anc_tools.fill_tif region rough "d" fs_stale
      = (ok (mkStageOut "File/s successfully filled!" ("d" +:+ "_fill")),
         fs')
    /\ length (default [] (fs_tifs fs' !! ("d" +:+ "_fill"))) = 3%nat
    /\ renamed "old_fill.tif" (tile (Some 4326) 1)
         ∈ default [] (fs_tifs fs' !! ("d" +:+ "_fill"))
    /\ renamed "tile-9999_fill.tif" (tile (Some 4326) 0)
         ∈ default [] (fs_tifs fs' !! ("d" +:+ "_fill")).
Proof.
  pose proof (@fill_tif_copies_every_raster region rough "d" fs_stale)
    as Hfill.
  cbv zeta in Hfill.
  destruct Hfill as (fs' & Hrun & Hperm & _).
  - repeat constructor.
  - decided.
  - assert (Hall : map (@anc_tools.fill_result region rough)
                       (default [] (fs_tifs fs_stale !! "d"))
                   ++ kept (map (fun ds => anc_tools.fill_name (ds_name ds))
                                (default [] (fs_tifs fs_stale !! "d")))
                           (default [] (fs_tifs fs_stale
                                          !! ("d" +:+ "_fill")))
                   = [ renamed "tile-9999_fill.tif" (tile (Some 4326) 0);
                       renamed "tile3_fill.tif" (tile (Some 4327) 3);
                       renamed "old_fill.tif" (tile (Some 4326) 1) ])
      by by_evaluation.
    rewrite Hall in Hperm.
    exists fs'. split; [exact Hrun|].
    split; [rewrite Hperm; reflexivity|].
    split; rewrite Hperm; repeat constructor.
Defined.

(** The second of three rasters has no CRS and the interpolation raises
    on it: its copy is in the directory of filled rasters all the same,
    next to the copy of the first. *)
Lemma fill_tif_failure_leaves_the_copies_witness :
  exists fs',
    @anc_tools.fill_tif region rough "d"
       (fs_with [tile (Some 4326) 1; tile None 2; tile (Some 4327) 3])
      = (raise (OtherError "RuntimeError"), fs')
    /\ renamed "tile2_fill.tif" (tile None 2)
         ∈ default [] (fs_tifs fs' !! ("d" +:+ "_fill"))
    /\ length (default [] (fs_tifs fs' !! ("d" +:+ "_fill"))) = 2%nat.
Proof.
  pose proof (@fill_tif_failure_leaves_the_copies region rough "d"
                (fs_with [tile (Some 4326) 1; tile None 2;
                          tile (Some 4327) 3])
                [tile (Some 4326) 1] [tile (Some 4327) 3] (tile None 2)
                (OtherError "RuntimeError")) as Hfail.
  cbv zeta in Hfail.
  destruct Hfail as (fs' & Hrun & Hperm & Hcopy & _).
  - reflexivity.
  - repeat constructor.
  - reflexivity.
  - decided.
  - exists fs'. split; [exact Hrun|]. split; [exact Hcopy|].
    rewrite Hperm. reflexivity.
Defined.

Lemma fill_band_removes_nodata_witness :
  anc_tools.fill_band fill_sevens (Some (-9999)) [1; 2; 3] = [1; 2; 3]
  /\ anc_tools.nodata_check (Some (-9999))
       (anc_tools.fill_band fill_sevens (Some (-9999)) [1; -9999; 3])
       = false
  /\ anc_tools.fill_band (fun a => a) (Some 0) [1; 0; 3] = [1; 0; 3].
Proof.
  destruct (fill_band_removes_nodata fill_sevens (Some (-9999)) [1; 2; 3])
    as (Hkeep & _).
  destruct (fill_band_removes_nodata fill_sevens (Some (-9999))
              [1; -9999; 3]) as (_ & Hfill & _).
  destruct (fill_band_removes_nodata (fun a => a) (Some 0) [1; 0; 3])
    as (_ & _ & _ & Hzero).
  split; [apply Hkeep; reflexivity|].
  split; [apply Hfill; discriminate|].
  apply Hzero; reflexivity.
Defined.

(** The rasterisation writes two rasters into a directory that lists one
    from before: all three are merged, and the clip rectangle is decided
    on the one the file system lists first. *)
Lemma laz_branch_merges_the_directory_witness :
  length (default []
            (fs_tifs (snd (@anc_tools.las_intensity region lattice_geometry
                             rough "d" unit_square 4327 fs_stale))
               !! ("d" +:+ "_toIntensity"))) = 3%nat
  /\ fst (@anc_regions.laz_branch region lattice_geometry rough "d"
            unit_square 4327 false fs_stale)
       = ok (merged_out (tile (Some 4327) 8)
                        (mkArray (1, 2, 2) [8; 8; 8; 8])
                        (mkAffine 1 0 0 0 (-1) 2))
  /\ fst (@anc_regions.laz_branch region lattice_geometry rough "d"
            unit_square 4327 true fs_stale)
       = ok (merged_out (tile (Some 4327) 8)
                        (mkArray (1, 2, 2) [8; 8; 8; 8])
                        (mkAffine 1 0 0 0 (-1) 2)).
Proof.
  pose proof (@laz_branch_merges_the_directory region lattice_geometry
                rough "d" unit_square 4327 false fs_stale
                [tile None 6; tile (Some 4327) 8]) as Hplain.
  pose proof (@laz_branch_merges_the_directory region lattice_geometry
                rough "d" unit_square 4327 true fs_stale
                [tile None 6; tile (Some 4327) 8]) as Hassign.
  cbv zeta in Hplain, Hassign.
  destruct Hplain as (Hperm & Hres & _);
    [reflexivity|reflexivity|decided|].
  destruct Hassign as (_ & Hres' & _);
    [reflexivity|reflexivity|decided|].
  split; [rewrite Hperm; reflexivity|].
  split; [rewrite Hres|rewrite Hres']; by_evaluation.
Defined.

(** *** Tile matching *)

Lemma nrw_neighbour_requested_twice_witness :
  exists before between after,
    dwn_DE.get_tile_names nrw_pair unit_square "LAZ" =
      ok (before
            ++ (dwn_DE.url_path +:+ "3dm_l_las/3dm_l_las/"
                  +:+ "3dm_32_341_5640_1_nw.laz")
            :: between
            ++ (dwn_DE.url_path +:+ "3dm_l_las/3dm_l_las/"
                  +:+ "3dm_32_341_5640_1_nw.laz")
            :: after).
Proof.
  pose proof (nrw_neighbour_requested_twice nrw_pair unit_square
           (dwn_DE.mkRow "dgm1_32_340_5640_1_nw.xyz.gz"
                         "3dm_32_340_5640_1_nw.laz"
                         340000 5640000 (lat_box 0 0 1 1))
           (dwn_DE.mkRow "dgm1_32_341_5640_1_nw.xyz.gz"
                         "3dm_32_341_5640_1_nw.laz"
                         341000 5640000 (lat_box 1 0 2 1))
           [] [] []) as Htwice.
  cbv zeta in Htwice. apply Htwice.
  - reflexivity.
  - by_evaluation.
  - by_evaluation.
  - apply elem_of_cons. left. by_evaluation.
Defined.

(** The fishnet has one row, so none of the three neighbours is in the
    catalog: the matcher returns them all the same. *)
Lemma nrw_adjacent_tiles_appended_witness :
  dwn_DE.get_tile_names nrw_net unit_square "LAZ" =
    ok [ dwn_DE.url_path +:+ "3dm_l_las/3dm_l_las/"
           +:+ "3dm_32_340_5640_1_nw.laz";
         dwn_DE.url_path +:+ "3dm_l_las/3dm_l_las/"
           +:+ "3dm_32_341_5640_1_nw.laz";
         dwn_DE.url_path +:+ "3dm_l_las/3dm_l_las/"
           +:+ "3dm_32_340_5641_1_nw.laz";
         dwn_DE.url_path +:+ "3dm_l_las/3dm_l_las/"
           +:+ "3dm_32_341_5641_1_nw.laz" ]
  /\ dwn_DE.laz_tile 341 5640 <> dwn_DE.laz_tile 340 5641.
Proof.
  pose proof (nrw_adjacent_tiles_appended nrw_net unit_square) as Hnrw.
  cbv zeta in Hnrw. destruct Hnrw as (_ & Hlaz & _ & _ & Hinj & _).
  split; [rewrite Hlaz; by_evaluation|].
  intros Heq. apply Hinj in Heq as [Hx _]. discriminate Hx.
Defined.

(** *** Credentials *)

Lemma read_credentials_round_trip_witness :
  dwn_SRTM.read_credentials
    (Some ("alice" +:+ " " +:+ "s3cret" +:+ (Py.CR +:+ Py.LF)
             +:+ "second line"))
    = ok ("alice", "s3cret")
  /\ dwn_SRTM.read_credentials (Some ("alice" +:+ " " +:+ "s3cret"))
       = ok ("alice", "s3cret").
Proof.
  apply (read_credentials_round_trip "alice" "s3cret" (Py.CR +:+ Py.LF)
           "second line"); try reflexivity.
  decided.
Defined.

(** One space in the first line; two spaces in it; and a first line that a
    carriage return ends before the space. *)
Lemma read_credentials_needs_one_space_witness :
  is_ok (dwn_SRTM.read_credentials (Some "alice s3cret")) = true
  /\ dwn_SRTM.read_credentials (Some "alice s3 cret")
       = raise (ValueError "unpack")
  /\ dwn_SRTM.read_credentials
       (Some ("ab" +:+ Py.CR +:+ "c d" +:+ Py.LF))
       = raise (ValueError "unpack").
Proof.
  destruct (read_credentials_needs_one_space "alice s3cret") as (Hone & _).
  destruct (read_credentials_needs_one_space "alice s3 cret")
    as (_ & Hother & _).
  destruct (read_credentials_needs_one_space
              ("ab" +:+ Py.CR +:+ "c d" +:+ Py.LF))
    as (_ & Hline & _).
  split; [apply Hone; reflexivity|].
  split; [apply Hother; vm_compute; discriminate|].
  apply Hline. vm_compute. discriminate.
Defined.

(** *** Archives *)

(** What [int] reads and what it refuses: white space around the number
    and single underscores between digits are read over; a separator
    character, two underscores in a row and the empty string are not. *)
Example int_reads_decimal_fields :
  Py.int "6170" = ok 6170
  /\ Py.int " -12 " = ok (-12)
  /\ Py.int "1_000" = ok 1000
  /\ is_ok (Py.int (String (Ascii.ascii_of_nat 28) "5")) = false
  /\ is_ok (Py.int "1__0") = false
  /\ is_ok (Py.int "") = false.
Proof. repeat split; by_evaluation. Qed.

Lemma extract_files_takes_overlapping_cells_witness :
  dwn_DK.extract_files
    (map (fun c => dwn_DK.tile_entry "DTM" "1km" c.1 c.2 ".tif") dk_cells)
    dk_bounds "DTM"
  = (map (fun c => dwn_DK.tile_entry "DTM" "1km" c.1 c.2 ".tif")
         (filter (fun c => cell_overlaps dk_bounds c = true) dk_cells),
     None)
  /\ map (fun c => dwn_DK.tile_entry "DTM" "1km" c.1 c.2 ".tif")
         (filter (fun c => cell_overlaps dk_bounds c = true) dk_cells)
     = ["DTM_1km_6170_720.tif"].
Proof.
  split; [|by_evaluation].
  apply (extract_files_takes_overlapping_cells dk_bounds "DTM" ".tif"
           "DTM" "1km" dk_cells).
  - left. split; reflexivity.
  - reflexivity.
  - reflexivity.
Defined.

Lemma extract_files_stops_at_short_name_witness :
  dwn_DK.extract_files
    (["DTM_1km_6170_720.tif"] ++ "readme.tif" :: ["DTM_1km_6170_720.tif"])
    dk_bounds "DTM"
  = (["DTM_1km_6170_720.tif"], Some IndexError).
Proof.
  apply (extract_files_stops_at_short_name dk_bounds "DTM" ".tif"
           ["DTM_1km_6170_720.tif"] ["DTM_1km_6170_720.tif"] "readme.tif"
           ["DTM_1km_6170_720.tif"]).
  - left. split; reflexivity.
  - reflexivity.
  - vm_compute. lia.
  - by_evaluation.
Defined.
End FurtherRuns.
